(** * The PostgreSQL batch loader of [scripts/postgres-data-loader.py]

    A shallow embedding of the [DataLoader] class: the flat CSV row, the
    entity registry kept on [self], the nine target tables, the statements
    the loader sends to the cursor, and the control flow of [run].

    Conventions.
    - A CSV row (a [csv.DictReader] dict) is the record [Row]: one string
      field per column of the input schema.  Every column is assumed to be
      present in the header, so [row['x']] never raises [KeyError].
    - Python [str] is [string]: texts are taken in their UTF-8 encoding.
      Substring tests on code points and on UTF-8 bytes agree, and the only
      characters that [str.lower] can turn into an ASCII letter of the
      keywords looked for here are the ASCII capitals.
    - A Python exception is the [Raise] case of [result]; inside [run] the
      connection state is threaded explicitly, and is still available when
      an exception passes, as the [except] clause of [run] needs it.
    - A Python [float] is the exact value of the decimal literal it was read
      from ([pyfloat]).  The loader never computes with floats: it only
      parses them and hands them to the cursor. *)

From Stdlib Require Import ZArith QArith Qabs Qround List String Ascii Bool Lia.
Import ListNotations.

Local Open Scope string_scope.
Local Open Scope list_scope.
Local Open Scope Z_scope.

Set Implicit Arguments.

(* ===================================================================== *)
(** * Exceptions                                                          *)
(* ===================================================================== *)

(** What the loader's own statements can raise on rows with all columns
    present: [ValueError] from [float], [int] and
    [datetime.fromisoformat] (the argument names the builtin), and
    [KeyError] from a subscript on one of the loader's dictionaries. *)
Inductive exn : Type :=
| ValueError (builtin : string)
| KeyError (key : string).

Inductive result (A : Type) : Type :=
| Ok (a : A)
| Raise (e : exn).

Arguments Ok {A} a.
Arguments Raise {A} e.

Definition is_ok {A} (r : result A) : bool :=
  match r with Ok _ => true | Raise _ => false end.

Declare Scope result_scope.
Delimit Scope result_scope with result.

Notation "x <- c1 ;; c2" :=
  (match c1 with Ok x => c2 | Raise e => Raise e end)
  (at level 61, c1 at next level, right associativity) : result_scope.

(* ===================================================================== *)
(** * Python builtins used by the loader                                  *)
(* ===================================================================== *)

Module Py.

Definition chars (s : string) : list ascii := list_ascii_of_string s.

(** Truthiness of a [str]: the empty string is false. *)
Definition truthy (s : string) : bool :=
  match s with EmptyString => false | String _ _ => true end.

(** ** [str.lower], [in], [split] *)

Definition is_upper (c : ascii) : bool :=
  let n := N_of_ascii c in ((65 <=? n) && (n <=? 90))%N.

Definition lower_char (c : ascii) : ascii :=
  if is_upper c then ascii_of_N (N_of_ascii c + 32) else c.

Fixpoint lower (s : string) : string :=
  match s with
  | EmptyString => EmptyString
  | String c s' => String (lower_char c) (lower s')
  end.

(** [sub in s] *)
Fixpoint contains (sub s : string) : bool :=
  String.prefix sub s ||
  match s with
  | EmptyString => false
  | String _ s' => contains sub s'
  end.

(** [x in l] for a list of strings. *)
Fixpoint in_list (x : string) (l : list string) : bool :=
  match l with
  | [] => false
  | y :: l' => String.eqb x y || in_list x l'
  end.

(** [s.split(sep)] for a one-character separator. *)
Fixpoint split_aux (sep : ascii) (cur : string) (s : string) : list string :=
  match s with
  | EmptyString => [cur]
  | String c s' =>
      if Ascii.eqb c sep then cur :: split_aux sep EmptyString s'
      else split_aux sep (cur ++ String c EmptyString)%string s'
  end.

Definition split (sep : ascii) (s : string) : list string :=
  split_aux sep EmptyString s.

(** ** Scanning decimal digits *)

Definition is_digit (c : ascii) : bool :=
  let n := N_of_ascii c in ((48 <=? n) && (n <=? 57))%N.

Definition digit_val (c : ascii) : Z := Z.of_N (N_of_ascii c) - 48.

(** Whitespace skipped by [int] and [float] around the literal. *)
Definition is_space (c : ascii) : bool :=
  let n := N_of_ascii c in
  ((9 <=? n) && (n <=? 13) || (28 <=? n) && (n <=? 32))%N.

Fixpoint lstrip (s : list ascii) : list ascii :=
  match s with
  | c :: s' => if is_space c then lstrip s' else s
  | [] => []
  end.

Definition strip (s : list ascii) : list ascii :=
  rev (lstrip (rev (lstrip s))).

(** The rest of a [digitpart ::= digit (["_"] digit)*] after its first
    digit: the value read so far, the number of digits, what follows. *)
Fixpoint digits_tail (acc : Z) (n : nat) (s : list ascii)
  : Z * nat * list ascii :=
  match s with
  | c :: s' =>
      if is_digit c then digits_tail (10 * acc + digit_val c) (S n) s'
      else if Ascii.eqb c "_" then
        match s' with
        | d :: s'' =>
            if is_digit d
            then digits_tail (10 * acc + digit_val d) (S n) s''
            else (acc, n, s)
        | [] => (acc, n, s)
        end
      else (acc, n, s)
  | [] => (acc, n, s)
  end.

Definition digitpart (s : list ascii) : option (Z * nat * list ascii) :=
  match s with
  | c :: s' => if is_digit c then Some (digits_tail (digit_val c) 1 s')
               else None
  | [] => None
  end.

(** An optional sign: [true] for a minus. *)
Definition sign (s : list ascii) : bool * list ascii :=
  match s with
  | c :: s' =>
      if Ascii.eqb c "-" then (true, s')
      else if Ascii.eqb c "+" then (false, s')
      else (false, s)
  | [] => (false, s)
  end.

Definition apply_sign (neg : bool) (z : Z) : Z := if neg then - z else z.

(** ** [int(s)] in base 10 *)

Definition int (s : string) : result Z :=
  let (neg, s1) := sign (strip (chars s)) in
  match digitpart s1 with
  | Some (v, _, []) => Ok (apply_sign neg v)
  | _ => Raise (ValueError "int")
  end.

(** ** [float(s)] *)

Inductive pyfloat : Type :=
| Finite (q : Q)
| Inf (neg : bool)
| NaN.

(** [m * 10 ^ e], in lowest terms. *)
Definition scale10 (m e : Z) : Q :=
  Qred (if 0 <=? e then (m * 10 ^ e) # 1
        else m # Z.to_pos (10 ^ (- e))).

(** [number ::= [digitpart] "." digitpart | digitpart ["."]]: the digits
    as one integer, and how many of them follow the point. *)
Definition number (s : list ascii) : option (Z * nat * list ascii) :=
  match digitpart s with
  | Some (i, _, r) =>
      match r with
      | c :: r' =>
          if Ascii.eqb c "." then
            match digitpart r' with
            | Some (_, _, _) =>
                match r' with
                | d :: r'' =>
                    let '(v, n, rest) :=
                      digits_tail (10 * i + digit_val d) 1 r'' in
                    Some (v, n, rest)
                | [] => None
                end
            | None => Some (i, 0%nat, r')
            end
          else Some (i, 0%nat, r)
      | [] => Some (i, 0%nat, r)
      end
  | None =>
      match s with
      | c :: r' =>
          if Ascii.eqb c "." then
            match digitpart r' with
            | Some (f, n, rest) => Some (f, n, rest)
            | None => None
            end
          else None
      | [] => None
      end
  end.

(** [exponent ::= ("e" | "E") [sign] digitpart], zero when absent. *)
Definition exponent (s : list ascii) : option (Z * list ascii) :=
  match s with
  | c :: s' =>
      if Ascii.eqb c "e" || Ascii.eqb c "E" then
        let (neg, s1) := sign s' in
        match digitpart s1 with
        | Some (v, _, rest) => Some (apply_sign neg v, rest)
        | None => None
        end
      else Some (0, s)
  | [] => Some (0, s)
  end.

Definition lower_chars (s : list ascii) : string :=
  lower (string_of_list_ascii s).

Definition float (s : string) : result pyfloat :=
  let (neg, s1) := sign (strip (chars s)) in
  let word := lower_chars s1 in
  if String.eqb word "inf" || String.eqb word "infinity" then Ok (Inf neg)
  else if String.eqb word "nan" then Ok NaN
  else
    match number s1 with
    | Some (m, nfrac, r) =>
        match exponent r with
        | Some (e, []) =>
            Ok (Finite (scale10 (apply_sign neg m) (e - Z.of_nat nfrac)))
        | _ => Raise (ValueError "float")
        end
    | None => Raise (ValueError "float")
    end.

(** [bool(n)] for an [int]. *)
Definition bool_of_int (n : Z) : bool := negb (n =? 0).

End Py.

(* ===================================================================== *)
(** * [datetime.fromisoformat]                                           *)
(* ===================================================================== *)

(** The format read is the one [datetime.isoformat] writes,
    [YYYY-MM-DD[*HH[:MM[:SS[.fff[fff]]]][+HH:MM[:SS[.ffffff]]]]], as in
    [Lib/datetime.py] of Python 3.7 to 3.10, with fields of ASCII digits.
    Later interpreters read further ISO 8601 forms as well; no theorem
    below rests on a string of such a form being refused. *)
Module Datetime.

Record datetime : Type := mk_datetime {
  year : Z; month : Z; day : Z;
  hour : Z; minute : Z; second : Z; microsecond : Z;
  (** [tzinfo]: the UTC offset in microseconds, [None] when naive. *)
  utcoffset : option Z
}.

Definition is_leap (y : Z) : bool :=
  (y mod 4 =? 0) && (negb (y mod 100 =? 0) || (y mod 400 =? 0)).

Definition days_in_month (y m : Z) : Z :=
  if m =? 2 then (if is_leap y then 29 else 28)
  else if (m =? 4) || (m =? 6) || (m =? 9) || (m =? 11) then 30
  else 31.

(** A run of exactly [n] digits at the head of [s]. *)
Fixpoint fixed_digits (n : nat) (acc : Z) (s : list ascii)
  : option (Z * list ascii) :=
  match n with
  | O => Some (acc, s)
  | S n' =>
      match s with
      | c :: s' =>
          if Py.is_digit c
          then fixed_digits n' (10 * acc + Py.digit_val c) s'
          else None
      | [] => None
      end
  end.

Definition expect (c : ascii) (s : list ascii) : option (list ascii) :=
  match s with
  | d :: s' => if Ascii.eqb c d then Some s' else None
  | [] => None
  end.

(** [_parse_isoformat_date] on the first ten characters. *)
Definition parse_isoformat_date (s : list ascii)
  : option (Z * Z * Z * list ascii) :=
  match fixed_digits 4 0 s with
  | Some (y, s1) =>
      match expect "-" s1 with
      | Some s2 =>
          match fixed_digits 2 0 s2 with
          | Some (m, s3) =>
              match expect "-" s3 with
              | Some s4 =>
                  match fixed_digits 2 0 s4 with
                  | Some (d, s5) => Some (y, m, d, s5)
                  | None => None
                  end
              | None => None
              end
          | None => None
          end
      | None => None
      end
  | None => None
  end.

(** The fraction of a second: three or six digits, in microseconds. *)
Definition parse_fraction (s : list ascii) : option Z :=
  match fixed_digits 3 0 s with
  | Some (ms, []) => Some (ms * 1000)
  | Some (ms, r) =>
      match fixed_digits 3 0 r with
      | Some (us, []) => Some (ms * 1000 + us)
      | _ => None
      end
  | None => None
  end.

(** [_parse_hh_mm_ss_ff]: [HH[:MM[:SS[.fff[fff]]]]]. *)
Definition parse_hh_mm_ss_ff (s : list ascii) : option (Z * Z * Z * Z) :=
  match fixed_digits 2 0 s with
  | Some (hh, []) => Some (hh, 0, 0, 0)
  | Some (hh, c1 :: r1) =>
      if Ascii.eqb c1 ":" then
        match fixed_digits 2 0 r1 with
        | Some (mm, []) => Some (hh, mm, 0, 0)
        | Some (mm, c2 :: r2) =>
            if Ascii.eqb c2 ":" then
              match fixed_digits 2 0 r2 with
              | Some (ss, []) => Some (hh, mm, ss, 0)
              | Some (ss, c3 :: r3) =>
                  if Ascii.eqb c3 "." then
                    match parse_fraction r3 with
                    | Some ff => Some (hh, mm, ss, ff)
                    | None => None
                    end
                  else None
              | None => None
              end
            else None
        | None => None
        end
      else None
  | None => None
  end.

(** Cut [s] at the first occurrence of [c]. *)
Fixpoint cut_at (c : ascii) (s : list ascii)
  : option (list ascii * list ascii) :=
  match s with
  | [] => None
  | d :: s' =>
      if Ascii.eqb c d then Some ([], s')
      else match cut_at c s' with
           | Some (l, r) => Some (d :: l, r)
           | None => None
           end
  end.

(** The time string split at its zone sign: the first ["-"] if there is
    one, else the first ["+"]. *)
Definition split_tz (s : list ascii)
  : list ascii * option (bool * list ascii) :=
  match cut_at "-" s with
  | Some (t, z) => (t, Some (true, z))
  | None =>
      match cut_at "+" s with
      | Some (t, z) => (t, Some (false, z))
      | None => (s, None)
      end
  end.

Definition usec (hh mm ss ff : Z) : Z :=
  ((hh * 60 + mm) * 60 + ss) * 1000000 + ff.

(** The zone: [HH:MM], [HH:MM:SS] or [HH:MM:SS.ffffff], strictly within
    a day ([timezone] refuses the rest). *)
Definition parse_tz (neg : bool) (z : list ascii) : option Z :=
  let n := List.length z in
  if (Nat.eqb n 5 || Nat.eqb n 8 || Nat.eqb n 15)%nat then
    match parse_hh_mm_ss_ff z with
    | Some (hh, mm, ss, ff) =>
        let off := Py.apply_sign neg (usec hh mm ss ff) in
        if Z.abs off <? usec 24 0 0 0 then Some off else None
    | None => None
    end
  else None.

(** [_parse_isoformat_time] *)
Definition parse_isoformat_time (s : list ascii)
  : option (Z * Z * Z * Z * option Z) :=
  let (t, z) := split_tz s in
  match parse_hh_mm_ss_ff t with
  | Some (hh, mm, ss, ff) =>
      match z with
      | None => Some (hh, mm, ss, ff, None)
      | Some (neg, zs) =>
          match parse_tz neg zs with
          | Some off => Some (hh, mm, ss, ff, Some off)
          | None => None
          end
      end
  | None => None
  end.

(** The range checks of the [datetime] constructor. *)
Definition valid (dt : datetime) : bool :=
  (1 <=? year dt) && (year dt <=? 9999) &&
  (1 <=? month dt) && (month dt <=? 12) &&
  (1 <=? day dt) && (day dt <=? days_in_month (year dt) (month dt)) &&
  (0 <=? hour dt) && (hour dt <=? 23) &&
  (0 <=? minute dt) && (minute dt <=? 59) &&
  (0 <=? second dt) && (second dt <=? 59).

Definition checked (dt : datetime) : result datetime :=
  if valid dt then Ok dt else Raise (ValueError "fromisoformat").

Definition fromisoformat (date_string : string) : result datetime :=
  match parse_isoformat_date (Py.chars date_string) with
  | Some (y, m, d, rest) =>
      match rest with
      | [] | [_] => checked (mk_datetime y m d 0 0 0 0 None)
      | _ :: tstr =>
          match parse_isoformat_time tstr with
          | Some (hh, mm, ss, ff, tz) =>
              checked (mk_datetime y m d hh mm ss ff tz)
          | None => Raise (ValueError "fromisoformat")
          end
      end
  | None => Raise (ValueError "fromisoformat")
  end.

End Datetime.

Import Py Datetime.
Local Open Scope result_scope.

(* ===================================================================== *)
(** * Dictionaries and sets of strings                                    *)
(* ===================================================================== *)

(** A [dict] with [str] keys, in insertion order; a [set] of [str] is kept
    as the list of its members in the order they were first added (the
    order in which Python walks a set is not specified; nothing proved
    below depends on the one chosen here). *)
Section Dict.
Variable V : Type.

Definition dict := list (string * V).

(** [d.get(k)] *)
Fixpoint dict_get (k : string) (d : dict) : option V :=
  match d with
  | [] => None
  | (k', v) :: d' => if String.eqb k k' then Some v else dict_get k d'
  end.

(** [k in d] *)
Definition dict_mem (k : string) (d : dict) : bool :=
  match dict_get k d with Some _ => true | None => false end.

(** [d[k] = v] *)
Fixpoint dict_set (k : string) (v : V) (d : dict) : dict :=
  match d with
  | [] => [(k, v)]
  | (k', v') :: d' =>
      if String.eqb k k' then (k, v) :: d'
      else (k', v') :: dict_set k v d'
  end.

(** [dict(pairs)] *)
Definition dict_of_pairs (l : list (string * V)) : dict :=
  fold_left (fun d kv => dict_set (fst kv) (snd kv) d) l [].

Definition dict_keys (d : dict) : list string := map fst d.
End Dict.

(** [s.add(x)] *)
Definition set_add (x : string) (s : list string) : list string :=
  if in_list x s then s else s ++ [x].

(* ===================================================================== *)
(** * The input row                                                       *)
(* ===================================================================== *)

Record Row : Type := mk_Row {
  transaction_id : string;
  timestamp : string;
  store_id : string;
  store_name : string;
  store_type : string;
  region : string;
  province : string;
  city_municipality : string;
  barangay : string;
  latitude : string;
  longitude : string;
  economic_class : string;
  customer_id : string;
  gender : string;
  age_bracket : string;
  sku_id : string;
  brand_name : string;
  product_name : string;
  product_category : string;
  product_subcat : string;
  quantity : string;
  unit_price : string;
  peso_value : string;
  is_tbwa_client : string;
  campaign_id : string;
  was_substituted : string;
  original_request : string;
  audio_language : string;
  audio_transcript : string;
  video_objects : string;
  weather : string;
  day_of_week : string;
  hour_of_day : string
}.

(** The row with another [is_tbwa_client] column. *)
Definition with_is_tbwa_client (v : string) (r : Row) : Row :=
  mk_Row (transaction_id r) (timestamp r) (store_id r) (store_name r)
    (store_type r) (region r) (province r) (city_municipality r)
    (barangay r) (latitude r) (longitude r) (economic_class r)
    (customer_id r) (gender r) (age_bracket r) (sku_id r) (brand_name r)
    (product_name r) (product_category r) (product_subcat r) (quantity r)
    (unit_price r) (peso_value r) v (campaign_id r) (was_substituted r)
    (original_request r) (audio_language r) (audio_transcript r)
    (video_objects r) (weather r) (day_of_week r) (hour_of_day r).

(* ===================================================================== *)
(** * The rows of the target tables                                       *)
(* ===================================================================== *)

(** The columns are those the loader's [INSERT] statements name; a
    surrogate identifier the database generates is a [Z]. *)

Record brand_row : Type := mk_brand {
  b_brand_id : Z;
  b_brand_name : string;
  b_is_tbwa_client : bool
}.

Record product_row : Type := mk_product {
  p_sku_id : string;
  p_brand_id : option Z;
  p_product_name : string;
  p_product_category : string;
  p_product_subcat : string;
  p_msrp : pyfloat
}.

Record store_row : Type := mk_store {
  s_store_id : string;
  s_store_name : string;
  s_store_type : string;
  s_region : string;
  s_province : string;
  s_city_municipality : string;
  s_barangay : string;
  s_latitude : pyfloat;
  s_longitude : pyfloat;
  s_economic_class : string
}.

Record customer_row : Type := mk_customer {
  c_customer_id : Z;
  c_external_id : option string;
  c_gender : string;
  c_age_bracket : string;
  c_customer_type : string;
  c_loyalty_status : string;
  c_inferred_from : string
}.

Record campaign_row : Type := mk_campaign {
  cp_campaign_id : string;
  cp_campaign_name : string;
  cp_campaign_type : string
}.

(** The tuple [trans_data]. *)
Record Trans : Type := mk_Trans {
  t_transaction_id : string;
  t_timestamp : datetime;
  t_store_id : string;
  t_customer_id : option Z;
  t_transaction_value : pyfloat;
  t_discount_amount : pyfloat;
  t_final_amount : pyfloat;
  t_payment_method : string;
  t_duration_seconds : Z;
  t_units_total : Z;
  t_unique_items : Z;
  t_weather : string;
  t_day_of_week : string;
  t_hour_of_day : Z;
  t_is_holiday : bool;
  t_is_payday : bool;
  t_campaign_id : option string;
  t_influenced_by_campaign : bool
}.

(** The tuple [item_data]. *)
Record Item : Type := mk_Item {
  i_transaction_id : string;
  i_sku_id : string;
  i_quantity : Z;
  i_unit_price : pyfloat;
  i_total_price : pyfloat;
  i_discount_applied : pyfloat;
  i_was_substituted : bool;
  i_original_sku_id : option string;
  i_substitution_reason : option string;
  i_is_promo : bool;
  i_promo_type : option string
}.

(** The tuple [audio_data]. *)
Record Audio : Type := mk_Audio {
  a_transaction_id : string;
  a_audio_language : string;
  a_audio_duration_seconds : Z;
  a_audio_quality : string;
  a_background_noise_level : string;
  a_full_transcript : string;
  a_transcription_confidence : pyfloat;
  a_key_phrases : list string;
  a_request_type : string;
  a_storeowner_influence : string;
  a_recommendation_given : bool;
  a_suggestion_accepted : bool;
  a_sentiment_score : pyfloat;
  a_primary_intent : string;
  a_brand_mentions : list string;
  a_product_mentions : list string;
  a_price_mentioned : bool;
  a_promo_inquiry : bool
}.

(** The tuple [video_data]. *)
Record Video : Type := mk_Video {
  v_transaction_id : string;
  v_objects_detected : list string;
  v_people_count : Z;
  v_products_visible : list string;
  v_shelf_visibility : string;
  v_browsing_duration_seconds : Z;
  v_products_touched : Z;
  v_decision_time_seconds : Z;
  v_path_taken : option string;
  v_lighting_quality : string;
  v_store_organization : string;
  v_queue_length : Z;
  v_looked_at_promo : bool;
  v_promo_materials_visible : list string
}.

(* ===================================================================== *)
(** * The database and the connection                                     *)
(* ===================================================================== *)

(** The nine tables, each the list of its rows in insertion order, and the
    counter surrogate identifiers are drawn from.  The database enforces
    the unique indexes that the [ON CONFLICT] targets of the loader's
    statements name, and nothing else: no other constraint appears in the
    loader. *)
Record Database : Type := mk_Database {
  brands_t : list brand_row;
  products_t : list product_row;
  stores_t : list store_row;
  customers_t : list customer_row;
  campaigns_t : list campaign_row;
  transactions_t : list Trans;
  transaction_items_t : list Item;
  audio_transcripts_t : list Audio;
  video_signals_t : list Video;
  next_id : Z
}.

Definition empty_database : Database :=
  mk_Database [] [] [] [] [] [] [] [] [] 1.

(** What the connection is asked to do, in order. *)
Inductive event : Type :=
| EInsert (table : string) (rows : nat)
| ESelect (table : string)
| ERefresh (view : string)
| ECommit
| ERollback.

(** A connection: the committed state, the state the open transaction
    sees, and the requests received so far. *)
Record Conn : Type := mk_Conn {
  committed : Database;
  pending : Database;
  log : list event
}.

Definition connect (db : Database) : Conn := mk_Conn db db [].

(** Code that uses the connection and may raise. *)
Definition M (A : Type) : Type := Conn -> Conn * result A.

Definition ret {A} (a : A) : M A := fun c => (c, Ok a).

Definition bind {A B} (m : M A) (k : A -> M B) : M B :=
  fun c =>
    match m c with
    | (c', Ok a) => k a c'
    | (c', Raise e) => (c', Raise e)
    end.

Definition lift {A} (r : result A) : M A := fun c => (c, r).

Declare Scope conn_scope.
Delimit Scope conn_scope with conn.

Notation "x <- c1 ;; c2" := (bind c1 (fun x => c2))
  (at level 61, c1 at next level, right associativity) : conn_scope.
Notation "c1 ;; c2" := (bind c1 (fun _ => c2))
  (at level 61, right associativity) : conn_scope.

Definition emit (e : event) : M unit :=
  fun c => (mk_Conn (committed c) (pending c) (log c ++ [e]), Ok tt).

(** A statement run on the cursor: it acts on the open transaction. *)
Definition statement (f : Database -> Database) : M unit :=
  fun c => (mk_Conn (committed c) (f (pending c)) (log c), Ok tt).

Definition query {A} (f : Database -> A) : M A :=
  fun c => (c, Ok (f (pending c))).

(** [self.conn.commit()] *)
Definition commit : M unit :=
  fun c => (mk_Conn (pending c) (pending c) (log c ++ [ECommit]), Ok tt).

(** [self.conn.rollback()] *)
Definition rollback : M unit :=
  fun c => (mk_Conn (committed c) (committed c) (log c ++ [ERollback]), Ok tt).

(** [try: m  except Exception as e: h; raise] *)
Definition except_reraise {A} (m : M A) (h : M unit) : M A :=
  fun c =>
    match m c with
    | (c', Ok a) => (c', Ok a)
    | (c', Raise e) => (fst (h c'), Raise e)
    end.

(** ** Table updates *)

Definition set_brands_t (f : list brand_row -> list brand_row)
  (db : Database) : Database :=
  mk_Database (f (brands_t db)) (products_t db) (stores_t db)
    (customers_t db) (campaigns_t db) (transactions_t db)
    (transaction_items_t db) (audio_transcripts_t db) (video_signals_t db)
    (next_id db).

Definition set_products_t (f : list product_row -> list product_row)
  (db : Database) : Database :=
  mk_Database (brands_t db) (f (products_t db)) (stores_t db)
    (customers_t db) (campaigns_t db) (transactions_t db)
    (transaction_items_t db) (audio_transcripts_t db) (video_signals_t db)
    (next_id db).

Definition set_stores_t (f : list store_row -> list store_row)
  (db : Database) : Database :=
  mk_Database (brands_t db) (products_t db) (f (stores_t db))
    (customers_t db) (campaigns_t db) (transactions_t db)
    (transaction_items_t db) (audio_transcripts_t db) (video_signals_t db)
    (next_id db).

Definition set_customers_t (f : list customer_row -> list customer_row)
  (db : Database) : Database :=
  mk_Database (brands_t db) (products_t db) (stores_t db)
    (f (customers_t db)) (campaigns_t db) (transactions_t db)
    (transaction_items_t db) (audio_transcripts_t db) (video_signals_t db)
    (next_id db).

Definition set_campaigns_t (f : list campaign_row -> list campaign_row)
  (db : Database) : Database :=
  mk_Database (brands_t db) (products_t db) (stores_t db)
    (customers_t db) (f (campaigns_t db)) (transactions_t db)
    (transaction_items_t db) (audio_transcripts_t db) (video_signals_t db)
    (next_id db).

Definition set_transactions_t (f : list Trans -> list Trans)
  (db : Database) : Database :=
  mk_Database (brands_t db) (products_t db) (stores_t db)
    (customers_t db) (campaigns_t db) (f (transactions_t db))
    (transaction_items_t db) (audio_transcripts_t db) (video_signals_t db)
    (next_id db).

Definition set_transaction_items_t (f : list Item -> list Item)
  (db : Database) : Database :=
  mk_Database (brands_t db) (products_t db) (stores_t db)
    (customers_t db) (campaigns_t db) (transactions_t db)
    (f (transaction_items_t db)) (audio_transcripts_t db)
    (video_signals_t db) (next_id db).

Definition set_audio_transcripts_t (f : list Audio -> list Audio)
  (db : Database) : Database :=
  mk_Database (brands_t db) (products_t db) (stores_t db)
    (customers_t db) (campaigns_t db) (transactions_t db)
    (transaction_items_t db) (f (audio_transcripts_t db))
    (video_signals_t db) (next_id db).

Definition set_video_signals_t (f : list Video -> list Video)
  (db : Database) : Database :=
  mk_Database (brands_t db) (products_t db) (stores_t db)
    (customers_t db) (campaigns_t db) (transactions_t db)
    (transaction_items_t db) (audio_transcripts_t db)
    (f (video_signals_t db)) (next_id db).

Definition bump_next_id (db : Database) : Database :=
  mk_Database (brands_t db) (products_t db) (stores_t db)
    (customers_t db) (campaigns_t db) (transactions_t db)
    (transaction_items_t db) (audio_transcripts_t db) (video_signals_t db)
    (next_id db + 1).

(** ** The three shapes of [INSERT] the loader uses *)

Section Insert.
Variable R : Type.
(** Whether two rows collide on the conflict target. *)
Variable same_key : R -> R -> bool.

(** [INSERT ...] with no conflict clause. *)
Definition insert_plain (r : R) (t : list R) : list R := t ++ [r].

(** [INSERT ... ON CONFLICT (key) DO NOTHING] *)
Definition insert_do_nothing (r : R) (t : list R) : list R :=
  if existsb (same_key r) t then t else t ++ [r].

(** [INSERT ... ON CONFLICT (key) DO UPDATE SET ...]: [upd old new] is the
    stored row [old] with the columns of the [SET] list taken from the
    proposed row [new]. *)
Definition insert_do_update (upd : R -> R -> R) (r : R) (t : list R)
  : list R :=
  if existsb (same_key r) t
  then map (fun old => if same_key r old then upd old r else old) t
  else t ++ [r].

(** [execute_batch(cursor, sql, data)]: the statement once per tuple, in
    order. *)
Definition execute_batch (stmt : R -> list R -> list R) (data : list R)
  (t : list R) : list R :=
  fold_left (fun t r => stmt r t) data t.
End Insert.

(* ===================================================================== *)
(** * [class DataLoader]                                                  *)
(* ===================================================================== *)

(** The value kept per SKU in [self.products]. *)
Record product_info : Type := mk_product_info {
  pi_brand_name : string;
  pi_product_name : string;
  pi_category : string;
  pi_subcategory : string;
  pi_unit_price : pyfloat
}.

(** [self]; [csv_file] stands for the rows that reading the file yields. *)
Record DataLoader : Type := mk_DataLoader {
  csv_file : list Row;
  batch_size : Z;
  brands : dict (option Z);
  products : dict product_info;
  stores : list string;
  customers : list string;
  campaigns : list string
}.

Definition default_batch_size : Z := 1000.

(** [__init__] *)
Definition new_DataLoader (csv : list Row) (batch : Z) : DataLoader :=
  mk_DataLoader csv batch [] [] [] [] [].

(** [for row in reader: body], where the body may raise. *)
Fixpoint for_each {S : Type} (body : S -> Row -> result S)
  (rows : list Row) (s : S) : result S :=
  match rows with
  | [] => Ok s
  | row :: rows' => s' <- body s row ;; for_each body rows' s'
  end.

(** ** [extract_entities] *)

(** The body of the loop, on one row. *)
Definition extract_entities_row (self : DataLoader) (row : Row)
  : result DataLoader :=
  let brands' :=
    if negb (dict_mem (brand_name row) (brands self))
    then dict_set (brand_name row) None (brands self)
    else brands self in
  products' <-
    (if negb (dict_mem (sku_id row) (products self))
     then price <- Py.float (unit_price row) ;;
          Ok (dict_set (sku_id row)
                (mk_product_info (brand_name row) (product_name row)
                   (product_category row) (product_subcat row) price)
                (products self))
     else Ok (products self)) ;;
  let stores' := set_add (store_id row) (stores self) in
  let customers' :=
    if truthy (customer_id row)
    then set_add (customer_id row) (customers self)
    else customers self in
  let campaigns' :=
    if truthy (campaign_id row)
    then set_add (campaign_id row) (campaigns self)
    else campaigns self in
  Ok (mk_DataLoader (csv_file self) (batch_size self)
        brands' products' stores' customers' campaigns').

Definition extract_entities (self : DataLoader) : result DataLoader :=
  for_each extract_entities_row (csv_file self) self.

(** ** [load_brands] *)

Definition tbwa_clients : list string :=
  ["Alaska"; "Marlboro"; "Tide"; "Coca-Cola"; "Head & Shoulders"].

Definition same_brand_name (a b : brand_row) : bool :=
  String.eqb (b_brand_name a) (b_brand_name b).

(** [SET is_tbwa_client = EXCLUDED.is_tbwa_client] *)
Definition brand_conflict_update (old new : brand_row) : brand_row :=
  mk_brand (b_brand_id old) (b_brand_name old) (b_is_tbwa_client new).

(** The brand statement on [(brand_name, is_tbwa)], on the brand table;
    [id] is the fresh [brand_id] the database proposes. *)
Definition brand_upsert (id : Z) (name : string) (is_tbwa : bool)
  (t : list brand_row) : list brand_row :=
  insert_do_update same_brand_name brand_conflict_update
    (mk_brand id name is_tbwa) t.

Definition insert_brand (name : string) (is_tbwa : bool) (db : Database)
  : Database :=
  bump_next_id (set_brands_t (brand_upsert (next_id db) name is_tbwa) db).

(** [RETURNING brand_id, brand_name], read by [fetchone]. *)
Definition returning_brand_id (name : string) (db : Database) : option Z :=
  match find (fun b => String.eqb (b_brand_name b) name) (brands_t db) with
  | Some b => Some (b_brand_id b)
  | None => None
  end.

(** The body of the loop over [self.brands]. *)
Definition load_brands_step (brands : dict (option Z)) (name : string)
  : M (dict (option Z)) :=
  (let is_tbwa := in_list name tbwa_clients in
   emit (EInsert "brands" 1) ;;
   statement (insert_brand name is_tbwa) ;;
   brand_id <- query (returning_brand_id name) ;;
   ret (dict_set name brand_id brands))%conn.

Fixpoint load_brands_loop (names : list string) (brands : dict (option Z))
  : M (dict (option Z)) :=
  match names with
  | [] => ret brands
  | name :: names' =>
      (brands' <- load_brands_step brands name ;;
       load_brands_loop names' brands')%conn
  end.

Definition load_brands (self : DataLoader) : M DataLoader :=
  (brands' <- load_brands_loop (dict_keys (brands self)) (brands self) ;;
   commit ;;
   ret (mk_DataLoader (csv_file self) (batch_size self) brands'
          (products self) (stores self) (customers self)
          (campaigns self)))%conn.

(** ** [load_products] *)

Definition same_sku (a b : product_row) : bool :=
  String.eqb (p_sku_id a) (p_sku_id b).

(** [SET product_name = EXCLUDED.product_name, msrp = EXCLUDED.msrp] *)
Definition product_conflict_update (old new : product_row) : product_row :=
  mk_product (p_sku_id old) (p_brand_id old) (p_product_name new)
    (p_product_category old) (p_product_subcat old) (p_msrp new).

Fixpoint products_data (brands : dict (option Z))
  (items : dict product_info) : result (list product_row) :=
  match items with
  | [] => Ok []
  | (sku, product) :: items' =>
      brand_id <-
        match dict_get (pi_brand_name product) brands with
        | Some id => Ok id
        | None => Raise (KeyError (pi_brand_name product))
        end ;;
      data <- products_data brands items' ;;
      Ok (mk_product sku brand_id (pi_product_name product)
            (pi_category product) (pi_subcategory product)
            (pi_unit_price product) :: data)
  end.

Definition load_products (self : DataLoader) : M unit :=
  (data <- lift (products_data (brands self) (products self)) ;;
   emit (EInsert "products" (List.length data)) ;;
   statement (set_products_t
                (execute_batch
                   (insert_do_update same_sku product_conflict_update) data)) ;;
   commit)%conn.

(** ** [load_stores] *)

Definition same_store_id (a b : store_row) : bool :=
  String.eqb (s_store_id a) (s_store_id b).

(** [SET store_name = EXCLUDED.store_name] *)
Definition store_conflict_update (old new : store_row) : store_row :=
  mk_store (s_store_id old) (s_store_name new) (s_store_type old)
    (s_region old) (s_province old) (s_city_municipality old)
    (s_barangay old) (s_latitude old) (s_longitude old)
    (s_economic_class old).

(** The body of the loop that fills [stores_data]. *)
Definition stores_data_row (stores_data : dict store_row) (row : Row)
  : result (dict store_row) :=
  if negb (dict_mem (store_id row) stores_data) then
    lat <- Py.float (latitude row) ;;
    lng <- Py.float (longitude row) ;;
    Ok (dict_set (store_id row)
          (mk_store (store_id row) (store_name row) (store_type row)
             (region row) (province row) (city_municipality row)
             (barangay row) lat lng (economic_class row))
          stores_data)
  else Ok stores_data.

Definition load_stores (self : DataLoader) : M unit :=
  (stores_data <- lift (for_each stores_data_row (csv_file self) []) ;;
   let data := map snd stores_data in
   emit (EInsert "stores" (List.length data)) ;;
   statement (set_stores_t
                (execute_batch
                   (insert_do_update same_store_id store_conflict_update)
                   data)) ;;
   commit)%conn.

(** ** [load_customers] *)

Definition same_external_id (a b : customer_row) : bool :=
  match c_external_id a, c_external_id b with
  | Some x, Some y => String.eqb x y
  | _, _ => false
  end.

(** The body of the loop that fills [customers_data]: gender and age
    bracket of the first row of each customer. *)
Definition customers_data_row (customers_data : dict (string * string))
  (row : Row) : result (dict (string * string)) :=
  if truthy (customer_id row)
     && negb (dict_mem (customer_id row) customers_data)
  then Ok (dict_set (customer_id row) (gender row, age_bracket row)
             customers_data)
  else Ok customers_data.

(** The customer statement on one tuple; the database proposes a fresh
    [customer_id]. *)
Definition insert_customer (cust : string * (string * string))
  (db : Database) : Database :=
  bump_next_id
    (set_customers_t
       (insert_do_nothing same_external_id
          (mk_customer (next_id db) (Some (fst cust)) (fst (snd cust))
             (snd (snd cust)) "regular" "non-member" "transaction_pattern"))
       db).

Definition load_customers (self : DataLoader) : M unit :=
  (customers_data <- lift (for_each customers_data_row (csv_file self) []) ;;
   emit (EInsert "customers" (List.length customers_data)) ;;
   statement (fun db =>
                fold_left (fun db cust => insert_customer cust db)
                  customers_data db) ;;
   commit)%conn.

(** ** [load_campaigns] *)

Definition campaign_names : dict string :=
  [("CAMP001", "Summer Sarap 2024");
   ("CAMP002", "Payday Promo March");
   ("CAMP003", "New Variant Launch");
   ("CAMP004", "Back to School")].

Definition same_campaign_id (a b : campaign_row) : bool :=
  String.eqb (cp_campaign_id a) (cp_campaign_id b).

Fixpoint campaigns_data (camps : list string) : list campaign_row :=
  match camps with
  | [] => []
  | camp_id :: camps' =>
      match dict_get camp_id campaign_names with
      | Some name =>
          mk_campaign camp_id name "below_the_line" :: campaigns_data camps'
      | None => campaigns_data camps'
      end
  end.

Definition load_campaigns (self : DataLoader) : M unit :=
  let data := campaigns_data (campaigns self) in
  match data with
  | [] => ret tt
  | _ :: _ =>
      (emit (EInsert "campaigns" (List.length data)) ;;
       statement (set_campaigns_t
                    (execute_batch (insert_do_nothing same_campaign_id)
                       data)) ;;
       commit)%conn
  end.

(** ** [load_transactions]: the tuples built from one row *)

Definition float_const (n : Z) (d : positive) : pyfloat := Finite (n # d).

(** [trans_data], with the [timestamp] and [customer_uuid] it uses. *)
Definition trans_data (customer_map : dict Z) (row : Row) : result Trans :=
  ts <- fromisoformat (timestamp row) ;;
  let customer_uuid := dict_get (customer_id row) customer_map in
  transaction_value <- Py.float (peso_value row) ;;
  final_amount <- Py.float (peso_value row) ;;
  units_total <- Py.int (quantity row) ;;
  hour <- Py.int (hour_of_day row) ;;
  Ok (mk_Trans
        (transaction_id row)
        ts
        (store_id row)
        customer_uuid
        transaction_value
        (float_const 0 1)
        final_amount
        "cash"
        120
        units_total
        1
        (weather row)
        (day_of_week row)
        hour
        false
        (existsb (Z.eqb (day ts)) [15; 30])
        (if truthy (campaign_id row) then Some (campaign_id row) else None)
        (truthy (campaign_id row))).

(** [item_data] *)
Definition item_data (row : Row) : result Item :=
  qty <- Py.int (quantity row) ;;
  price <- Py.float (unit_price row) ;;
  total <- Py.float (peso_value row) ;;
  subst <- Py.int (was_substituted row) ;;
  Ok (mk_Item
        (transaction_id row)
        (sku_id row)
        qty
        price
        total
        (float_const 0 1)
        (bool_of_int subst)
        (if truthy (original_request row)
         then Some (original_request row) else None)
        (if String.eqb (was_substituted row) "1"
         then Some "out_of_stock" else None)
        false
        None).

(** [audio_data], built only [if row['audio_transcript']]. *)
Definition audio_data (row : Row) : result (option Audio) :=
  if truthy (audio_transcript row) then
    recommendation <- Py.int (was_substituted row) ;;
    accepted <- Py.int (was_substituted row) ;;
    Ok (Some (mk_Audio
        (transaction_id row)
        (audio_language row)
        120
        "clear"
        "low"
        (audio_transcript row)
        (float_const 92 100)
        [brand_name row]
        (if contains (brand_name row) (audio_transcript row)
         then "branded" else "generic")
        (if String.eqb (was_substituted row) "1" then "high" else "low")
        (bool_of_int recommendation)
        (bool_of_int accepted)
        (float_const 75 100)
        "purchase"
        [brand_name row]
        [product_name row]
        (contains "pesos" (lower (audio_transcript row)))
        (contains "promo" (lower (audio_transcript row)))))
  else Ok None.

(** [video_data], built only [if row['video_objects']]. *)
Definition video_data (row : Row) : option Video :=
  if truthy (video_objects row) then
    let objects := split "|" (video_objects row) in
    Some (mk_Video
        (transaction_id row)
        objects
        2
        [product_name row]
        "full"
        60
        1
        30
        None
        "good"
        "organized"
        0
        false
        [])
  else None.

(** ** The buffers of [load_transactions] *)

Record Batches : Type := mk_Batches {
  trans_batch : list Trans;
  items_batch : list Item;
  audio_batch : list Audio;
  video_batch : list Video;
  transaction_count : Z;
  item_count : Z;
  audio_count : Z;
  video_count : Z
}.

Definition empty_batches : Batches := mk_Batches [] [] [] [] 0 0 0 0.

Definition append_opt {A} (l : list A) (o : option A) : list A :=
  match o with Some a => l ++ [a] | None => l end.

(** The tuples of one row appended to the buffers, in the order of the
    source: transaction, item, audio, video. *)
Definition append_row (customer_map : dict Z) (b : Batches) (row : Row)
  : result Batches :=
  t <- trans_data customer_map row ;;
  i <- item_data row ;;
  a <- audio_data row ;;
  let v := video_data row in
  Ok (mk_Batches (trans_batch b ++ [t]) (items_batch b ++ [i])
        (append_opt (audio_batch b) a) (append_opt (video_batch b) v)
        (transaction_count b) (item_count b) (audio_count b)
        (video_count b)).

(** ** [_insert_transaction_batch] *)

Definition same_transaction_id (a b : Trans) : bool :=
  String.eqb (t_transaction_id a) (t_transaction_id b).

Definition is_nil {A} (l : list A) : bool :=
  match l with [] => true | _ :: _ => false end.

Definition _insert_transaction_batch (trans_batch : list Trans)
  (items_batch : list Item) (audio_batch : list Audio)
  (video_batch : list Video) : M unit :=
  (emit (EInsert "transactions" (List.length trans_batch)) ;;
   statement (set_transactions_t
                (execute_batch (insert_do_nothing same_transaction_id)
                   trans_batch)) ;;
   emit (EInsert "transaction_items" (List.length items_batch)) ;;
   statement (set_transaction_items_t
                (execute_batch (@insert_plain Item) items_batch)) ;;
   (if is_nil audio_batch then ret tt
    else
      emit (EInsert "audio_transcripts" (List.length audio_batch)) ;;
      statement (set_audio_transcripts_t
                   (execute_batch (@insert_plain Audio) audio_batch))) ;;
   (if is_nil video_batch then ret tt
    else
      emit (EInsert "video_signals" (List.length video_batch)) ;;
      statement (set_video_signals_t
                   (execute_batch (@insert_plain Video) video_batch))) ;;
   commit)%conn.

(** The buffers written and emptied, the counters advanced. *)
Definition flush (b : Batches) : M Batches :=
  (_insert_transaction_batch (trans_batch b) (items_batch b)
     (audio_batch b) (video_batch b) ;;
   ret (mk_Batches [] [] [] []
          (transaction_count b + Z.of_nat (List.length (trans_batch b)))
          (item_count b + Z.of_nat (List.length (items_batch b)))
          (audio_count b + Z.of_nat (List.length (audio_batch b)))
          (video_count b + Z.of_nat (List.length (video_batch b)))))%conn.

(** ** [load_transactions] *)

(** The body of the loop over the rows. *)
Definition load_transactions_row (batch_size : Z) (customer_map : dict Z)
  (b : Batches) (row : Row) : M Batches :=
  (b' <- lift (append_row customer_map b row) ;;
   if Z.of_nat (List.length (trans_batch b')) >=? batch_size
   then flush b'
   else ret b')%conn.

Fixpoint load_transactions_loop (batch_size : Z) (customer_map : dict Z)
  (rows : list Row) (b : Batches) : M Batches :=
  match rows with
  | [] => ret b
  | row :: rows' =>
      (b' <- load_transactions_row batch_size customer_map b row ;;
       load_transactions_loop batch_size customer_map rows' b')%conn
  end.

(** [SELECT external_id, customer_id FROM customers
     WHERE external_id IS NOT NULL], then [dict(...)]. *)
Definition select_customer_map (db : Database) : dict Z :=
  dict_of_pairs
    (flat_map (fun c => match c_external_id c with
                        | Some ext => [(ext, c_customer_id c)]
                        | None => []
                        end)
       (customers_t db)).

(** The result is the four counters the function prints. *)
Definition load_transactions (self : DataLoader) : M (Z * Z * Z * Z) :=
  (emit (ESelect "customers") ;;
   customer_map <- query select_customer_map ;;
   b <- load_transactions_loop (batch_size self) customer_map
          (csv_file self) empty_batches ;;
   b' <- (if is_nil (trans_batch b) then ret b else flush b) ;;
   ret (transaction_count b', item_count b', audio_count b',
        video_count b'))%conn.

(** ** [refresh_materialized_views] *)

Definition views : list string :=
  ["mv_hourly_patterns"; "mv_daily_sales"; "mv_product_performance";
   "mv_regional_performance"].

(** A refresh that fails is caught and reported; either way the loop goes
    on.  The views hold no table of the model. *)
Fixpoint refresh_loop (vs : list string) : M unit :=
  match vs with
  | [] => ret tt
  | view :: vs' => (emit (ERefresh view) ;; refresh_loop vs')%conn
  end.

Definition refresh_materialized_views : M unit :=
  (refresh_loop views ;; commit)%conn.

(** ** [run] *)

Definition run (self : DataLoader) : M unit :=
  except_reraise
    (self1 <- lift (extract_entities self) ;;
     self2 <- load_brands self1 ;;
     load_products self2 ;;
     load_stores self2 ;;
     load_customers self2 ;;
     load_campaigns self2 ;;
     _ <- load_transactions self2 ;;
     refresh_materialized_views)%conn
    rollback.

(** [main]: a loader on the rows of the file, run against a database. *)
Definition main (csv : list Row) (batch : Z) (db : Database)
  : Conn * result unit :=
  run (new_DataLoader csv batch) (connect db).

(* ===================================================================== *)
(** * What the specification compares the loader with                     *)
(* ===================================================================== *)

(** These definitions follow the words of the specification, not the
    source; the theorems relate them to the loader above. *)



(** Rounding to two decimal places, halves away from zero. *)
Definition round_half_away_2 (q : Q) : Q :=
  let scaled := (Qabs q * 100 + (1 # 2))%Q in
  let n := Qfloor scaled in
  Qred ((if Qle_bool 0 q then n else - n) # 100).

(** The total the specification asks for: quantity times unit price,
    rounded to two places. *)
Definition spec_total_price (qty : Z) (price : pyfloat) : pyfloat :=
  match price with
  | Finite p => Finite (round_half_away_2 (inject_Z qty * p)%Q)
  | other => other
  end.

(** The day of the week of a date, Monday being 0 ([date.weekday]). *)
Definition days_before_year (y : Z) : Z :=
  (y - 1) * 365 + (y - 1) / 4 - (y - 1) / 100 + (y - 1) / 400.

Fixpoint days_before_month_nat (y : Z) (m : nat) : Z :=
  match m with
  | O => 0
  | S m' => days_before_month_nat y m' + days_in_month y (Z.of_nat m)
  end.

Definition toordinal (dt : datetime) : Z :=
  days_before_year (year dt)
  + days_before_month_nat (year dt) (Z.to_nat (month dt - 1))
  + day dt.

Definition weekday (dt : datetime) : Z := (toordinal dt + 6) mod 7.

(** The name of the day of the week ([strftime('%A')]). *)
Definition spec_day_name (dt : datetime) : string :=
  nth (Z.to_nat (weekday dt))
    ["Monday"; "Tuesday"; "Wednesday"; "Thursday"; "Friday"; "Saturday";
     "Sunday"] "".


(** The four writes of one flush, each on its whole buffer, in the order
    transactions, items, audio, video. *)
Definition write_all (b : Batches) (db : Database) : Database :=
  set_video_signals_t (execute_batch (@insert_plain Video) (video_batch b))
    (set_audio_transcripts_t
       (execute_batch (@insert_plain Audio) (audio_batch b))
       (set_transaction_items_t
          (execute_batch (@insert_plain Item) (items_batch b))
          (set_transactions_t
             (execute_batch (insert_do_nothing same_transaction_id)
                (trans_batch b))
             db))).

(** The requests of one flush: a write per buffer that holds rows, in
    table order, then the commit. *)
Definition flush_events (b : Batches) : list event :=
  [EInsert "transactions" (List.length (trans_batch b));
   EInsert "transaction_items" (List.length (items_batch b))]
  ++ (if is_nil (audio_batch b) then []
      else [EInsert "audio_transcripts" (List.length (audio_batch b))])
  ++ (if is_nil (video_batch b) then []
      else [EInsert "video_signals" (List.length (video_batch b))])
  ++ [ECommit].

(** Every buffer of the batch writer is at most as long as the buffer of
    transactions, and the item buffer is exactly as long. *)
Definition batches_inv (b : Batches) : Prop :=
  List.length (items_batch b) = List.length (trans_batch b) /\
  (List.length (audio_batch b) <= List.length (trans_batch b))%nat /\
  (List.length (video_batch b) <= List.length (trans_batch b))%nat.

(** Some buffer holds at least [n] rows. *)
Definition some_buffer_reaches (n : Z) (b : Batches) : Prop :=
  n <= Z.of_nat (List.length (trans_batch b)) \/
  n <= Z.of_nat (List.length (items_batch b)) \/
  n <= Z.of_nat (List.length (audio_batch b)) \/
  n <= Z.of_nat (List.length (video_batch b)).

(** The partner flag of every row of a brand among [names]. *)
Definition flags_set (names : list string) (t : list brand_row) : Prop :=
  forall n, In n names ->
    (exists b, In b t /\ b_brand_name b = n) /\
    (forall b, In b t -> b_brand_name b = n ->
               b_is_tbwa_client b = in_list n tbwa_clients).

(** The statements of [load_brands] on the brand table alone. *)
Definition brands_after (names : list string) (db : Database) : Database :=
  fold_left (fun db n => insert_brand n (in_list n tbwa_clients) db) names db.

(** The row with its [is_tbwa_client] column replaced by [other row], and
    a loader whose file holds such rows. *)
Definition retag_row (other : Row -> string) (r : Row) : Row :=
  with_is_tbwa_client (other r) r.

Definition retag (other : Row -> string) (self : DataLoader) : DataLoader :=
  mk_DataLoader (map (retag_row other) (csv_file self)) (batch_size self)
    (brands self) (products self) (stores self) (customers self)
    (campaigns self).

Definition result_map {A B} (f : A -> B) (r : result A) : result B :=
  match r with Ok a => Ok (f a) | Raise e => Raise e end.

(* ===================================================================== *)
(** * Sample rows                                                         *)
(* ===================================================================== *)

(** A row as the generator writes it: a sale of two packs on a Friday
    morning, with a transcript, no substitution and no campaign. *)
Definition sample_row : Row :=
  mk_Row "TX00000001" "2024-03-15T10:23:00" "ST123456" "Aling Nena Store"
    "sari-sari" "NCR" "Metro Manila" "Quezon City" "Commonwealth"
    "14.676" "121.0437" "C" "a1b2c3d4" "female" "25-34" "ALS001" "Alaska"
    "Alaska Evap 370ml" "Dairy" "Dairy" "2" "42.00" "84.00" "1" "" "0" ""
    "tl" "Pabili po ng Alaska, magkano? 42 PESOS po." "shelf|counter|person"
    "sunny" "Friday" "10".

Definition with_timestamp (v : string) (r : Row) : Row :=
  mk_Row (transaction_id r) v (store_id r) (store_name r)
    (store_type r) (region r) (province r) (city_municipality r)
    (barangay r) (latitude r) (longitude r) (economic_class r)
    (customer_id r) (gender r) (age_bracket r) (sku_id r) (brand_name r)
    (product_name r) (product_category r) (product_subcat r) (quantity r)
    (unit_price r) (peso_value r) (is_tbwa_client r) (campaign_id r)
    (was_substituted r) (original_request r) (audio_language r)
    (audio_transcript r) (video_objects r) (weather r) (day_of_week r)
    (hour_of_day r).

Definition with_transaction_id (v : string) (r : Row) : Row :=
  mk_Row v (timestamp r) (store_id r) (store_name r)
    (store_type r) (region r) (province r) (city_municipality r)
    (barangay r) (latitude r) (longitude r) (economic_class r)
    (customer_id r) (gender r) (age_bracket r) (sku_id r) (brand_name r)
    (product_name r) (product_category r) (product_subcat r) (quantity r)
    (unit_price r) (peso_value r) (is_tbwa_client r) (campaign_id r)
    (was_substituted r) (original_request r) (audio_language r)
    (audio_transcript r) (video_objects r) (weather r) (day_of_week r)
    (hour_of_day r).

Definition with_campaign_id (v : string) (r : Row) : Row :=
  mk_Row (transaction_id r) (timestamp r) (store_id r) (store_name r)
    (store_type r) (region r) (province r) (city_municipality r)
    (barangay r) (latitude r) (longitude r) (economic_class r)
    (customer_id r) (gender r) (age_bracket r) (sku_id r) (brand_name r)
    (product_name r) (product_category r) (product_subcat r) (quantity r)
    (unit_price r) (peso_value r) (is_tbwa_client r) v
    (was_substituted r) (original_request r) (audio_language r)
    (audio_transcript r) (video_objects r) (weather r) (day_of_week r)
    (hour_of_day r).

Definition with_peso_value (v : string) (r : Row) : Row :=
  mk_Row (transaction_id r) (timestamp r) (store_id r) (store_name r)
    (store_type r) (region r) (province r) (city_municipality r)
    (barangay r) (latitude r) (longitude r) (economic_class r)
    (customer_id r) (gender r) (age_bracket r) (sku_id r) (brand_name r)
    (product_name r) (product_category r) (product_subcat r) (quantity r)
    (unit_price r) v (is_tbwa_client r) (campaign_id r)
    (was_substituted r) (original_request r) (audio_language r)
    (audio_transcript r) (video_objects r) (weather r) (day_of_week r)
    (hour_of_day r).

Definition with_original_request (v : string) (r : Row) : Row :=
  mk_Row (transaction_id r) (timestamp r) (store_id r) (store_name r)
    (store_type r) (region r) (province r) (city_municipality r)
    (barangay r) (latitude r) (longitude r) (economic_class r)
    (customer_id r) (gender r) (age_bracket r) (sku_id r) (brand_name r)
    (product_name r) (product_category r) (product_subcat r) (quantity r)
    (unit_price r) (peso_value r) (is_tbwa_client r) (campaign_id r)
    (was_substituted r) v (audio_language r)
    (audio_transcript r) (video_objects r) (weather r) (day_of_week r)
    (hour_of_day r).

Definition with_day_and_hour (d h : string) (r : Row) : Row :=
  mk_Row (transaction_id r) (timestamp r) (store_id r) (store_name r)
    (store_type r) (region r) (province r) (city_municipality r)
    (barangay r) (latitude r) (longitude r) (economic_class r)
    (customer_id r) (gender r) (age_bracket r) (sku_id r) (brand_name r)
    (product_name r) (product_category r) (product_subcat r) (quantity r)
    (unit_price r) (peso_value r) (is_tbwa_client r) (campaign_id r)
    (was_substituted r) (original_request r) (audio_language r)
    (audio_transcript r) (video_objects r) (weather r) d h.

Definition with_was_substituted (v : string) (r : Row) : Row :=
  mk_Row (transaction_id r) (timestamp r) (store_id r) (store_name r)
    (store_type r) (region r) (province r) (city_municipality r)
    (barangay r) (latitude r) (longitude r) (economic_class r)
    (customer_id r) (gender r) (age_bracket r) (sku_id r) (brand_name r)
    (product_name r) (product_category r) (product_subcat r) (quantity r)
    (unit_price r) (peso_value r) (is_tbwa_client r) (campaign_id r)
    v (original_request r) (audio_language r)
    (audio_transcript r) (video_objects r) (weather r) (day_of_week r)
    (hour_of_day r).

(** The sample row naming a campaign outside the loader's table. *)
Definition row_unknown_campaign : Row := with_campaign_id "CAMP999" sample_row.


(** A second, well-formed sale. *)
Definition row_second : Row := with_transaction_id "TX00000002" sample_row.

(** The sample row with a value that is not quantity times unit price. *)
Definition row_other_value : Row := with_peso_value "75.50" sample_row.

(** The sample row, not substituted, yet naming an original request. *)
Definition row_request_without_substitution : Row :=
  with_original_request "Bear Brand 300ml" sample_row.

(** The sample row with day and hour columns that disagree with its
    timestamp. *)
Definition row_other_day : Row := with_day_and_hour "Monday" "23" sample_row.

(* ===================================================================== *)
(** * Notions used to state further properties of the loader             *)
(* ===================================================================== *)

(** The set [s] after the keys [ks] were added to it one by one. *)
Definition add_all (ks : list string) (s : list string) : list string :=
  fold_left (fun s k => set_add k s) ks s.

(** The value [extract_entities] keeps for a product seen on [row], whose
    price reads as [price]. *)
Definition product_info_of (row : Row) (price : pyfloat) : product_info :=
  mk_product_info (brand_name row) (product_name row) (product_category row)
    (product_subcat row) price.

Definition with_unit_price (v : string) (r : Row) : Row :=
  mk_Row (transaction_id r) (timestamp r) (store_id r) (store_name r)
    (store_type r) (region r) (province r) (city_municipality r)
    (barangay r) (latitude r) (longitude r) (economic_class r)
    (customer_id r) (gender r) (age_bracket r) (sku_id r) (brand_name r)
    (product_name r) (product_category r) (product_subcat r) (quantity r)
    v (peso_value r) (is_tbwa_client r) (campaign_id r)
    (was_substituted r) (original_request r) (audio_language r)
    (audio_transcript r) (video_objects r) (weather r) (day_of_week r)
    (hour_of_day r).

(** The surrogate identifier and the natural key of a brand row. *)
Definition brand_identity (b : brand_row) : Z * string :=
  (b_brand_id b, b_brand_name b).

(** Two databases with the same rows in every table but [brands]. *)
Definition same_but_brands (db db' : Database) : Prop :=
  products_t db' = products_t db /\
  stores_t db' = stores_t db /\
  customers_t db' = customers_t db /\
  campaigns_t db' = campaigns_t db /\
  transactions_t db' = transactions_t db /\
  transaction_items_t db' = transaction_items_t db /\
  audio_transcripts_t db' = audio_transcripts_t db /\
  video_signals_t db' = video_signals_t db.

(** The columns of a product row that the conflict clause leaves alone. *)
Definition product_kept (p : product_row)
  : string * option Z * string * string :=
  (p_sku_id p, p_brand_id p, p_product_category p, p_product_subcat p).

(** The columns of a store row that the conflict clause leaves alone. *)
Definition store_kept (s : store_row)
  : string * string * string * string * string * string * pyfloat * pyfloat
    * string :=
  (s_store_id s, s_store_type s, s_region s, s_province s,
   s_city_municipality s, s_barangay s, s_latitude s, s_longitude s,
   s_economic_class s).

(** The database a run on the sample row leaves, and a connection to it. *)
Definition sample_database : Database :=
  committed (fst (main [sample_row] default_batch_size empty_database)).

Definition sample_conn : Conn := connect sample_database.

(** A loader whose registry holds the sample product under a new name and
    price, and a product the sample database does not hold. *)
Definition sample_products_loader : DataLoader :=
  mk_DataLoader [] default_batch_size
    [("Alaska", Some 1); ("Bear Brand", Some 7)]
    [("ALS001",
      mk_product_info "Alaska" "Alaska Evaporada 370ml" "Milk" "Canned"
        (Finite (45 # 1)));
     ("BRB001",
      mk_product_info "Bear Brand" "Bear Brand 300ml" "Dairy" "Dairy"
        (Finite (38 # 1)))]
    [] [] [].

(** The tuple [load_stores] keeps for a store seen on [row], whose
    coordinates read as [lat] and [lng]. *)
Definition store_of (row : Row) (lat lng : pyfloat) : store_row :=
  mk_store (store_id row) (store_name row) (store_type row) (region row)
    (province row) (city_municipality row) (barangay row) lat lng
    (economic_class row).

(** Every value of the dictionary is a store row of its key. *)
Definition keyed_by_store_id (d : dict store_row) : Prop :=
  forall k v, In (k, v) d -> s_store_id v = k.

Definition with_store_name_and_latitude (n lat : string) (r : Row) : Row :=
  mk_Row (transaction_id r) (timestamp r) (store_id r) n
    (store_type r) (region r) (province r) (city_municipality r)
    (barangay r) lat (longitude r) (economic_class r)
    (customer_id r) (gender r) (age_bracket r) (sku_id r) (brand_name r)
    (product_name r) (product_category r) (product_subcat r) (quantity r)
    (unit_price r) (peso_value r) (is_tbwa_client r) (campaign_id r)
    (was_substituted r) (original_request r) (audio_language r)
    (audio_transcript r) (video_objects r) (weather r) (day_of_week r)
    (hour_of_day r).

(** The row the customer statement proposes for a tuple of
    [customers_data], [id] being the identifier the database draws. *)
Definition customer_of (id : Z) (cust : string * (string * string))
  : customer_row :=
  mk_customer id (Some (fst cust)) (fst (snd cust)) (snd (snd cust))
    "regular" "non-member" "transaction_pattern".

(** Every entry of [customers_data] comes from a row of [rows] that names
    the customer. *)
Definition from_rows (rows : list Row) (d : dict (string * string)) : Prop :=
  forall k g a, In (k, (g, a)) d ->
    k <> "" /\
    exists row, In row rows /\ customer_id row = k /\
                gender row = g /\ age_bracket row = a.

(** The buffers a call of [_insert_transaction_batch] receives. *)
Definition batches_of (tb : list Trans) (ib : list Item) (ab : list Audio)
  (vb : list Video) : Batches :=
  mk_Batches tb ib ab vb 0 0 0 0.

(** The buffers [b] followed by the buffers [d]; the counters are those of
    [b]. *)
Definition batches_app (b d : Batches) : Batches :=
  mk_Batches (trans_batch b ++ trans_batch d) (items_batch b ++ items_batch d)
    (audio_batch b ++ audio_batch d) (video_batch b ++ video_batch d)
    (transaction_count b) (item_count b) (audio_count b) (video_count b).

(** The tuples of all the rows, as one batch. *)
Definition row_tuples (customer_map : dict Z) (rows : list Row)
  : result Batches :=
  for_each (append_row customer_map) rows empty_batches.

(** Rows counted and rows buffered, per table. *)
Definition totals (b : Batches) : Z * Z * Z * Z :=
  (transaction_count b + Z.of_nat (List.length (trans_batch b)),
   item_count b + Z.of_nat (List.length (items_batch b)),
   audio_count b + Z.of_nat (List.length (audio_batch b)),
   video_count b + Z.of_nat (List.length (video_batch b))).

(** What a row adds to the totals. *)
Definition row_weight (row : Row) : Z * Z * Z * Z :=
  (1, 1,
   if truthy (audio_transcript row) then 1 else 0,
   if truthy (video_objects row) then 1 else 0).

Definition add4 (x y : Z * Z * Z * Z) : Z * Z * Z * Z :=
  let '(a, b, c, d) := x in
  let '(a', b', c', d') := y in
  (a + a', b + b', c + c', d + d').

(** The loader with another batch size. *)
Definition with_batch_size (batch : Z) (self : DataLoader) : DataLoader :=
  mk_DataLoader (csv_file self) batch (brands self) (products self)
    (stores self) (customers self) (campaigns self).

(** The totals after the rows [rows], from the totals [z]. *)
Definition totals_after (rows : list Row) (z : Z * Z * Z * Z)
  : Z * Z * Z * Z :=
  fold_left (fun acc r => add4 acc (row_weight r)) rows z.

(** The four numbers [load_transactions] reports for a file. *)
Definition counts_of (rows : list Row) : Z * Z * Z * Z :=
  (Z.of_nat (List.length rows),
   Z.of_nat (List.length rows),
   Z.of_nat (List.length (filter (fun r => truthy (audio_transcript r)) rows)),
   Z.of_nat (List.length (filter (fun r => truthy (video_objects r)) rows))).

(** [sep.join(l)] *)
Fixpoint join (sep : string) (l : list string) : string :=
  match l with
  | [] => ""
  | x :: l' =>
      match l' with
      | [] => x
      | _ :: _ => (x ++ sep ++ join sep l')%string
      end
  end.

(** The character [c] occurs in [s]. *)
Fixpoint has_char (c : ascii) (s : string) : bool :=
  match s with
  | EmptyString => false
  | String d s' => Ascii.eqb d c || has_char c s'
  end.

(** [VIDEO_OBJECTS] of the generator script. *)
Definition VIDEO_OBJECTS : list string :=
  ["shelf"; "counter"; "refrigerator"; "customer"; "storeowner";
   "product_display"; "poster"; "cash_register"; "basket"; "bottle";
   "pack"; "sachet"; "box"].

(** What [generate_video_objects] returns once its sample [objects] is
    drawn. *)
Definition generate_video_objects (objects : list string) : string :=
  join "|" objects.

Definition with_video_objects (v : string) (r : Row) : Row :=
  mk_Row (transaction_id r) (timestamp r) (store_id r) (store_name r)
    (store_type r) (region r) (province r) (city_municipality r)
    (barangay r) (latitude r) (longitude r) (economic_class r)
    (customer_id r) (gender r) (age_bracket r) (sku_id r) (brand_name r)
    (product_name r) (product_category r) (product_subcat r) (quantity r)
    (unit_price r) (peso_value r) (is_tbwa_client r) (campaign_id r)
    (was_substituted r) (original_request r) (audio_language r)
    (audio_transcript r) v (weather r) (day_of_week r)
    (hour_of_day r).




(* ===================================================================== *)
(** * Tactics and basic facts                                             *)
(* ===================================================================== *)

(** Peel the binds of a computation known to return. *)
Ltac peel H :=
  repeat match type of H with
         | match ?c with Ok _ => _ | Raise _ => _ end = Ok _ =>
             let E := fresh "E" in
             destruct c eqn:E; [ | discriminate H ]
         end.

Lemma truthy_false_iff (s : string) : truthy s = false <-> s = "".
Proof. destruct s; simpl; split; intros H; congruence. Qed.

Lemma truthy_true_iff (s : string) : truthy s = true <-> s <> "".
Proof. destruct s; simpl; split; intros H; congruence. Qed.

Lemma in_list_In (x : string) (l : list string) :
  in_list x l = true <-> In x l.
Proof.
  induction l as [| y l IH]; simpl.
  - split; [discriminate | tauto].
  - rewrite orb_true_iff, IH, String.eqb_eq. intuition congruence.
Qed.

(** ** The tuples of one row *)

Lemma trans_data_fields (customer_map : dict Z) (row : Row) (t : Trans) :
  trans_data customer_map row = Ok t ->
  exists ts value units hr,
    fromisoformat (timestamp row) = Ok ts /\
    Py.float (peso_value row) = Ok value /\
    Py.int (quantity row) = Ok units /\
    Py.int (hour_of_day row) = Ok hr /\
    t = mk_Trans (transaction_id row) ts (store_id row)
          (dict_get (customer_id row) customer_map) value (float_const 0 1)
          value "cash" 120 units 1 (weather row) (day_of_week row) hr false
          (existsb (Z.eqb (day ts)) [15; 30])
          (if truthy (campaign_id row) then Some (campaign_id row) else None)
          (truthy (campaign_id row)).
Proof.
  unfold trans_data. intros H.
  destruct (fromisoformat (timestamp row)) as [ts |] eqn:Ets;
    [ | discriminate H ].
  destruct (Py.float (peso_value row)) as [value |] eqn:Ev;
    [ | discriminate H ].
  destruct (Py.int (quantity row)) as [units |] eqn:Eu; [ | discriminate H ].
  destruct (Py.int (hour_of_day row)) as [hr |] eqn:Eh; [ | discriminate H ].
  injection H as <-. exists ts, value, units, hr. repeat split.
Qed.

Lemma item_data_fields (row : Row) (i : Item) :
  item_data row = Ok i ->
  exists qty price total subst,
    Py.int (quantity row) = Ok qty /\
    Py.float (unit_price row) = Ok price /\
    Py.float (peso_value row) = Ok total /\
    Py.int (was_substituted row) = Ok subst /\
    i = mk_Item (transaction_id row) (sku_id row) qty price total
          (float_const 0 1) (bool_of_int subst)
          (if truthy (original_request row)
           then Some (original_request row) else None)
          (if String.eqb (was_substituted row) "1"
           then Some "out_of_stock" else None)
          false None.
Proof.
  unfold item_data. intros H.
  destruct (Py.int (quantity row)) as [qty |] eqn:Eq; [ | discriminate H ].
  destruct (Py.float (unit_price row)) as [price |] eqn:Ep;
    [ | discriminate H ].
  destruct (Py.float (peso_value row)) as [total |] eqn:Et;
    [ | discriminate H ].
  destruct (Py.int (was_substituted row)) as [subst |] eqn:Es;
    [ | discriminate H ].
  injection H as <-. exists qty, price, total, subst. repeat split.
Qed.

(** Whether the tuples of a row can be built depends on the row alone. *)
Lemma trans_data_ok_any_map (m1 m2 : dict Z) (row : Row) :
  is_ok (trans_data m1 row) = is_ok (trans_data m2 row).
Proof.
  unfold trans_data.
  destruct (fromisoformat (timestamp row)); [ | reflexivity ].
  destruct (Py.float (peso_value row)); [ | reflexivity ].
  destruct (Py.int (quantity row)); [ | reflexivity ].
  destruct (Py.int (hour_of_day row)); reflexivity.
Qed.

Lemma append_row_ok_any (m1 m2 : dict Z) (b1 b2 : Batches) (row : Row) :
  is_ok (append_row m1 b1 row) = is_ok (append_row m2 b2 row).
Proof.
  unfold append_row.
  pose proof (trans_data_ok_any_map m1 m2 row) as Ht.
  destruct (trans_data m1 row), (trans_data m2 row); try discriminate Ht;
    [ | reflexivity ].
  destruct (item_data row); [ | reflexivity ].
  destruct (audio_data row); reflexivity.
Qed.


(** ** Substring tests *)






(* ===================================================================== *)
(** * The item tuple                                                      *)
(* ===================================================================== *)

(** C4, as the code has it: the total price of the item is the row's
    [peso_value] column read as a float, and quantity and unit price are
    the row's own columns read as an integer and a float; the loader
    neither multiplies nor rounds. *)
Theorem item_total_is_peso_value (row : Row) (i : Item) :
  item_data row = Ok i ->
  Py.float (peso_value row) = Ok (i_total_price i) /\
  Py.int (quantity row) = Ok (i_quantity i) /\
  Py.float (unit_price row) = Ok (i_unit_price i).
Proof.
  intros H. apply item_data_fields in H.
  destruct H as (qty & price & total & subst & Hq & Hp & Ht & _ & ->).
  simpl. auto.
Qed.

Lemma item_total_is_peso_value_witness :
  exists i, item_data row_other_value = Ok i /\
    Py.float (peso_value row_other_value) = Ok (i_total_price i) /\
    Py.int (quantity row_other_value) = Ok (i_quantity i) /\
    Py.float (unit_price row_other_value) = Ok (i_unit_price i).
Proof.
  eexists. split.
  - vm_compute. reflexivity.
  - apply (@item_total_is_peso_value row_other_value). vm_compute. reflexivity.
Defined.

(** C4 as stated fails: on a row of two units at 42.00 whose [peso_value]
    is 75.50 the item's total is 75.5, not 84 (all three are exact as
    binary floats too). *)
Lemma item_total_not_recomputed :
  exists i, item_data row_other_value = Ok i /\
    i_total_price i = Finite (151 # 2) /\
    spec_total_price (i_quantity i) (i_unit_price i) = Finite (84 # 1) /\
    i_total_price i <> spec_total_price (i_quantity i) (i_unit_price i).
Proof.
  eexists. split; [ vm_compute; reflexivity | ].
  split; [ vm_compute; reflexivity | ].
  split; [ vm_compute; reflexivity | ].
  vm_compute. discriminate.
Qed.

(** C7, as the code has it: the original request is null exactly when the
    row's [original_request] column is empty, whatever the flag; the reason
    is ["out_of_stock"] exactly when the [was_substituted] column is the
    string ["1"] and null otherwise; the flag itself is true exactly when
    the column reads as a nonzero integer. *)
Theorem substitution_columns (row : Row) (i : Item) :
  item_data row = Ok i ->
  (i_original_sku_id i = None <-> original_request row = "") /\
  (original_request row <> "" ->
   i_original_sku_id i = Some (original_request row)) /\
  (i_substitution_reason i = Some "out_of_stock" <->
   was_substituted row = "1") /\
  (i_substitution_reason i = None <-> was_substituted row <> "1") /\
  (exists n, Py.int (was_substituted row) = Ok n /\
             (i_was_substituted i = true <-> n <> 0)).
Proof.
  intros H. apply item_data_fields in H.
  destruct H as (qty & price & total & subst & _ & _ & _ & Hs & ->).
  cbn [i_original_sku_id i_substitution_reason i_was_substituted].
  split; [ | split; [ | split; [ | split ] ] ].
  - destruct (original_request row); simpl; split; congruence.
  - destruct (original_request row); simpl; congruence.
  - destruct (String.eqb_spec (was_substituted row) "1"); split; congruence.
  - destruct (String.eqb_spec (was_substituted row) "1"); split; congruence.
  - exists subst. split; [ exact Hs | ].
    unfold bool_of_int. rewrite negb_true_iff, Z.eqb_neq. tauto.
Qed.

Lemma substitution_columns_witness :
  exists i, item_data row_request_without_substitution = Ok i /\
    (i_original_sku_id i = None <->
     original_request row_request_without_substitution = "") /\
    (original_request row_request_without_substitution <> "" ->
     i_original_sku_id i
     = Some (original_request row_request_without_substitution)) /\
    (i_substitution_reason i = Some "out_of_stock" <->
     was_substituted row_request_without_substitution = "1") /\
    (i_substitution_reason i = None <->
     was_substituted row_request_without_substitution <> "1") /\
    (exists n,
        Py.int (was_substituted row_request_without_substitution) = Ok n /\
        (i_was_substituted i = true <-> n <> 0)).
Proof.
  eexists. split.
  - vm_compute. reflexivity.
  - apply (@substitution_columns row_request_without_substitution).
    vm_compute. reflexivity.
Defined.

(** C7 as stated fails: a row whose flag is ["0"] and whose
    [original_request] column is filled yields an item that is not
    substituted and still carries the original request. *)
Lemma original_request_without_substitution :
  exists i, item_data row_request_without_substitution = Ok i /\
    was_substituted row_request_without_substitution = "0" /\
    i_was_substituted i = false /\
    i_original_sku_id i = Some "Bear Brand 300ml" /\
    ~ (i_original_sku_id i = None /\ i_substitution_reason i = None).
Proof.
  eexists. split; [ vm_compute; reflexivity | ].
  repeat split.
  intros [H _]. discriminate H.
Qed.

(* ===================================================================== *)
(** * The transaction tuple                                               *)
(* ===================================================================== *)

(** C6: the payday flag of the transaction tuple is true exactly when the
    day of the month of the parsed timestamp is 15 or 30. *)
Theorem is_payday_day_15_or_30 (customer_map : dict Z) (row : Row)
  (t : Trans) :
  trans_data customer_map row = Ok t ->
  fromisoformat (timestamp row) = Ok (t_timestamp t) /\
  (t_is_payday t = true <->
   day (t_timestamp t) = 15 \/ day (t_timestamp t) = 30).
Proof.
  intros H. apply trans_data_fields in H.
  destruct H as (ts & value & units & hr & Hts & _ & _ & _ & ->).
  cbn [t_timestamp t_is_payday existsb]. split; [ exact Hts | ].
  rewrite orb_false_r, orb_true_iff, !Z.eqb_eq. tauto.
Qed.

Lemma is_payday_day_15_or_30_witness :
  exists t, trans_data [] sample_row = Ok t /\
    fromisoformat (timestamp sample_row) = Ok (t_timestamp t) /\
    (t_is_payday t = true <->
     day (t_timestamp t) = 15 \/ day (t_timestamp t) = 30).
Proof.
  eexists. split.
  - vm_compute. reflexivity.
  - apply (@is_payday_day_15_or_30 [] sample_row). vm_compute. reflexivity.
Defined.

(** The rule is the literal one: the last day of a month is no payday
    unless it is the 30th. *)
Example last_day_of_february_is_no_payday :
  option_map t_is_payday
    (match trans_data [] (with_timestamp "2024-02-29T09:00:00" sample_row)
     with Ok t => Some t | Raise _ => None end)
  = Some false.
Proof. vm_compute. reflexivity. Qed.

Example the_31st_is_no_payday_the_30th_is :
  map (fun s =>
         option_map t_is_payday
           (match trans_data [] (with_timestamp s sample_row)
            with Ok t => Some t | Raise _ => None end))
    ["2024-01-31T09:00:00"; "2024-01-30T09:00:00"; "2024-01-15T23:59:59"]
  = [Some false; Some true; Some true].
Proof. vm_compute. reflexivity. Qed.

(** C5, as the code has it: the day of the week of the transaction tuple
    is the row's [day_of_week] column, copied, and its hour is the row's
    [hour_of_day] column read as an integer; neither is computed from the
    timestamp. *)
Theorem day_and_hour_copied_from_columns (customer_map : dict Z)
  (row : Row) (t : Trans) :
  trans_data customer_map row = Ok t ->
  t_day_of_week t = day_of_week row /\
  Py.int (hour_of_day row) = Ok (t_hour_of_day t).
Proof.
  intros H. apply trans_data_fields in H.
  destruct H as (ts & value & units & hr & _ & _ & _ & Hh & ->).
  split; [ reflexivity | exact Hh ].
Qed.

Lemma day_and_hour_copied_from_columns_witness :
  exists t, trans_data [] row_other_day = Ok t /\
    t_day_of_week t = day_of_week row_other_day /\
    Py.int (hour_of_day row_other_day) = Ok (t_hour_of_day t).
Proof.
  eexists. split.
  - vm_compute. reflexivity.
  - apply (@day_and_hour_copied_from_columns [] row_other_day).
    vm_compute. reflexivity.
Defined.

(** C5 as stated fails: a row stamped Friday 2024-03-15 at 10:23 whose
    columns say Monday and 23 yields a transaction said to be of Monday at
    hour 23. *)
Lemma day_and_hour_not_from_timestamp :
  exists t, trans_data [] row_other_day = Ok t /\
    spec_day_name (t_timestamp t) = "Friday" /\
    hour (t_timestamp t) = 10 /\
    t_day_of_week t = "Monday" /\
    t_hour_of_day t = 23 /\
    t_day_of_week t <> spec_day_name (t_timestamp t) /\
    t_hour_of_day t <> hour (t_timestamp t).
Proof.
  eexists. split; [ vm_compute; reflexivity | ].
  repeat split; vm_compute; discriminate.
Qed.

(** The references of the transaction tuple: the customer is whatever the
    customer map holds for the row's key, null when it holds nothing; a
    campaign key that is not empty is written as it is, with the influence
    flag set. *)
Lemma references_not_checked_row (customer_map : dict Z) (row : Row)
  (t : Trans) :
  trans_data customer_map row = Ok t ->
  t_customer_id t = dict_get (customer_id row) customer_map /\
  (campaign_id row <> "" ->
   t_campaign_id t = Some (campaign_id row) /\
   t_influenced_by_campaign t = true) /\
  (campaign_id row = "" ->
   t_campaign_id t = None /\ t_influenced_by_campaign t = false).
Proof.
  intros H. apply trans_data_fields in H.
  destruct H as (ts & value & units & hr & _ & _ & _ & _ & ->).
  cbn [t_customer_id t_campaign_id t_influenced_by_campaign].
  split; [ reflexivity | ].
  destruct (campaign_id row); simpl; split; intros E; try congruence; auto.
Qed.

(* ===================================================================== *)
(** * The audio tuple                                                     *)
(* ===================================================================== *)




(** The brand test keeps the case of letters, the keyword tests do not. *)
Example brand_test_is_case_sensitive :
  (contains "Alaska" "pabili ng ALASKA",
   contains "Alaska" "pabili ng Alaska",
   contains "pesos" (lower "42 PESOS po"),
   contains "promo" (lower "May Promo?"))
  = (false, true, true, true).
Proof. vm_compute. reflexivity. Qed.

(* ===================================================================== *)
(** * The batch writer                                                    *)
(* ===================================================================== *)

Lemma batches_inv_empty : batches_inv empty_batches.
Proof. unfold batches_inv. simpl. auto. Qed.

Lemma length_append_opt {A} (l : list A) (o : option A) :
  (List.length (append_opt l o) <= S (List.length l))%nat.
Proof. destruct o; simpl; [ rewrite length_app; simpl | ]; lia. Qed.

(** A row adds one transaction, one item, and at most one tuple to each
    of the other two buffers. *)
Lemma append_row_inv (customer_map : dict Z) (b b' : Batches) (row : Row) :
  append_row customer_map b row = Ok b' ->
  batches_inv b -> batches_inv b'.
Proof.
  unfold append_row, batches_inv. intros H (Hi & Ha & Hv).
  peel H. injection H as <-.
  cbn [trans_batch items_batch audio_batch video_batch].
  rewrite !length_app. simpl.
  match goal with |- context [append_opt (audio_batch b) ?o] =>
    pose proof (length_append_opt (audio_batch b) o) end.
  pose proof (length_append_opt (video_batch b) (video_data row)).
  lia.
Qed.

(** A batch of plain inserts appends its tuples, whatever the table
    holds. *)
Lemma execute_batch_plain {R} (data : list R) :
  forall t, execute_batch (@insert_plain R) data t = t ++ data.
Proof.
  induction data as [| r data IH]; intros t.
  - rewrite app_nil_r. reflexivity.
  - cbn [execute_batch fold_left]. unfold execute_batch in IH. rewrite IH.
    unfold insert_plain. rewrite <- app_assoc. reflexivity.
Qed.

(** So does every flush with its items: the item table grows by the whole
    item buffer. *)
Lemma flush_appends_items (b : Batches) (db : Database) :
  transaction_items_t (write_all b db)
  = transaction_items_t db ++ items_batch b.
Proof.
  unfold write_all. cbn. apply execute_batch_plain.
Qed.

(** One flush: the four writes on the open transaction, the requests in
    table order, the commit last, and the buffers left empty. *)
Lemma flush_run (b : Batches) (c : Conn) :
  flush b c
  = (mk_Conn (write_all b (pending c)) (write_all b (pending c))
       (log c ++ flush_events b),
     Ok (mk_Batches [] [] [] []
           (transaction_count b + Z.of_nat (List.length (trans_batch b)))
           (item_count b + Z.of_nat (List.length (items_batch b)))
           (audio_count b + Z.of_nat (List.length (audio_batch b)))
           (video_count b + Z.of_nat (List.length (video_batch b))))).
Proof.
  destruct c as [cm [br pr st cu ca tr it au vi nx] lg].
  destruct b as [tb ib ab vb n1 n2 n3 n4].
  unfold flush, _insert_transaction_batch, flush_events, write_all, bind,
    emit, statement, commit, ret.
  destruct ab, vb; cbn; repeat rewrite <- app_assoc; reflexivity.
Qed.

Lemma load_transactions_row_inv (bs : Z) (customer_map : dict Z)
  (b b' : Batches) (row : Row) (c c' : Conn) :
  load_transactions_row bs customer_map b row c = (c', Ok b') ->
  batches_inv b -> batches_inv b'.
Proof.
  unfold load_transactions_row, bind, lift. intros H Hinv.
  destruct (append_row customer_map b row) as [b1 |] eqn:E;
    [ | discriminate H ].
  destruct (Z.of_nat (List.length (trans_batch b1)) >=? bs).
  - rewrite flush_run in H. injection H as _ <-.
    unfold batches_inv. simpl. auto.
  - injection H as _ <-. eapply append_row_inv; eauto.
Qed.

(** Every state of the buffers that the loop reaches satisfies the
    invariant. *)
Lemma load_transactions_loop_inv (bs : Z) (customer_map : dict Z)
  (rows : list Row) :
  forall (b b' : Batches) (c c' : Conn),
    load_transactions_loop bs customer_map rows b c = (c', Ok b') ->
    batches_inv b -> batches_inv b'.
Proof.
  induction rows as [| row rows IH]; intros b b' c c' H Hinv.
  - injection H as _ <-. exact Hinv.
  - cbn [load_transactions_loop] in H. unfold bind at 1 in H.
    destruct (load_transactions_row bs customer_map b row c)
      as [c1 [b1 | e]] eqn:E; [ | discriminate H ].
    eapply IH; [ exact H | ].
    eapply load_transactions_row_inv; eauto.
Qed.

(** Below the threshold nothing is written. *)
Lemma no_flush_below_threshold (bs : Z) (customer_map : dict Z)
  (b b1 : Batches) (row : Row) (c : Conn) :
  append_row customer_map b row = Ok b1 ->
  Z.of_nat (List.length (trans_batch b1)) < bs ->
  load_transactions_row bs customer_map b row c = (c, Ok b1).
Proof.
  unfold load_transactions_row, bind, lift. intros -> Hlt.
  destruct (Z.geb_spec (Z.of_nat (List.length (trans_batch b1))) bs);
    [ lia | reflexivity ].
Qed.

(** C9: at any point of the loop, when the row just buffered makes some
    buffer reach the threshold, the loop flushes there and then: the four
    buffers are written whole in the order transactions, items, audio,
    video (a request being sent for each buffer that holds rows), one
    commit follows the writes and makes them the committed state, and all
    four buffers are emptied.  The threshold is the loader's [batch_size],
    1000 unless configured. *)
Theorem flush_when_any_buffer_full (bs : Z) (customer_map : dict Z)
  (rows : list Row) (row : Row) (c0 c : Conn) (b b1 : Batches) :
  load_transactions_loop bs customer_map rows empty_batches c0 = (c, Ok b) ->
  append_row customer_map b row = Ok b1 ->
  some_buffer_reaches bs b1 ->
  default_batch_size = 1000 /\
  exists b2,
    load_transactions_row bs customer_map b row c
    = (mk_Conn (write_all b1 (pending c)) (write_all b1 (pending c))
         (log c ++ flush_events b1),
       Ok b2) /\
    trans_batch b2 = [] /\ items_batch b2 = [] /\
    audio_batch b2 = [] /\ video_batch b2 = [].
Proof.
  intros Hloop Happ Hfull. split; [ reflexivity | ].
  assert (Hinv : batches_inv b1).
  { eapply append_row_inv; [ exact Happ | ].
    eapply load_transactions_loop_inv; [ exact Hloop | ].
    exact batches_inv_empty. }
  assert (Hge : bs <= Z.of_nat (List.length (trans_batch b1))).
  { destruct Hinv as (Hi & Ha & Hv).
    destruct Hfull as [H | [H | [H | H]]]; lia. }
  unfold load_transactions_row, bind, lift. rewrite Happ.
  destruct (Z.geb_spec (Z.of_nat (List.length (trans_batch b1))) bs);
    [ | lia ].
  rewrite flush_run. eexists. split; [ reflexivity | ]. simpl. auto.
Qed.

Lemma flush_when_any_buffer_full_witness :
  exists c b b1,
    load_transactions_loop 2 [] [sample_row] empty_batches
      (connect empty_database) = (c, Ok b) /\
    append_row [] b row_second = Ok b1 /\
    some_buffer_reaches 2 b1 /\
    default_batch_size = 1000 /\
    exists b2,
      load_transactions_row 2 [] b row_second c
      = (mk_Conn (write_all b1 (pending c)) (write_all b1 (pending c))
           (log c ++ flush_events b1),
         Ok b2) /\
      trans_batch b2 = [] /\ items_batch b2 = [] /\
      audio_batch b2 = [] /\ video_batch b2 = [].
Proof.
  eexists. eexists. eexists.
  split; [ vm_compute; reflexivity | ].
  split; [ vm_compute; reflexivity | ].
  split; [ left; vm_compute; discriminate | ].
  eapply (@flush_when_any_buffer_full 2 [] [sample_row] row_second).
  - vm_compute. reflexivity.
  - vm_compute. reflexivity.
  - left. vm_compute. discriminate.
Defined.

(** The order of the requests of a flush, on two buffered rows. *)
Example flush_order :
  option_map flush_events
    (match append_row [] empty_batches sample_row with
     | Ok b => match append_row [] b row_second with
               | Ok b' => Some b'
               | Raise _ => None
               end
     | Raise _ => None
     end)
  = Some [EInsert "transactions" 2; EInsert "transaction_items" 2;
          EInsert "audio_transcripts" 2; EInsert "video_signals" 2; ECommit].
Proof. vm_compute. reflexivity. Qed.

(* ===================================================================== *)
(** * Brands                                                              *)
(* ===================================================================== *)

Section BrandUpsert.
Variables (id : Z) (x : string) (flag : bool) (t : list brand_row).

Lemma brand_upsert_present :
  exists b, In b (brand_upsert id x flag t) /\ b_brand_name b = x.
Proof.
  unfold brand_upsert, insert_do_update.
  destruct (existsb (same_brand_name (mk_brand id x flag)) t) eqn:E.
  - apply existsb_exists in E. destruct E as (old & Hin & Hk).
    exists (brand_conflict_update old (mk_brand id x flag)). split.
    + apply in_map_iff. exists old. rewrite Hk. auto.
    + unfold same_brand_name in Hk. apply String.eqb_eq in Hk.
      simpl in *. congruence.
  - exists (mk_brand id x flag). split; [ | reflexivity ].
    apply in_or_app. right. left. reflexivity.
Qed.

Lemma brand_upsert_flag (b : brand_row) :
  In b (brand_upsert id x flag t) -> b_brand_name b = x ->
  b_is_tbwa_client b = flag.
Proof.
  unfold brand_upsert, insert_do_update.
  destruct (existsb (same_brand_name (mk_brand id x flag)) t) eqn:E.
  - intros Hin Hx. apply in_map_iff in Hin.
    destruct Hin as (old & Hb & _).
    destruct (same_brand_name (mk_brand id x flag) old) eqn:Hk.
    + subst b. reflexivity.
    + subst b. unfold same_brand_name in Hk. apply String.eqb_neq in Hk.
      simpl in Hk. congruence.
  - intros Hin Hx. apply in_app_or in Hin. destruct Hin as [Hin | [<- | []]].
    + exfalso. apply Bool.not_true_iff_false in E. apply E.
      apply existsb_exists. exists b. split; [ exact Hin | ].
      unfold same_brand_name. apply String.eqb_eq. simpl. congruence.
    + reflexivity.
Qed.

Lemma brand_upsert_others (b : brand_row) :
  b_brand_name b <> x -> (In b (brand_upsert id x flag t) <-> In b t).
Proof.
  unfold brand_upsert, insert_do_update. intros Hne.
  destruct (existsb (same_brand_name (mk_brand id x flag)) t) eqn:E.
  - rewrite in_map_iff. split.
    + intros (old & Hb & Hin).
      destruct (same_brand_name (mk_brand id x flag) old) eqn:Hk.
      * subst b. unfold same_brand_name in Hk. apply String.eqb_eq in Hk.
        simpl in *. congruence.
      * subst b. exact Hin.
    + intros Hin. exists b. split; [ | exact Hin ].
      destruct (same_brand_name (mk_brand id x flag) b) eqn:Hk;
        [ | reflexivity ].
      unfold same_brand_name in Hk. apply String.eqb_eq in Hk.
      simpl in Hk. congruence.
  - rewrite in_app_iff. simpl. split; [ | tauto ].
    intros [H | [<- | []]]; [ exact H | ]. simpl in Hne. congruence.
Qed.
End BrandUpsert.

Lemma flags_set_step (done : list string) (x : string) (db : Database) :
  flags_set done (brands_t db) ->
  flags_set (done ++ [x])
    (brands_t (insert_brand x (in_list x tbwa_clients) db)).
Proof.
  intros H n Hn. destruct db as [br pr st cu ca tr it au vi nx].
  cbn [insert_brand bump_next_id set_brands_t brands_t next_id] in *.
  destruct (String.eqb_spec n x) as [-> | Hne].
  - split.
    + apply brand_upsert_present.
    + intros b. apply brand_upsert_flag.
  - apply in_app_or in Hn. destruct Hn as [Hn | [-> | []]]; [ | congruence ].
    destruct (H n Hn) as [(b & Hin & Hb) Hall]. split.
    + exists b. split; [ | exact Hb ].
      apply brand_upsert_others; congruence.
    + intros b' Hin' Hb'. apply Hall; [ | exact Hb' ].
      apply brand_upsert_others in Hin'; congruence.
Qed.

Lemma flags_set_brands_after (names : list string) :
  forall (done : list string) (db : Database),
    flags_set done (brands_t db) ->
    flags_set (done ++ names) (brands_t (brands_after names db)).
Proof.
  induction names as [| x names IH]; intros done db H.
  - rewrite app_nil_r. exact H.
  - cbn [brands_after fold_left].
    replace (done ++ x :: names) with ((done ++ [x]) ++ names)
      by (rewrite <- app_assoc; reflexivity).
    apply IH. apply flags_set_step. exact H.
Qed.

(** The loop of [load_brands] never raises, leaves the committed state
    alone, and acts on the open transaction as [brands_after]. *)
Lemma load_brands_loop_run (names : list string) :
  forall (d : dict (option Z)) (c : Conn),
  exists c' d',
    load_brands_loop names d c = (c', Ok d') /\
    committed c' = committed c /\
    pending c' = brands_after names (pending c).
Proof.
  induction names as [| x names IH]; intros d c.
  - exists c, d. auto.
  - cbn [load_brands_loop brands_after fold_left].
    unfold bind at 1, load_brands_step, bind, emit, statement, query, ret.
    cbn [committed pending log].
    match goal with |- context [load_brands_loop names ?d1 ?c1] =>
      destruct (IH d1 c1) as (c' & d' & -> & Hc & Hp) end.
    exists c', d'. cbn [committed pending] in *. auto.
Qed.

Lemma load_brands_run (self : DataLoader) (c : Conn) :
  exists c' self',
    load_brands self c = (c', Ok self') /\
    csv_file self' = csv_file self /\
    batch_size self' = batch_size self /\
    committed c' = brands_after (dict_keys (brands self)) (pending c) /\
    pending c' = committed c'.
Proof.
  unfold load_brands, bind at 1.
  destruct (load_brands_loop_run (dict_keys (brands self)) (brands self) c)
    as (c1 & d1 & -> & _ & Hp).
  unfold bind, commit, ret. cbn. eexists. eexists.
  split; [ reflexivity | ]. cbn. rewrite Hp. auto.
Qed.

(** ** The [is_tbwa_client] column is not read *)

Section Retag.
(** Any other content for the [is_tbwa_client] column of each row. *)
Variable other : Row -> string.

Lemma for_each_retag {S} (body : S -> Row -> result S) :
  (forall s r, body s (retag_row other r) = body s r) ->
  forall rows s,
    for_each body (map (retag_row other) rows) s = for_each body rows s.
Proof.
  intros Hbody. induction rows as [| r rows IH]; intros s.
  - reflexivity.
  - cbn [map for_each]. rewrite Hbody.
    destruct (body s r); [ apply IH | reflexivity ].
Qed.

Lemma extract_entities_row_retag (self : DataLoader) (r : Row) :
  extract_entities_row (retag other self) (retag_row other r)
  = result_map (retag other) (extract_entities_row self r).
Proof.
  unfold extract_entities_row, retag, retag_row. cbn.
  destruct (negb (dict_mem (sku_id r) (products self)));
    [ destruct (Py.float (unit_price r)) | ]; reflexivity.
Qed.

Lemma extract_entities_loop_retag (rows : list Row) :
  forall self,
    for_each extract_entities_row (map (retag_row other) rows)
      (retag other self)
    = result_map (retag other) (for_each extract_entities_row rows self).
Proof.
  induction rows as [| r rows IH]; intros self.
  - reflexivity.
  - cbn [map for_each]. rewrite extract_entities_row_retag.
    destruct (extract_entities_row self r); [ apply IH | reflexivity ].
Qed.

Lemma extract_entities_retag (self : DataLoader) :
  extract_entities (retag other self)
  = result_map (retag other) (extract_entities self).
Proof. apply extract_entities_loop_retag. Qed.

Lemma load_brands_retag (self : DataLoader) (c : Conn) :
  load_brands (retag other self) c
  = (fst (load_brands self c),
     result_map (retag other) (snd (load_brands self c))).
Proof.
  unfold load_brands, bind, commit, ret. cbn [brands retag].
  destruct (load_brands_loop (dict_keys (brands self)) (brands self) c)
    as [c1 [d1 | e]]; reflexivity.
Qed.

Lemma load_stores_retag (self : DataLoader) (c : Conn) :
  load_stores (retag other self) c = load_stores self c.
Proof.
  unfold load_stores, bind, lift. cbn [csv_file retag].
  rewrite for_each_retag; reflexivity.
Qed.

Lemma load_customers_retag (self : DataLoader) (c : Conn) :
  load_customers (retag other self) c = load_customers self c.
Proof.
  unfold load_customers, bind, lift. cbn [csv_file retag].
  rewrite for_each_retag; reflexivity.
Qed.

Lemma load_transactions_loop_retag (bs : Z) (customer_map : dict Z)
  (rows : list Row) :
  forall b c,
    load_transactions_loop bs customer_map (map (retag_row other) rows)
      b c
    = load_transactions_loop bs customer_map rows b c.
Proof.
  induction rows as [| r rows IH]; intros b c.
  - reflexivity.
  - cbn [map load_transactions_loop]. unfold bind.
    change (load_transactions_row bs customer_map b (retag_row other r) c)
      with (load_transactions_row bs customer_map b r c).
    destruct (load_transactions_row bs customer_map b r c) as [c1 [b1 | e]];
      [ apply IH | reflexivity ].
Qed.

Lemma load_transactions_retag (self : DataLoader) (c : Conn) :
  load_transactions (retag other self) c = load_transactions self c.
Proof.
  unfold load_transactions, bind, emit, query.
  cbn [csv_file retag batch_size].
  rewrite load_transactions_loop_retag. reflexivity.
Qed.

Lemma run_retag (self : DataLoader) (c : Conn) :
  run (retag other self) c = run self c.
Proof.
  unfold run, except_reraise, bind, lift.
  rewrite extract_entities_retag.
  destruct (extract_entities self) as [self1 | e]; [ | reflexivity ].
  cbn [result_map]. rewrite load_brands_retag.
  destruct (load_brands self1 c) as [c1 [self2 | e]]; [ | reflexivity ].
  cbn [fst snd result_map].
  change (load_products (retag other self2) c1)
    with (load_products self2 c1).
  destruct (load_products self2 c1) as [c2 [[] | e]]; [ | reflexivity ].
  rewrite load_stores_retag.
  destruct (load_stores self2 c2) as [c3 [[] | e]]; [ | reflexivity ].
  rewrite load_customers_retag.
  destruct (load_customers self2 c3) as [c4 [[] | e]]; [ | reflexivity ].
  change (load_campaigns (retag other self2) c4)
    with (load_campaigns self2 c4).
  destruct (load_campaigns self2 c4) as [c5 [[] | e]]; [ | reflexivity ].
  rewrite load_transactions_retag. reflexivity.
Qed.
End Retag.

(** C10: [load_brands] gives every brand it has observed a row whose
    partner flag is true exactly when the brand name is one of the five
    names of [tbwa_clients]; and a run does the same, request for request
    and row for row, whatever the [is_tbwa_client] column of the input rows
    holds. *)
Theorem partner_flag_from_fixed_list (self : DataLoader) (c : Conn)
  (name : string) :
  In name (dict_keys (brands self)) ->
  tbwa_clients
  = ["Alaska"; "Marlboro"; "Tide"; "Coca-Cola"; "Head & Shoulders"] /\
  (exists c' self',
      load_brands self c = (c', Ok self') /\
      (exists b, In b (brands_t (committed c')) /\ b_brand_name b = name) /\
      (forall b, In b (brands_t (committed c')) -> b_brand_name b = name ->
                 (b_is_tbwa_client b = true <-> In name tbwa_clients))) /\
  (forall (other : Row -> string) (csv : list Row) (batch : Z)
          (db : Database),
      main (map (retag_row other) csv) batch db = main csv batch db).
Proof.
  intros Hin. split; [ reflexivity | ]. split.
  - destruct (load_brands_run self c) as (c' & self' & Hrun & _ & _ & Hc & _).
    exists c', self'. split; [ exact Hrun | ].
    assert (H : flags_set (dict_keys (brands self)) (brands_t (committed c'))).
    { rewrite Hc.
      apply (@flags_set_brands_after (dict_keys (brands self)) []
               (pending c)).
      intros n []. }
    destruct (H name Hin) as [Hex Hall]. split; [ exact Hex | ].
    intros b Hb Hn. rewrite (Hall b Hb Hn). apply in_list_In.
  - intros other csv batch db. unfold main.
    apply (run_retag other (new_DataLoader csv batch) (connect db)).
Qed.

Lemma partner_flag_from_fixed_list_witness :
  In "Bear Brand"
    (dict_keys
       (brands (mk_DataLoader [sample_row] 1000
                  [("Alaska", None); ("Bear Brand", None)] [] [] [] []))) /\
  (tbwa_clients
   = ["Alaska"; "Marlboro"; "Tide"; "Coca-Cola"; "Head & Shoulders"] /\
   (exists c' self',
       load_brands
         (mk_DataLoader [sample_row] 1000
            [("Alaska", None); ("Bear Brand", None)] [] [] [] [])
         (connect empty_database)
       = (c', Ok self') /\
       (exists b, In b (brands_t (committed c')) /\
                  b_brand_name b = "Bear Brand") /\
       (forall b, In b (brands_t (committed c')) ->
                  b_brand_name b = "Bear Brand" ->
                  (b_is_tbwa_client b = true <->
                   In "Bear Brand" tbwa_clients))) /\
   (forall (other : Row -> string) (csv : list Row) (batch : Z)
           (db : Database),
       main (map (retag_row other) csv) batch db = main csv batch db)).
Proof.
  split.
  - right. left. reflexivity.
  - apply (@partner_flag_from_fixed_list
             (mk_DataLoader [sample_row] 1000
                [("Alaska", None); ("Bear Brand", None)] [] [] [] [])
             (connect empty_database) "Bear Brand").
    right. left. reflexivity.
Defined.

(** A brand of the list and a brand outside it, loaded into an empty
    database. *)
Example partner_flags_of_two_brands :
  map (fun b => (b_brand_name b, b_is_tbwa_client b))
    (brands_t (committed
       (fst (load_brands
               (mk_DataLoader [] 1000
                  [("Alaska", None); ("Bear Brand", None)] [] [] [] [])
               (connect empty_database)))))
  = [("Alaska", true); ("Bear Brand", false)].
Proof. vm_compute. reflexivity. Qed.

(* ===================================================================== *)
(** * Running the loader twice                                            *)
(* ===================================================================== *)

(** [ON CONFLICT (transaction_id) DO NOTHING] adds no row for an
    identifier the table holds. *)
Lemma transactions_insert_ignores_known_id (t : Trans) (table : list Trans) :
  In (t_transaction_id t) (map t_transaction_id table) ->
  insert_do_nothing same_transaction_id t table = table.
Proof.
  intros Hin. unfold insert_do_nothing.
  replace (existsb (same_transaction_id t) table) with true; [ reflexivity | ].
  symmetry. apply existsb_exists. apply in_map_iff in Hin.
  destruct Hin as (old & Hid & Hin). exists old. split; [ exact Hin | ].
  unfold same_transaction_id. apply String.eqb_eq. congruence.
Qed.

(** C1 on the code: the one-row file loaded twice into an empty database.
    Both runs succeed; the second adds no transaction row, but it adds a
    second item row (and a second audio and video row) for the same
    transaction identifier. *)
Theorem rerun_duplicates_item_rows :
  let first := main [sample_row] default_batch_size empty_database in
  let second :=
    main [sample_row] default_batch_size (committed (fst first)) in
  snd first = Ok tt /\
  snd second = Ok tt /\
  map t_transaction_id (transactions_t (committed (fst first)))
  = ["TX00000001"] /\
  map i_transaction_id (transaction_items_t (committed (fst first)))
  = ["TX00000001"] /\
  map t_transaction_id (transactions_t (committed (fst second)))
  = ["TX00000001"] /\
  map i_transaction_id (transaction_items_t (committed (fst second)))
  = ["TX00000001"; "TX00000001"] /\
  List.length (audio_transcripts_t (committed (fst second))) = 2%nat /\
  List.length (video_signals_t (committed (fst second))) = 2%nat.
Proof. vm_compute. repeat split. Qed.

(* ===================================================================== *)
(** * References                                                          *)
(* ===================================================================== *)

Lemma dict_get_key {V} (k : string) (d : dict V) (v : V) :
  dict_get k d = Some v -> In k (dict_keys d).
Proof.
  induction d as [| [k' v'] d IH]; simpl; [ discriminate | ].
  destruct (String.eqb_spec k k') as [-> | _]; auto.
Qed.

Lemma campaigns_data_known (camps : list string) (r : campaign_row) :
  In r (campaigns_data camps) ->
  In (cp_campaign_id r) (dict_keys campaign_names).
Proof.
  induction camps as [| camp camps IH]; cbn [campaigns_data];
    [ intros [] | ].
  destruct (dict_get camp campaign_names) as [name |] eqn:E; [ | exact IH ].
  intros [<- | H]; [ | exact (IH H) ].
  cbn [cp_campaign_id]. eapply dict_get_key; eauto.
Qed.

(** C2, as the code has it: the loader checks no reference when it builds
    a transaction.  The customer is what the customer map read from the
    database holds for the row's key, null when it holds nothing; a
    campaign key that is not empty is written as it is, with the influence
    flag set, whether or not a campaign row exists for it; a row whose
    tuple can be built with one customer map can be built with any; and
    [load_campaigns] writes rows only for the four keys of its own table
    of names. *)
Theorem references_not_checked (customer_map : dict Z) (row : Row)
  (t : Trans) :
  trans_data customer_map row = Ok t ->
  t_customer_id t = dict_get (customer_id row) customer_map /\
  (campaign_id row <> "" ->
   t_campaign_id t = Some (campaign_id row) /\
   t_influenced_by_campaign t = true) /\
  (campaign_id row = "" ->
   t_campaign_id t = None /\ t_influenced_by_campaign t = false) /\
  (forall other_map, is_ok (trans_data other_map row) = true) /\
  (forall camps r, In r (campaigns_data camps) ->
                   In (cp_campaign_id r)
                     ["CAMP001"; "CAMP002"; "CAMP003"; "CAMP004"]).
Proof.
  intros H.
  destruct (references_not_checked_row _ _ H) as (Hc & Hk & He).
  split; [ exact Hc | ]. split; [ exact Hk | ]. split; [ exact He | ].
  split.
  - intros other_map.
    rewrite (trans_data_ok_any_map other_map customer_map row), H.
    reflexivity.
  - intros camps r Hr. exact (campaigns_data_known camps r Hr).
Qed.

Lemma references_not_checked_witness :
  exists t,
    trans_data [] row_unknown_campaign = Ok t /\
    t_customer_id t = dict_get (customer_id row_unknown_campaign) [] /\
    (campaign_id row_unknown_campaign <> "" ->
     t_campaign_id t = Some (campaign_id row_unknown_campaign) /\
     t_influenced_by_campaign t = true) /\
    (campaign_id row_unknown_campaign = "" ->
     t_campaign_id t = None /\ t_influenced_by_campaign t = false) /\
    (forall other_map,
        is_ok (trans_data other_map row_unknown_campaign) = true) /\
    (forall camps r, In r (campaigns_data camps) ->
                     In (cp_campaign_id r)
                       ["CAMP001"; "CAMP002"; "CAMP003"; "CAMP004"]).
Proof.
  eexists. split.
  - vm_compute. reflexivity.
  - apply (@references_not_checked [] row_unknown_campaign).
    vm_compute. reflexivity.
Defined.

(** C2 as stated fails.  A run on a row that names campaign ["CAMP999"]
    succeeds, loads no campaign, and commits a transaction row that names
    that campaign; and [load_transactions] on a database that holds no
    customer commits the row of a customer with a null customer id. *)
Lemma unknown_references_are_written :
  snd (main [row_unknown_campaign] default_batch_size empty_database)
  = Ok tt /\
  campaigns_t
    (committed
       (fst (main [row_unknown_campaign] default_batch_size empty_database)))
  = [] /\
  map (fun t => (t_campaign_id t, t_influenced_by_campaign t))
    (transactions_t
       (committed
          (fst (main [row_unknown_campaign] default_batch_size
                  empty_database))))
  = [(Some "CAMP999", true)] /\
  customer_id sample_row = "a1b2c3d4" /\
  snd (load_transactions (new_DataLoader [sample_row] default_batch_size)
         (connect empty_database))
  = Ok (1, 1, 1, 1) /\
  map t_customer_id
    (transactions_t
       (committed
          (fst (load_transactions
                  (new_DataLoader [sample_row] default_batch_size)
                  (connect empty_database)))))
  = [None].
Proof. vm_compute. repeat split. Qed.

(* ===================================================================== *)
(** * Rows that do not parse                                              *)
(* ===================================================================== *)








(** A flag outside ["0"] and ["1"] that reads as an integer is accepted:
    the row loads, substituted and without a reason. *)
Example flag_two_is_accepted :
  option_map (fun i => (i_was_substituted i, i_substitution_reason i))
    (match item_data (with_was_substituted "2" sample_row)
     with Ok i => Some i | Raise _ => None end)
  = Some (true, None).
Proof. vm_compute. reflexivity. Qed.

(* ===================================================================== *)
(** * Dictionaries and sets                                               *)
(* ===================================================================== *)

Lemma dict_mem_in_list {V} (k : string) (d : dict V) :
  dict_mem k d = in_list k (dict_keys d).
Proof.
  unfold dict_mem. induction d as [| [k' v] d IH]; simpl; [ reflexivity | ].
  destruct (String.eqb k k'); simpl; [ reflexivity | exact IH ].
Qed.

Lemma dict_keys_set {V} (k : string) (v : V) (d : dict V) :
  dict_keys (dict_set k v d) = set_add k (dict_keys d).
Proof.
  induction d as [| [k' v'] d IH]; [ reflexivity | ].
  cbn [dict_set]. unfold set_add. cbn [dict_keys map fst in_list].
  destruct (String.eqb_spec k k') as [-> | Hne]; cbn [orb map fst].
  - reflexivity.
  - change (dict_keys ((k', v') :: dict_set k v d))
      with (k' :: dict_keys (dict_set k v d)).
    rewrite IH. unfold set_add, dict_keys.
    destruct (in_list k (map fst d)); reflexivity.
Qed.

Lemma dict_get_set_same {V} (k : string) (v : V) (d : dict V) :
  dict_get k (dict_set k v d) = Some v.
Proof.
  induction d as [| [k' v'] d IH]; simpl.
  - rewrite String.eqb_refl. reflexivity.
  - destruct (String.eqb_spec k k') as [-> | Hne]; simpl.
    + rewrite String.eqb_refl. reflexivity.
    + destruct (String.eqb_spec k k'); [ contradiction | exact IH ].
Qed.

Lemma dict_get_set_other {V} (k k' : string) (v : V) (d : dict V) :
  k <> k' -> dict_get k (dict_set k' v d) = dict_get k d.
Proof.
  intros Hne. induction d as [| [k0 v0] d IH]; simpl.
  - destruct (String.eqb_spec k k'); [ contradiction | reflexivity ].
  - destruct (String.eqb_spec k' k0) as [-> | Hne0]; simpl.
    + destruct (String.eqb_spec k k0); [ contradiction | reflexivity ].
    + destruct (String.eqb_spec k k0); [ reflexivity | exact IH ].
Qed.

Lemma dict_get_Some_key {V} (k : string) (d : dict V) :
  In k (dict_keys d) <-> exists v, dict_get k d = Some v.
Proof.
  induction d as [| [k' v'] d IH]; simpl.
  - split; [ intros [] | intros [v H]; discriminate H ].
  - destruct (String.eqb_spec k k') as [-> | Hne].
    + split; eauto.
    + rewrite <- IH. split; [ intros [H | H]; congruence | auto ].
Qed.

Lemma set_add_In (x k : string) (s : list string) :
  In x (set_add k s) <-> x = k \/ In x s.
Proof.
  unfold set_add. destruct (in_list k s) eqn:E.
  - apply in_list_In in E. split; [ auto | intros [-> | H]; auto ].
  - rewrite in_app_iff. simpl. intuition congruence.
Qed.

Lemma NoDup_snoc {A} (x : A) (l : list A) :
  NoDup l -> ~ In x l -> NoDup (l ++ [x]).
Proof.
  induction l as [| y l IH]; simpl; intros Hnd Hx.
  - constructor; [ intros [] | constructor ].
  - inversion Hnd as [| ? ? Hy Hnd']; subst. constructor.
    + rewrite in_app_iff. simpl. intuition congruence.
    + apply IH; tauto.
Qed.

Lemma set_add_NoDup (k : string) (s : list string) :
  NoDup s -> NoDup (set_add k s).
Proof.
  unfold set_add. intros Hnd. destruct (in_list k s) eqn:E; [ exact Hnd | ].
  apply NoDup_snoc; [ exact Hnd | ].
  rewrite <- in_list_In. congruence.
Qed.

Lemma add_all_In (x : string) (ks : list string) :
  forall s, In x (add_all ks s) <-> In x s \/ In x ks.
Proof.
  unfold add_all. induction ks as [| k ks IH]; intros s; simpl.
  - tauto.
  - rewrite IH, set_add_In. intuition congruence.
Qed.

Lemma add_all_NoDup (ks : list string) :
  forall s, NoDup s -> NoDup (add_all ks s).
Proof.
  unfold add_all. induction ks as [| k ks IH]; intros s Hnd; simpl.
  - exact Hnd.
  - apply IH, set_add_NoDup, Hnd.
Qed.

(* ===================================================================== *)
(** * The entity registry                                                 *)
(* ===================================================================== *)

(** What one row adds to the five registries. *)
Lemma extract_entities_row_sets (self self' : DataLoader) (row : Row) :
  extract_entities_row self row = Ok self' ->
  dict_keys (brands self')
  = set_add (brand_name row) (dict_keys (brands self)) /\
  dict_keys (products self')
  = set_add (sku_id row) (dict_keys (products self)) /\
  stores self' = set_add (store_id row) (stores self) /\
  customers self'
  = (if truthy (customer_id row)
     then set_add (customer_id row) (customers self) else customers self) /\
  campaigns self'
  = (if truthy (campaign_id row)
     then set_add (campaign_id row) (campaigns self) else campaigns self).
Proof.
  unfold extract_entities_row. intros H.
  assert (Hb : dict_keys
                 (if negb (dict_mem (brand_name row) (brands self))
                  then dict_set (brand_name row) None (brands self)
                  else brands self)
               = set_add (brand_name row) (dict_keys (brands self))).
  { rewrite dict_mem_in_list.
    destruct (in_list (brand_name row) (dict_keys (brands self))) eqn:E;
      simpl.
    - unfold set_add. rewrite E. reflexivity.
    - apply dict_keys_set. }
  destruct (negb (dict_mem (sku_id row) (products self))) eqn:Em.
  - destruct (Py.float (unit_price row)) as [price |]; [ | discriminate H ].
    injection H as <-. cbn [brands products stores customers campaigns].
    split; [ exact Hb | ]. split; [ apply dict_keys_set | ]. auto.
  - injection H as <-. cbn [brands products stores customers campaigns].
    split; [ exact Hb | ]. split; [ | auto ].
    apply negb_false_iff in Em. rewrite dict_mem_in_list in Em.
    unfold set_add. rewrite Em. reflexivity.
Qed.

Lemma extract_entities_loop_sets (rows : list Row) :
  forall self self',
    for_each extract_entities_row rows self = Ok self' ->
    dict_keys (brands self')
    = add_all (map brand_name rows) (dict_keys (brands self)) /\
    dict_keys (products self')
    = add_all (map sku_id rows) (dict_keys (products self)) /\
    stores self' = add_all (map store_id rows) (stores self) /\
    customers self'
    = add_all (filter truthy (map customer_id rows)) (customers self) /\
    campaigns self'
    = add_all (filter truthy (map campaign_id rows)) (campaigns self).
Proof.
  induction rows as [| r rows IH]; intros self self' H.
  - injection H as <-. repeat split.
  - cbn [for_each] in H.
    destruct (extract_entities_row self r) as [s1 |] eqn:E;
      [ | discriminate H ].
    apply extract_entities_row_sets in E.
    destruct E as (Eb & Ep & Es & Ec & Ek).
    destruct (IH s1 self' H) as (Hb & Hp & Hs & Hc & Hk).
    rewrite Hb, Hp, Hs, Hc, Hk, Eb, Ep, Es, Ec, Ek.
    cbn [map filter]. unfold add_all.
    destruct (truthy (customer_id r)), (truthy (campaign_id r));
      repeat split.
Qed.

Lemma in_map_rows (f : Row -> string) (k : string) (rows : list Row) :
  In k (map f rows) <-> exists r, In r rows /\ f r = k.
Proof.
  rewrite in_map_iff. split; intros (r & H1 & H2); exists r; auto.
Qed.

Lemma in_filter_truthy_rows (f : Row -> string) (k : string)
  (rows : list Row) :
  In k (filter truthy (map f rows)) <->
  k <> "" /\ exists r, In r rows /\ f r = k.
Proof.
  rewrite filter_In, in_map_rows, truthy_true_iff. tauto.
Qed.

(** X1: after [extract_entities] on a fresh loader the five registries
    hold no key twice, and hold exactly the keys of the file: every brand
    name, SKU and store of a row, and every customer and campaign key of a
    row that is not empty. *)
Theorem registry_holds_the_keys_of_the_file (csv : list Row) (batch : Z)
  (self' : DataLoader) :
  extract_entities (new_DataLoader csv batch) = Ok self' ->
  (NoDup (dict_keys (brands self')) /\
   NoDup (dict_keys (products self')) /\
   NoDup (stores self') /\
   NoDup (customers self') /\
   NoDup (campaigns self')) /\
  (forall k, In k (dict_keys (brands self')) <->
             exists r, In r csv /\ brand_name r = k) /\
  (forall k, In k (dict_keys (products self')) <->
             exists r, In r csv /\ sku_id r = k) /\
  (forall k, In k (stores self') <->
             exists r, In r csv /\ store_id r = k) /\
  (forall k, In k (customers self') <->
             k <> "" /\ exists r, In r csv /\ customer_id r = k) /\
  (forall k, In k (campaigns self') <->
             k <> "" /\ exists r, In r csv /\ campaign_id r = k).
Proof.
  unfold extract_entities. cbn [csv_file new_DataLoader]. intros H.
  apply extract_entities_loop_sets in H.
  cbn [brands products stores customers campaigns new_DataLoader dict_keys
         map] in H.
  destruct H as (Hb & Hp & Hs & Hc & Hk).
  rewrite Hb, Hp, Hs, Hc, Hk. split.
  - repeat split; apply add_all_NoDup; constructor.
  - split; [ | split; [ | split; [ | split ] ] ]; intros k;
      rewrite add_all_In; simpl;
      rewrite ?in_filter_truthy_rows, ?in_map_rows; tauto.
Qed.

Lemma registry_holds_the_keys_of_the_file_witness :
  exists self',
    extract_entities
      (new_DataLoader [sample_row; row_unknown_campaign] 1000) = Ok self' /\
    (NoDup (dict_keys (brands self')) /\
     NoDup (dict_keys (products self')) /\
     NoDup (stores self') /\
     NoDup (customers self') /\
     NoDup (campaigns self')) /\
    (forall k, In k (dict_keys (brands self')) <->
               exists r, In r [sample_row; row_unknown_campaign] /\
                         brand_name r = k) /\
    (forall k, In k (dict_keys (products self')) <->
               exists r, In r [sample_row; row_unknown_campaign] /\
                         sku_id r = k) /\
    (forall k, In k (stores self') <->
               exists r, In r [sample_row; row_unknown_campaign] /\
                         store_id r = k) /\
    (forall k, In k (customers self') <->
               k <> "" /\
               exists r, In r [sample_row; row_unknown_campaign] /\
                         customer_id r = k) /\
    (forall k, In k (campaigns self') <->
               k <> "" /\
               exists r, In r [sample_row; row_unknown_campaign] /\
                         campaign_id r = k).
Proof.
  eexists. split.
  - vm_compute. reflexivity.
  - apply (@registry_holds_the_keys_of_the_file
             [sample_row; row_unknown_campaign] 1000).
    vm_compute. reflexivity.
Defined.

(** The product dictionary after one row. *)
Lemma extract_entities_row_products (self self' : DataLoader) (row : Row) :
  extract_entities_row self row = Ok self' ->
  (dict_mem (sku_id row) (products self) = true /\
   products self' = products self) \/
  (dict_mem (sku_id row) (products self) = false /\
   exists price,
     Py.float (unit_price row) = Ok price /\
     products self'
     = dict_set (sku_id row) (product_info_of row price) (products self)).
Proof.
  unfold extract_entities_row. intros H.
  destruct (dict_mem (sku_id row) (products self)) eqn:Em; simpl in H.
  - left. injection H as <-. auto.
  - right. split; [ reflexivity | ].
    destruct (Py.float (unit_price row)) as [price |]; [ | discriminate H ].
    injection H as <-. exists price. auto.
Qed.

Lemma dict_mem_false_get {V} (k : string) (d : dict V) :
  dict_mem k d = false <-> dict_get k d = None.
Proof.
  unfold dict_mem. destruct (dict_get k d); split; congruence.
Qed.

(** A key the dictionary holds keeps its value; a key it does not hold
    gets the value built from the first row that names it. *)
Lemma extract_entities_loop_products (rows : list Row) :
  forall self self',
    for_each extract_entities_row rows self = Ok self' ->
    forall k,
      match dict_get k (products self) with
      | Some v => dict_get k (products self') = Some v
      | None =>
          match find (fun r => String.eqb (sku_id r) k) rows with
          | Some r =>
              exists price,
                Py.float (unit_price r) = Ok price /\
                dict_get k (products self')
                = Some (product_info_of r price)
          | None => dict_get k (products self') = None
          end
      end.
Proof.
  induction rows as [| r rows IH]; intros self self' H k.
  - injection H as <-. cbn [find]. destruct (dict_get k (products self));
      reflexivity.
  - cbn [for_each] in H.
    destruct (extract_entities_row self r) as [s1 |] eqn:E;
      [ | discriminate H ].
    specialize (IH s1 self' H k).
    apply extract_entities_row_products in E. cbn [find].
    destruct E as [[Hm Hp] | [Hm (price & Hprice & Hp)]]; rewrite Hp in IH.
    + destruct (dict_get k (products self)) as [v |] eqn:Ek; [ exact IH | ].
      destruct (String.eqb_spec (sku_id r) k) as [<- | Hne];
        [ | exact IH ].
      unfold dict_mem in Hm. rewrite Ek in Hm. discriminate Hm.
    + apply dict_mem_false_get in Hm.
      destruct (String.eqb_spec (sku_id r) k) as [<- | Hne].
      * rewrite Hm. rewrite dict_get_set_same in IH. eauto.
      * rewrite dict_get_set_other in IH by congruence. exact IH.
Qed.

(** X2: the registry keeps for each SKU the attributes of the first row of
    the file that carries it; later rows of the same SKU change nothing,
    and their unit price is not even read. *)
Theorem first_row_of_a_product_wins (csv : list Row) (batch : Z)
  (self' : DataLoader) (row : Row) :
  extract_entities (new_DataLoader csv batch) = Ok self' ->
  In row csv ->
  exists first price,
    find (fun r => String.eqb (sku_id r) (sku_id row)) csv = Some first /\
    Py.float (unit_price first) = Ok price /\
    dict_get (sku_id row) (products self')
    = Some (mk_product_info (brand_name first) (product_name first)
              (product_category first) (product_subcat first) price).
Proof.
  unfold extract_entities. cbn [csv_file new_DataLoader]. intros H Hin.
  pose proof (extract_entities_loop_products _ _ H (sku_id row)) as Hk.
  cbn [products new_DataLoader dict_get] in Hk.
  destruct (find (fun r => String.eqb (sku_id r) (sku_id row)) csv)
    as [first |] eqn:Ef.
  - destruct Hk as (price & Hp & Hg). exists first, price. auto.
  - exfalso. apply (find_none _ _ Ef) in Hin.
    rewrite String.eqb_refl in Hin. discriminate Hin.
Qed.

Lemma first_row_of_a_product_wins_witness :
  exists self',
    extract_entities
      (new_DataLoader [sample_row; with_unit_price "oops" row_second] 1000)
    = Ok self' /\
    In (with_unit_price "oops" row_second)
      [sample_row; with_unit_price "oops" row_second] /\
    exists first price,
      find (fun r => String.eqb (sku_id r)
                       (sku_id (with_unit_price "oops" row_second)))
        [sample_row; with_unit_price "oops" row_second] = Some first /\
      Py.float (unit_price first) = Ok price /\
      dict_get (sku_id (with_unit_price "oops" row_second)) (products self')
      = Some (mk_product_info (brand_name first) (product_name first)
                (product_category first) (product_subcat first) price).
Proof.
  eexists. split; [ vm_compute; reflexivity | ].
  split; [ right; left; reflexivity | ].
  apply (@first_row_of_a_product_wins
           [sample_row; with_unit_price "oops" row_second] 1000).
  - vm_compute. reflexivity.
  - right. left. reflexivity.
Defined.

(* ===================================================================== *)
(** * Inserts with a conflict clause                                      *)
(* ===================================================================== *)

Section KeyedInsert.
Variable R : Type.
Variable key : R -> string.
Variable same_key : R -> R -> bool.
Hypothesis same_key_spec :
  forall a b, same_key a b = String.eqb (key a) (key b).

Lemma existsb_same_key (r : R) (t : list R) :
  existsb (same_key r) t = in_list (key r) (map key t).
Proof.
  induction t as [| x t IH]; simpl; [ reflexivity | ].
  rewrite same_key_spec, IH. reflexivity.
Qed.

(** ** [DO NOTHING] *)

Lemma insert_do_nothing_app (r : R) (t : list R) :
  insert_do_nothing same_key r t
  = t ++ (if in_list (key r) (map key t) then [] else [r]).
Proof.
  unfold insert_do_nothing. rewrite existsb_same_key.
  destruct (in_list (key r) (map key t)); [ | reflexivity ].
  rewrite app_nil_r. reflexivity.
Qed.

Lemma insert_do_nothing_keys (r : R) (t : list R) :
  map key (insert_do_nothing same_key r t) = set_add (key r) (map key t).
Proof.
  rewrite insert_do_nothing_app, map_app. unfold set_add.
  destruct (in_list (key r) (map key t)); simpl;
    [ apply app_nil_r | reflexivity ].
Qed.

(** A batch only appends, and what it appends are tuples of the batch. *)
Lemma batch_do_nothing_app (data : list R) :
  forall t, exists l,
    execute_batch (insert_do_nothing same_key) data t = t ++ l /\
    incl l data.
Proof.
  unfold execute_batch.
  induction data as [| r data IH]; intros t; cbn [fold_left].
  - exists []. split; [ symmetry; apply app_nil_r | intros x [] ].
  - destruct (IH (insert_do_nothing same_key r t)) as (l & -> & Hl).
    rewrite insert_do_nothing_app, <- app_assoc. eexists.
    split; [ reflexivity | ].
    intros x Hx. apply in_app_or in Hx. destruct Hx as [Hx | Hx].
    + destruct (in_list (key r) (map key t)); [ destruct Hx | ].
      destruct Hx as [<- | []]. left. reflexivity.
    + right. apply Hl, Hx.
Qed.

Lemma batch_do_nothing_keys (data : list R) :
  forall t,
    map key (execute_batch (insert_do_nothing same_key) data t)
    = add_all (map key data) (map key t).
Proof.
  unfold execute_batch, add_all.
  induction data as [| r data IH]; intros t; cbn [fold_left map].
  - reflexivity.
  - rewrite IH, insert_do_nothing_keys. reflexivity.
Qed.

(** A batch whose keys the table all holds changes nothing. *)
Lemma batch_do_nothing_known (data : list R) (t : list R) :
  (forall r, In r data -> In (key r) (map key t)) ->
  execute_batch (insert_do_nothing same_key) data t = t.
Proof.
  unfold execute_batch.
  induction data as [| r data IH]; intros Hall; cbn [fold_left].
  - reflexivity.
  - rewrite insert_do_nothing_app.
    replace (in_list (key r) (map key t)) with true.
    + rewrite app_nil_r. apply IH. intros x Hx. apply Hall. right. exact Hx.
    + symmetry. apply in_list_In. apply Hall. left. reflexivity.
Qed.

(** ** [DO UPDATE] *)

Variable upd : R -> R -> R.
Hypothesis upd_key : forall old new, key (upd old new) = key old.

(** A column outside the [SET] list. *)
Section Kept.
Variable C : Type.
Variable f : R -> C.
Hypothesis f_kept : forall old new, f (upd old new) = f old.

Lemma insert_do_update_kept (r : R) (t : list R) :
  map f (insert_do_update same_key upd r t)
  = map f t ++ (if in_list (key r) (map key t) then [] else [f r]).
Proof.
  unfold insert_do_update. rewrite existsb_same_key.
  destruct (in_list (key r) (map key t)).
  - rewrite app_nil_r, map_map. apply map_ext. intros x.
    destruct (same_key r x); [ apply f_kept | reflexivity ].
  - apply map_app.
Qed.

Lemma batch_do_update_kept (data : list R) :
  forall t, exists l,
    map f (execute_batch (insert_do_update same_key upd) data t)
    = map f t ++ l.
Proof.
  unfold execute_batch.
  induction data as [| r data IH]; intros t; cbn [fold_left].
  - exists []. symmetry. apply app_nil_r.
  - destruct (IH (insert_do_update same_key upd r t)) as (l & ->).
    rewrite insert_do_update_kept, <- app_assoc. eexists. reflexivity.
Qed.
End Kept.

Lemma insert_do_update_keys (r : R) (t : list R) :
  map key (insert_do_update same_key upd r t) = set_add (key r) (map key t).
Proof.
  rewrite (insert_do_update_kept key upd_key). unfold set_add.
  destruct (in_list (key r) (map key t)); [ apply app_nil_r | reflexivity ].
Qed.

Lemma batch_do_update_keys (data : list R) :
  forall t,
    map key (execute_batch (insert_do_update same_key upd) data t)
    = add_all (map key data) (map key t).
Proof.
  unfold execute_batch, add_all.
  induction data as [| r data IH]; intros t; cbn [fold_left map].
  - reflexivity.
  - rewrite IH, insert_do_update_keys. reflexivity.
Qed.

(** Rows of another key are left as they are. *)
Lemma insert_do_update_others (r x : R) (t : list R) :
  key x <> key r ->
  (In x (insert_do_update same_key upd r t) <-> In x t).
Proof.
  intros Hne. unfold insert_do_update.
  destruct (existsb (same_key r) t).
  - rewrite in_map_iff. split.
    + intros (old & Hx & Hin).
      destruct (same_key r old) eqn:Hk; [ | congruence ].
      rewrite same_key_spec in Hk. apply String.eqb_eq in Hk.
      subst x. rewrite upd_key in Hne. congruence.
    + intros Hin. exists x. split; [ | exact Hin ].
      destruct (same_key r x) eqn:Hk; [ | reflexivity ].
      rewrite same_key_spec in Hk. apply String.eqb_eq in Hk. congruence.
  - rewrite in_app_iff. simpl. split; [ | tauto ].
    intros [H | [<- | []]]; [ exact H | congruence ].
Qed.

Lemma batch_do_update_others (x : R) (data : list R) :
  forall t,
    ~ In (key x) (map key data) ->
    (In x (execute_batch (insert_do_update same_key upd) data t) <->
     In x t).
Proof.
  unfold execute_batch.
  induction data as [| r data IH]; intros t Hx; cbn [fold_left].
  - tauto.
  - simpl in Hx. rewrite IH by tauto.
    apply insert_do_update_others. intuition congruence.
Qed.

(** A column of the [SET] list. *)
Section Updated.
Variable C : Type.
Variable g : R -> C.
Hypothesis g_set : forall old new, g (upd old new) = g new.

Lemma insert_do_update_set (r x : R) (t : list R) :
  In x (insert_do_update same_key upd r t) -> key x = key r -> g x = g r.
Proof.
  unfold insert_do_update. intros Hin Hk.
  destruct (existsb (same_key r) t) eqn:E.
  - apply in_map_iff in Hin. destruct Hin as (old & Hx & _).
    destruct (same_key r old) eqn:Hs.
    + subst x. apply g_set.
    + subst x. rewrite same_key_spec in Hs. apply String.eqb_neq in Hs.
      congruence.
  - apply in_app_or in Hin. destruct Hin as [Hin | [<- | []]];
      [ | reflexivity ].
    exfalso. rewrite existsb_same_key in E.
    apply Bool.not_true_iff_false in E. apply E. apply in_list_In.
    rewrite <- Hk. apply in_map. exact Hin.
Qed.

(** With one tuple per key, every row of a key of the batch ends with the
    [SET] columns of that key's tuple. *)
Lemma batch_do_update_set (data : list R) :
  NoDup (map key data) ->
  forall t r x,
    In r data ->
    In x (execute_batch (insert_do_update same_key upd) data t) ->
    key x = key r -> g x = g r.
Proof.
  induction data as [| r0 data IH]; intros Hnd t r x Hr Hx Hk.
  - destruct Hr.
  - cbn [map] in Hnd. inversion Hnd as [| ? ? Hfresh Hnd']; subst.
    change (execute_batch (insert_do_update same_key upd) (r0 :: data) t)
      with (execute_batch (insert_do_update same_key upd) data
              (insert_do_update same_key upd r0 t)) in Hx.
    destruct Hr as [-> | Hr].
    + apply batch_do_update_others in Hx; [ | congruence ].
      eapply insert_do_update_set; eauto.
    + eapply IH; eauto.
Qed.
End Updated.
End KeyedInsert.

(* ===================================================================== *)
(** * Brands: identifiers                                                 *)
(* ===================================================================== *)

Lemma same_brand_name_spec (a b : brand_row) :
  same_brand_name a b = String.eqb (b_brand_name a) (b_brand_name b).
Proof. reflexivity. Qed.

Lemma brand_conflict_update_key (old new : brand_row) :
  b_brand_name (brand_conflict_update old new) = b_brand_name old.
Proof. reflexivity. Qed.

Lemma brands_t_insert_brand (n : string) (fl : bool) (db : Database) :
  brands_t (insert_brand n fl db)
  = brand_upsert (next_id db) n fl (brands_t db).
Proof. destruct db. reflexivity. Qed.

Lemma insert_brand_same_but_brands (n : string) (fl : bool) (db : Database) :
  same_but_brands db (insert_brand n fl db).
Proof. destruct db. repeat split. Qed.

Lemma brands_after_same_but_brands (names : list string) :
  forall db, same_but_brands db (brands_after names db).
Proof.
  unfold brands_after.
  induction names as [| n names IH]; intros db; cbn [fold_left].
  - repeat split.
  - pose proof (IH (insert_brand n (in_list n tbwa_clients) db)) as H1.
    pose proof (insert_brand_same_but_brands n (in_list n tbwa_clients) db)
      as H0.
    unfold same_but_brands in *.
    destruct H0 as (A1 & A2 & A3 & A4 & A5 & A6 & A7 & A8).
    destruct H1 as (B1 & B2 & B3 & B4 & B5 & B6 & B7 & B8).
    rewrite B1, B2, B3, B4, B5, B6, B7, B8. auto 10.
Qed.

(** Identifier and name of the rows the table held stay in place. *)
Lemma brands_after_identities (names : list string) :
  forall db, exists l,
    map brand_identity (brands_t (brands_after names db))
    = map brand_identity (brands_t db) ++ l.
Proof.
  unfold brands_after.
  induction names as [| n names IH]; intros db; cbn [fold_left].
  - exists []. symmetry. apply app_nil_r.
  - destruct (IH (insert_brand n (in_list n tbwa_clients) db)) as (l & ->).
    rewrite brands_t_insert_brand. unfold brand_upsert.
    rewrite (@insert_do_update_kept _ b_brand_name same_brand_name
               same_brand_name_spec brand_conflict_update _ brand_identity)
      by reflexivity.
    rewrite <- app_assoc. eexists. reflexivity.
Qed.

Lemma brands_after_names (names : list string) :
  forall db,
    map b_brand_name (brands_t (brands_after names db))
    = add_all names (map b_brand_name (brands_t db)).
Proof.
  unfold brands_after, add_all.
  induction names as [| n names IH]; intros db; cbn [fold_left].
  - reflexivity.
  - rewrite IH, brands_t_insert_brand. unfold brand_upsert.
    rewrite (@insert_do_update_keys _ b_brand_name same_brand_name
               same_brand_name_spec brand_conflict_update
               brand_conflict_update_key).
    reflexivity.
Qed.

(** X3: [load_brands] never raises, changes no table but [brands], and in
    [brands] leaves the identifier and the name of every row it found in
    place (only the partner flag of a row may change); if brand names were
    unique in the table they still are. *)
Theorem load_brands_keeps_identifiers (self : DataLoader) (c : Conn) :
  NoDup (map b_brand_name (brands_t (pending c))) ->
  exists c' self',
    load_brands self c = (c', Ok self') /\
    NoDup (map b_brand_name (brands_t (committed c'))) /\
    (exists l,
        map brand_identity (brands_t (committed c'))
        = map brand_identity (brands_t (pending c)) ++ l) /\
    same_but_brands (pending c) (committed c').
Proof.
  intros Hnd.
  destruct (load_brands_run self c) as (c' & self' & Hrun & _ & _ & Hc & _).
  exists c', self'. split; [ exact Hrun | ]. rewrite Hc. split.
  - rewrite brands_after_names. apply add_all_NoDup. exact Hnd.
  - split; [ apply brands_after_identities
           | apply brands_after_same_but_brands ].
Qed.

Lemma load_brands_keeps_identifiers_witness :
  NoDup
    (map b_brand_name
       (brands_t
          (pending
             (connect
                (committed
                   (fst (main [sample_row] 1000 empty_database))))))) /\
  exists c' self',
    load_brands
      (mk_DataLoader [] 1000 [("Bear Brand", None); ("Alaska", None)]
         [] [] [] [])
      (connect (committed (fst (main [sample_row] 1000 empty_database))))
    = (c', Ok self') /\
    NoDup (map b_brand_name (brands_t (committed c'))) /\
    (exists l,
        map brand_identity (brands_t (committed c'))
        = map brand_identity
            (brands_t
               (pending
                  (connect
                     (committed
                        (fst (main [sample_row] 1000 empty_database))))))
          ++ l) /\
    same_but_brands
      (pending
         (connect (committed (fst (main [sample_row] 1000 empty_database)))))
      (committed c').
Proof.
  split.
  - vm_compute. constructor; [ intros [] | constructor ].
  - apply load_brands_keeps_identifiers.
    vm_compute. constructor; [ intros [] | constructor ].
Defined.

(** The identifier returned for a name is that of the first row of the
    name; it depends on the brand table alone. *)
Lemma returning_brand_id_table (n : string) (db db' : Database) :
  brands_t db' = brands_t db ->
  returning_brand_id n db' = returning_brand_id n db.
Proof. unfold returning_brand_id. intros ->. reflexivity. Qed.

Lemma returning_brand_id_row (n : string) (db : Database) (id : Z) :
  returning_brand_id n db = Some id ->
  exists b, In b (brands_t db) /\ b_brand_name b = n /\ b_brand_id b = id.
Proof.
  unfold returning_brand_id.
  destruct (find (fun b => String.eqb (b_brand_name b) n) (brands_t db))
    as [b |] eqn:E; [ | discriminate ].
  intros H. injection H as <-. apply find_some in E. destruct E as [Hin Hn].
  apply String.eqb_eq in Hn. eauto.
Qed.

Lemma find_brand_upsert (n : string) (id : Z) (x : string) (fl : bool)
  (t : list brand_row) (b : brand_row) :
  find (fun b => String.eqb (b_brand_name b) n) t = Some b ->
  exists b',
    find (fun b => String.eqb (b_brand_name b) n) (brand_upsert id x fl t)
    = Some b' /\
    b_brand_id b' = b_brand_id b.
Proof.
  unfold brand_upsert, insert_do_update.
  destruct (existsb (same_brand_name (mk_brand id x fl)) t).
  - induction t as [| y t IH]; cbn [find map]; [ discriminate | ].
    destruct (same_brand_name (mk_brand id x fl) y) eqn:Hs.
    + cbn [brand_conflict_update b_brand_name].
      destruct (String.eqb (b_brand_name y) n).
      * intros H. injection H as <-. eexists. split; reflexivity.
      * exact IH.
    + destruct (String.eqb (b_brand_name y) n).
      * intros H. injection H as <-. eexists. split; reflexivity.
      * exact IH.
  - induction t as [| y t IH]; cbn [find app]; [ discriminate | ].
    destruct (String.eqb (b_brand_name y) n).
    + intros H. injection H as <-. eexists. split; reflexivity.
    + exact IH.
Qed.

Lemma returning_insert_brand (n x : string) (fl : bool) (db : Database)
  (id : Z) :
  returning_brand_id n db = Some id ->
  returning_brand_id n (insert_brand x fl db) = Some id.
Proof.
  unfold returning_brand_id. rewrite brands_t_insert_brand.
  destruct (find (fun b => String.eqb (b_brand_name b) n) (brands_t db))
    as [b |] eqn:E; [ | discriminate ].
  intros H. injection H as <-.
  destruct (find_brand_upsert n (next_id db) x fl _ E) as (b' & -> & Hid).
  congruence.
Qed.

Lemma returning_brands_after (n : string) (id : Z) (names : list string) :
  forall db,
    returning_brand_id n db = Some id ->
    returning_brand_id n (brands_after names db) = Some id.
Proof.
  unfold brands_after.
  induction names as [| x names IH]; intros db H; cbn [fold_left].
  - exact H.
  - apply IH, returning_insert_brand, H.
Qed.

Lemma returning_after_insert (x : string) (fl : bool) (db : Database) :
  exists id, returning_brand_id x (insert_brand x fl db) = Some id.
Proof.
  unfold returning_brand_id. rewrite brands_t_insert_brand.
  destruct (brand_upsert_present (next_id db) x fl (brands_t db))
    as (b & Hin & Hn).
  destruct (find (fun b => String.eqb (b_brand_name b) x)
              (brand_upsert (next_id db) x fl (brands_t db))) eqn:E.
  - eauto.
  - exfalso. apply (find_none _ _ E) in Hin. rewrite Hn in Hin.
    rewrite String.eqb_refl in Hin. discriminate Hin.
Qed.

(** The dictionary after the loop: a name of the loop maps to the
    identifier the final table returns for it; other keys are untouched. *)
Lemma load_brands_loop_ids (names : list string) :
  forall (d d' : dict (option Z)) (c c' : Conn),
    load_brands_loop names d c = (c', Ok d') ->
    (forall n, In n names ->
       exists id, dict_get n d' = Some (Some id) /\
                  returning_brand_id n (pending c') = Some id) /\
    (forall n, ~ In n names -> dict_get n d' = dict_get n d) /\
    dict_keys d' = add_all names (dict_keys d).
Proof.
  induction names as [| x names IH]; intros d d' c c' H.
  - injection H as <- <-. split; [ intros n [] | ]. split; reflexivity.
  - cbn [load_brands_loop] in H.
    unfold bind at 1, load_brands_step, bind, emit, statement, query, ret
      in H.
    cbn [committed pending log] in H.
    match type of H with load_brands_loop names ?d1 ?c1 = _ =>
      set (db1 := pending c1) in *;
      destruct (load_brands_loop_run names d1 c1) as (c2 & d2 & Hrun & _ & Hp);
      destruct (IH _ _ _ _ H) as (Hin & Hout & Hkeys)
    end.
    rewrite Hrun in H. injection H as <- <-.
    cbn [pending] in Hp, db1. subst db1.
    split; [ | split ].
    + intros n [<- | Hn].
      * destruct (in_dec string_dec x names) as [Hx | Hx];
          [ apply Hin, Hx | ].
        destruct (returning_after_insert x (in_list x tbwa_clients)
                    (pending c)) as (id & Hid).
        exists id. rewrite (Hout x Hx), dict_get_set_same, Hid.
        split; [ reflexivity | ].
        rewrite Hp. apply returning_brands_after. exact Hid.
      * apply Hin, Hn.
    + intros n Hn. simpl in Hn. rewrite Hout by tauto.
      apply dict_get_set_other. intuition congruence.
    + rewrite Hkeys, dict_keys_set. reflexivity.
Qed.

Lemma add_all_known (ks s : list string) :
  incl ks s -> add_all ks s = s.
Proof.
  unfold add_all. induction ks as [| k ks IH]; intros H; cbn [fold_left].
  - reflexivity.
  - assert (Hk : set_add k s = s).
    { unfold set_add. replace (in_list k s) with true; [ reflexivity | ].
      symmetry. apply in_list_In, H. left. reflexivity. }
    rewrite Hk. apply IH. intros y Hy. apply H. right. exact Hy.
Qed.

(** X4: after [load_brands] every brand of the registry is resolved: the
    registry maps its name to an identifier, which is the identifier of a
    row of that name in the committed brand table; the registry holds the
    same names as before. *)
Theorem load_brands_resolves_every_brand (self self' : DataLoader)
  (c c' : Conn) (name : string) :
  load_brands self c = (c', Ok self') ->
  In name (dict_keys (brands self)) ->
  dict_keys (brands self') = dict_keys (brands self) /\
  exists id b,
    dict_get name (brands self') = Some (Some id) /\
    In b (brands_t (committed c')) /\
    b_brand_name b = name /\
    b_brand_id b = id.
Proof.
  unfold load_brands, bind at 1. intros H Hin.
  destruct (load_brands_loop (dict_keys (brands self)) (brands self) c)
    as [c1 [d1 | e]] eqn:Hloop; [ | discriminate H ].
  unfold bind, commit, ret in H. injection H as <- <-.
  cbn [brands committed].
  destruct (load_brands_loop_ids _ _ _ Hloop) as (Hids & _ & Hkeys).
  split.
  - rewrite Hkeys. apply add_all_known. intros y Hy. exact Hy.
  - destruct (Hids name Hin) as (id & Hget & Hret).
    apply returning_brand_id_row in Hret.
    destruct Hret as (b & Hb & Hn & Hi). exists id, b. auto.
Qed.

Lemma load_brands_resolves_every_brand_witness :
  exists c' self',
    load_brands
      (mk_DataLoader [] 1000 [("Bear Brand", None); ("Alaska", None)]
         [] [] [] [])
      (connect (committed (fst (main [sample_row] 1000 empty_database))))
    = (c', Ok self') /\
    In "Alaska"
      (dict_keys
         (brands
            (mk_DataLoader [] 1000 [("Bear Brand", None); ("Alaska", None)]
               [] [] [] []))) /\
    dict_keys (brands self')
    = dict_keys
        (brands
           (mk_DataLoader [] 1000 [("Bear Brand", None); ("Alaska", None)]
              [] [] [] [])) /\
    exists id b,
      dict_get "Alaska" (brands self') = Some (Some id) /\
      In b (brands_t (committed c')) /\
      b_brand_name b = "Alaska" /\
      b_brand_id b = id.
Proof.
  eexists. eexists. split; [ vm_compute; reflexivity | ].
  split; [ right; left; reflexivity | ].
  eapply (@load_brands_resolves_every_brand
            (mk_DataLoader [] 1000 [("Bear Brand", None); ("Alaska", None)]
               [] [] [] [])
            _
            (connect
               (committed (fst (main [sample_row] 1000 empty_database))))).
  - vm_compute. reflexivity.
  - right. left. reflexivity.
Defined.

(** The statement changes nothing when the table holds the brand with the
    proposed flag. *)
Lemma brand_upsert_fixed (id : Z) (n : string) (fl : bool)
  (t : list brand_row) :
  (exists b, In b t /\ b_brand_name b = n) ->
  (forall b, In b t -> b_brand_name b = n -> b_is_tbwa_client b = fl) ->
  brand_upsert id n fl t = t.
Proof.
  intros (b0 & Hin0 & Hn0) Hall. unfold brand_upsert, insert_do_update.
  replace (existsb (same_brand_name (mk_brand id n fl)) t) with true.
  - rewrite <- (map_id t) at 2. apply map_ext_in. intros x Hx.
    destruct (same_brand_name (mk_brand id n fl) x) eqn:Hs;
      [ | reflexivity ].
    unfold same_brand_name in Hs. apply String.eqb_eq in Hs. simpl in Hs.
    symmetry in Hs. specialize (Hall x Hx Hs).
    destruct x. simpl in *. subst. reflexivity.
  - symmetry. apply existsb_exists. exists b0. split; [ exact Hin0 | ].
    unfold same_brand_name. apply String.eqb_eq. simpl. congruence.
Qed.

Lemma dict_set_known {V} (k : string) (v : V) (d : dict V) :
  dict_get k d = Some v -> dict_set k v d = d.
Proof.
  induction d as [| [k' v'] d IH]; simpl; [ discriminate | ].
  destruct (String.eqb_spec k k') as [-> | Hne].
  - intros H. injection H as ->. reflexivity.
  - intros H. rewrite (IH H). reflexivity.
Qed.

(** The loop on a table that holds every name with its flag, and a
    dictionary that holds every name with its identifier: neither
    changes. *)
Lemma load_brands_loop_fixed (names : list string) :
  forall (d : dict (option Z)) (c : Conn),
    flags_set names (brands_t (pending c)) ->
    (forall n, In n names ->
               dict_get n d = Some (returning_brand_id n (pending c))) ->
    exists c',
      load_brands_loop names d c = (c', Ok d) /\
      brands_t (pending c') = brands_t (pending c).
Proof.
  induction names as [| x names IH]; intros d c Hflags Hd.
  - exists c. split; reflexivity.
  - cbn [load_brands_loop].
    unfold bind at 1, load_brands_step, bind, emit, statement, query, ret.
    cbn [committed pending log].
    assert (Ht : brands_t (insert_brand x (in_list x tbwa_clients)
                             (pending c)) = brands_t (pending c)).
    { rewrite brands_t_insert_brand.
      destruct (Hflags x (or_introl eq_refl)) as [Hex Hall].
      apply brand_upsert_fixed; assumption. }
    rewrite (returning_brand_id_table x _ _ Ht).
    rewrite (dict_set_known _ _ (Hd x (or_introl eq_refl))).
    match goal with |- context [load_brands_loop names d ?c1] =>
      destruct (IH d c1) as (c' & Hrun & Hp) end.
    + cbn [pending]. rewrite Ht. intros n Hn. apply Hflags. right. exact Hn.
    + cbn [pending]. intros n Hn.
      rewrite (returning_brand_id_table n _ _ Ht). apply Hd. right. exact Hn.
    + exists c'. split; [ exact Hrun | ]. rewrite Hp. cbn [pending]. exact Ht.
Qed.

(** X5: loading the brands a second time, right after the first, changes
    neither the brand table nor the identifiers the registry holds. *)
Theorem load_brands_twice_changes_nothing (self self1 : DataLoader)
  (c c1 : Conn) :
  load_brands self c = (c1, Ok self1) ->
  exists c2,
    load_brands self1 c1 = (c2, Ok self1) /\
    brands_t (committed c2) = brands_t (committed c1).
Proof.
  intros H.
  assert (Hkeys : dict_keys (brands self1) = dict_keys (brands self)).
  { unfold load_brands, bind at 1 in H.
    destruct (load_brands_loop (dict_keys (brands self)) (brands self) c)
      as [c0 [d0 | e]] eqn:Hloop; [ | discriminate H ].
    unfold bind, commit, ret in H. injection H as <- <-. cbn [brands].
    destruct (load_brands_loop_ids _ _ _ Hloop) as (_ & _ & ->).
    apply add_all_known. intros y Hy. exact Hy. }
  assert (Hflags : flags_set (dict_keys (brands self1))
                     (brands_t (pending c1))).
  { destruct (load_brands_run self c) as (c' & s' & Hrun & _ & _ & Hc & Hp).
    rewrite Hrun in H. injection H as <- <-. rewrite Hkeys, Hp, Hc.
    apply (@flags_set_brands_after (dict_keys (brands self)) []
             (pending c)).
    intros n []. }
  assert (Hd : forall n, In n (dict_keys (brands self1)) ->
                 dict_get n (brands self1)
                 = Some (returning_brand_id n (pending c1))).
  { rewrite Hkeys. intros n Hn.
    unfold load_brands, bind at 1 in H.
    destruct (load_brands_loop (dict_keys (brands self)) (brands self) c)
      as [c0 [d0 | e]] eqn:Hloop; [ | discriminate H ].
    unfold bind, commit, ret in H. injection H as <- <-.
    cbn [brands pending].
    destruct (load_brands_loop_ids _ _ _ Hloop) as (Hids & _ & _).
    destruct (Hids n Hn) as (id & -> & ->). reflexivity. }
  destruct (@load_brands_loop_fixed (dict_keys (brands self1))
              (brands self1) c1 Hflags Hd) as (c2 & Hrun2 & Ht2).
  unfold load_brands, bind at 1. rewrite Hrun2.
  unfold bind, commit, ret. eexists. split.
  - destruct self1. reflexivity.
  - cbn [committed]. rewrite Ht2.
    destruct (load_brands_run self c) as (c' & s' & Hrun & _ & _ & _ & Hp).
    rewrite Hrun in H. injection H as <- <-. rewrite Hp. reflexivity.
Qed.

Lemma load_brands_twice_changes_nothing_witness :
  exists c1 self1,
    load_brands
      (mk_DataLoader [] 1000 [("Bear Brand", None); ("Alaska", None)]
         [] [] [] [])
      (connect empty_database)
    = (c1, Ok self1) /\
    exists c2,
      load_brands self1 c1 = (c2, Ok self1) /\
      brands_t (committed c2) = brands_t (committed c1).
Proof.
  eexists. eexists. split; [ vm_compute; reflexivity | ].
  eapply (@load_brands_twice_changes_nothing
            (mk_DataLoader [] 1000 [("Bear Brand", None); ("Alaska", None)]
               [] [] [] [])
            _ (connect empty_database)).
  vm_compute. reflexivity.
Defined.

(* ===================================================================== *)
(** * Products                                                            *)
(* ===================================================================== *)

Lemma same_sku_spec (a b : product_row) :
  same_sku a b = String.eqb (p_sku_id a) (p_sku_id b).
Proof. reflexivity. Qed.

(** The tuples sent for the products of the registry, one per SKU and in
    the order of the registry. *)
Lemma products_data_rows (brands : dict (option Z))
  (items : dict product_info) :
  forall data,
    products_data brands items = Ok data ->
    map p_sku_id data = dict_keys items /\
    (forall sku info, In (sku, info) items ->
       exists r, In r data /\
         p_sku_id r = sku /\
         p_product_name r = pi_product_name info /\
         p_msrp r = pi_unit_price info /\
         dict_get (pi_brand_name info) brands = Some (p_brand_id r)).
Proof.
  induction items as [| [sku0 info0] items IH]; intros data H.
  - injection H as <-. split; [ reflexivity | intros ? ? [] ].
  - cbn [products_data] in H.
    destruct (dict_get (pi_brand_name info0) brands) as [bid |] eqn:Eb;
      [ | discriminate H ].
    destruct (products_data brands items) as [data' |]; [ | discriminate H ].
    injection H as <-. destruct (IH data' eq_refl) as [Hk Hrows]. split.
    + cbn [map dict_keys fst p_sku_id]. f_equal. exact Hk.
    + intros sku info [Heq | Hin].
      * injection Heq as <- <-. eexists. split; [ left; reflexivity | ].
        cbn. auto.
      * destruct (Hrows sku info Hin) as (r & Hr & Hrest).
        exists r. split; [ right; exact Hr | exact Hrest ].
Qed.

(** X6: what [load_products] does to the product table.  Rows the table
    held keep their place, SKU, brand, category and subcategory; every
    product of the registry ends with a row, and each row of its SKU
    carries the name and the price of the registry; rows of other SKUs
    are untouched; SKUs that were unique stay unique. *)
Theorem load_products_upserts_name_and_price (self : DataLoader)
  (c c' : Conn) :
  load_products self c = (c', Ok tt) ->
  NoDup (dict_keys (products self)) ->
  (exists l,
      map product_kept (products_t (committed c'))
      = map product_kept (products_t (pending c)) ++ l) /\
  (forall sku info, In (sku, info) (products self) ->
     (exists p, In p (products_t (committed c')) /\ p_sku_id p = sku) /\
     (forall p, In p (products_t (committed c')) -> p_sku_id p = sku ->
        p_product_name p = pi_product_name info /\
        p_msrp p = pi_unit_price info)) /\
  (forall p, ~ In (p_sku_id p) (dict_keys (products self)) ->
     (In p (products_t (committed c')) <-> In p (products_t (pending c)))) /\
  (NoDup (map p_sku_id (products_t (pending c))) ->
   NoDup (map p_sku_id (products_t (committed c')))).
Proof.
  unfold load_products, bind, lift. intros H Hnd.
  destruct (products_data (brands self) (products self)) as [data |] eqn:Ed;
    [ | discriminate H ].
  unfold emit, statement, commit in H. cbn [committed pending log] in H.
  injection H as <-. cbn [committed].
  destruct (products_data_rows _ _ Ed) as [Hkeys Hrows].
  destruct (pending c) as [br pr st cu ca tr it au vi nx].
  cbn [products_t set_products_t].
  split; [ | split; [ | split ] ].
  - apply (@batch_do_update_kept _ p_sku_id same_sku same_sku_spec
             product_conflict_update _ product_kept).
    reflexivity.
  - intros sku info Hin. destruct (Hrows sku info Hin)
      as (r & Hr & Hsku & Hname & Hprice & _).
    split.
    + assert (Hk : In sku
                     (map p_sku_id
                        (execute_batch
                           (insert_do_update same_sku
                              product_conflict_update) data pr))).
      { rewrite (@batch_do_update_keys _ p_sku_id same_sku same_sku_spec
                   product_conflict_update) by reflexivity.
        apply add_all_In. right. rewrite <- Hsku. apply in_map. exact Hr. }
      apply in_map_iff in Hk. destruct Hk as (p & Hp & Hin'). eauto.
    + intros p Hp Hpk. rewrite <- Hname, <- Hprice. split.
      * apply (@batch_do_update_set _ p_sku_id same_sku same_sku_spec
                 product_conflict_update (fun _ _ => eq_refl) _
                 p_product_name (fun _ _ => eq_refl) data)
          with (t := pr); try assumption; congruence.
      * apply (@batch_do_update_set _ p_sku_id same_sku same_sku_spec
                 product_conflict_update (fun _ _ => eq_refl) _
                 p_msrp (fun _ _ => eq_refl) data)
          with (t := pr); try assumption; congruence.
  - intros p Hp.
    apply (@batch_do_update_others _ p_sku_id same_sku same_sku_spec
             product_conflict_update (fun _ _ => eq_refl)).
    rewrite Hkeys. exact Hp.
  - intros Hnd0.
    rewrite (@batch_do_update_keys _ p_sku_id same_sku same_sku_spec
               product_conflict_update) by reflexivity.
    apply add_all_NoDup. exact Hnd0.
Qed.

Lemma load_products_upserts_name_and_price_witness :
  exists c',
    load_products sample_products_loader sample_conn = (c', Ok tt) /\
    NoDup (dict_keys (products sample_products_loader)) /\
    (exists l,
        map product_kept (products_t (committed c'))
        = map product_kept (products_t (pending sample_conn)) ++ l) /\
    (forall sku info, In (sku, info) (products sample_products_loader) ->
       (exists p, In p (products_t (committed c')) /\ p_sku_id p = sku) /\
       (forall p, In p (products_t (committed c')) -> p_sku_id p = sku ->
          p_product_name p = pi_product_name info /\
          p_msrp p = pi_unit_price info)) /\
    (forall p, ~ In (p_sku_id p)
                 (dict_keys (products sample_products_loader)) ->
       (In p (products_t (committed c')) <->
        In p (products_t (pending sample_conn)))) /\
    (NoDup (map p_sku_id (products_t (pending sample_conn))) ->
     NoDup (map p_sku_id (products_t (committed c')))).
Proof.
  assert (Hnd : NoDup (dict_keys (products sample_products_loader))).
  { vm_compute. repeat constructor; simpl; intuition discriminate. }
  eexists. split; [ vm_compute; reflexivity | ].
  split; [ exact Hnd | ].
  apply (@load_products_upserts_name_and_price sample_products_loader
           sample_conn).
  - vm_compute. reflexivity.
  - exact Hnd.
Defined.

(** The sample product, loaded again under a new name and price: the row
    keeps its brand, category and subcategory. *)
Example product_reloaded :
  map (fun p => (p_sku_id p, p_brand_id p, p_product_name p,
                 p_product_category p, p_msrp p))
    (products_t
       (committed (fst (load_products sample_products_loader sample_conn))))
  = [("ALS001", Some 1, "Alaska Evaporada 370ml", "Dairy", Finite (45 # 1));
     ("BRB001", Some 7, "Bear Brand 300ml", "Dairy", Finite (38 # 1))].
Proof. vm_compute. reflexivity. Qed.

(* ===================================================================== *)
(** * Stores                                                              *)
(* ===================================================================== *)

Lemma same_store_id_spec (a b : store_row) :
  same_store_id a b = String.eqb (s_store_id a) (s_store_id b).
Proof. reflexivity. Qed.

Lemma dict_get_In {V} (k : string) (v : V) (d : dict V) :
  dict_get k d = Some v -> In (k, v) d.
Proof.
  induction d as [| [k' v'] d IH]; simpl; [ discriminate | ].
  destruct (String.eqb_spec k k') as [-> | Hne].
  - intros H. injection H as ->. left. reflexivity.
  - intros H. right. apply IH, H.
Qed.

Lemma dict_set_In {V} (k k0 : string) (v v0 : V) (d : dict V) :
  In (k0, v0) (dict_set k v d) -> (k0, v0) = (k, v) \/ In (k0, v0) d.
Proof.
  induction d as [| [k' v'] d IH]; simpl.
  - intros [H | []]. left. congruence.
  - destruct (String.eqb_spec k k') as [-> | Hne]; simpl.
    + intros [H | H]; [ left; congruence | right; right; exact H ].
    + intros [H | H]; [ right; left; exact H | ].
      destruct (IH H); [ left | right; right ]; assumption.
Qed.

Lemma stores_data_row_cases (d d' : dict store_row) (row : Row) :
  stores_data_row d row = Ok d' ->
  (dict_mem (store_id row) d = true /\ d' = d) \/
  (dict_mem (store_id row) d = false /\
   exists lat lng,
     Py.float (latitude row) = Ok lat /\
     Py.float (longitude row) = Ok lng /\
     d' = dict_set (store_id row) (store_of row lat lng) d).
Proof.
  unfold stores_data_row. intros H.
  destruct (dict_mem (store_id row) d); simpl in H.
  - left. injection H as <-. auto.
  - right. split; [ reflexivity | ].
    destruct (Py.float (latitude row)) as [lat |]; [ | discriminate H ].
    destruct (Py.float (longitude row)) as [lng |]; [ | discriminate H ].
    injection H as <-. exists lat, lng. auto.
Qed.

(** The dictionary of stores after the rows: its keys, what it holds for a
    key, and that each value is a row of its key. *)
Lemma stores_data_loop (rows : list Row) :
  forall d d',
    for_each stores_data_row rows d = Ok d' ->
    dict_keys d' = add_all (map store_id rows) (dict_keys d) /\
    (keyed_by_store_id d -> keyed_by_store_id d') /\
    (forall k,
        match dict_get k d with
        | Some v => dict_get k d' = Some v
        | None =>
            match find (fun r => String.eqb (store_id r) k) rows with
            | Some r =>
                exists lat lng,
                  Py.float (latitude r) = Ok lat /\
                  Py.float (longitude r) = Ok lng /\
                  dict_get k d' = Some (store_of r lat lng)
            | None => dict_get k d' = None
            end
        end).
Proof.
  induction rows as [| r rows IH]; intros d d' H.
  - injection H as <-. split; [ reflexivity | ]. split; [ auto | ].
    intros k. cbn [find]. destruct (dict_get k d); reflexivity.
  - cbn [for_each] in H.
    destruct (stores_data_row d r) as [d1 |] eqn:E; [ | discriminate H ].
    destruct (IH d1 d' H) as (Hkeys & Hkeyed & Hget).
    apply stores_data_row_cases in E.
    destruct E as [[Hm ->] | [Hm (lat & lng & Hlat & Hlng & ->)]].
    + split; [ | split; [ exact Hkeyed | ] ].
      * rewrite Hkeys. cbn [map]. unfold add_all at 2. cbn [fold_left].
        rewrite dict_mem_in_list in Hm. unfold set_add. rewrite Hm.
        reflexivity.
      * intros k. specialize (Hget k). cbn [find].
        destruct (dict_get k d) as [v |] eqn:Ek; [ exact Hget | ].
        destruct (String.eqb_spec (store_id r) k) as [<- | Hne];
          [ | exact Hget ].
        unfold dict_mem in Hm. rewrite Ek in Hm. discriminate Hm.
    + split; [ | split ].
      * rewrite Hkeys, dict_keys_set. reflexivity.
      * intros Hd. apply Hkeyed. intros k v Hin.
        apply dict_set_In in Hin. destruct Hin as [Heq | Hin].
        -- injection Heq as -> ->. reflexivity.
        -- apply Hd, Hin.
      * intros k. specialize (Hget k). cbn [find].
        apply dict_mem_false_get in Hm.
        destruct (String.eqb_spec (store_id r) k) as [<- | Hne].
        -- rewrite Hm. rewrite dict_get_set_same in Hget. eauto.
        -- rewrite dict_get_set_other in Hget by congruence. exact Hget.
Qed.

Lemma keyed_store_ids (d : dict store_row) :
  keyed_by_store_id d -> map s_store_id (map snd d) = dict_keys d.
Proof.
  unfold keyed_by_store_id, dict_keys.
  induction d as [| [k v] d IH]; intros H; [ reflexivity | ].
  cbn [map fst snd]. f_equal.
  - apply H. left. reflexivity.
  - apply IH. intros k' v' Hin. apply H. right. exact Hin.
Qed.

(** X7: what [load_stores] does to the store table.  Rows the table held
    keep their place and every column but the name; every store of the
    file ends with a row, and each row of its key carries the name of the
    first row of the file for that store; store keys that were unique
    stay unique. *)
Theorem load_stores_upserts_the_name (self : DataLoader) (c c' : Conn)
  (row : Row) :
  load_stores self c = (c', Ok tt) ->
  In row (csv_file self) ->
  (exists l,
      map store_kept (stores_t (committed c'))
      = map store_kept (stores_t (pending c)) ++ l) /\
  (exists first,
      find (fun r => String.eqb (store_id r) (store_id row)) (csv_file self)
      = Some first /\
      (exists s, In s (stores_t (committed c')) /\
                 s_store_id s = store_id row) /\
      (forall s, In s (stores_t (committed c')) ->
                 s_store_id s = store_id row ->
                 s_store_name s = store_name first)) /\
  (NoDup (map s_store_id (stores_t (pending c))) ->
   NoDup (map s_store_id (stores_t (committed c')))).
Proof.
  unfold load_stores, bind, lift. intros H Hrow.
  destruct (for_each stores_data_row (csv_file self) []) as [d |] eqn:Ed;
    [ | discriminate H ].
  unfold emit, statement, commit in H. cbn [committed pending log] in H.
  injection H as <-. cbn [committed].
  destruct (stores_data_loop _ _ Ed) as (Hkeys & Hkeyed & Hget).
  assert (Hk : keyed_by_store_id d) by (apply Hkeyed; intros ? ? []).
  pose proof (keyed_store_ids Hk) as Hids.
  assert (Hnd : NoDup (map s_store_id (map snd d))).
  { rewrite Hids, Hkeys. apply add_all_NoDup. constructor. }
  destruct (pending c) as [br pr st cu ca tr it au vi nx].
  cbn [stores_t set_stores_t].
  split; [ | split ].
  - apply (@batch_do_update_kept _ s_store_id same_store_id
             same_store_id_spec store_conflict_update _ store_kept).
    reflexivity.
  - specialize (Hget (store_id row)). cbn [dict_get] in Hget.
    destruct (find (fun r => String.eqb (store_id r) (store_id row))
                (csv_file self)) as [first |] eqn:Ef.
    + destruct Hget as (lat & lng & _ & _ & Hg).
      exists first. split; [ reflexivity | ].
      apply dict_get_In in Hg.
      assert (Hin : In (store_of first lat lng) (map snd d)).
      { apply in_map_iff. exists (store_id row, store_of first lat lng).
        auto. }
      assert (Hfk : s_store_id (store_of first lat lng) = store_id row).
      { apply Hk in Hg. exact Hg. }
      split.
      * assert (Hx : In (store_id row)
                       (map s_store_id
                          (execute_batch
                             (insert_do_update same_store_id
                                store_conflict_update) (map snd d) st))).
        { rewrite (@batch_do_update_keys _ s_store_id same_store_id
                     same_store_id_spec store_conflict_update) by reflexivity.
          apply add_all_In. right. rewrite <- Hfk. apply in_map. exact Hin. }
        apply in_map_iff in Hx. destruct Hx as (s & Hs & Hin'). eauto.
      * intros s Hs Hsk.
        change (store_name first)
          with (s_store_name (store_of first lat lng)).
        apply (@batch_do_update_set _ s_store_id same_store_id
                 same_store_id_spec store_conflict_update
                 (fun _ _ => eq_refl) _ s_store_name (fun _ _ => eq_refl)
                 (map snd d) Hnd st); [ exact Hin | exact Hs | congruence ].
    + exfalso. apply (find_none _ _ Ef) in Hrow.
      rewrite String.eqb_refl in Hrow. discriminate Hrow.
  - intros Hnd0.
    rewrite (@batch_do_update_keys _ s_store_id same_store_id
               same_store_id_spec store_conflict_update) by reflexivity.
    apply add_all_NoDup. exact Hnd0.
Qed.

Lemma load_stores_upserts_the_name_witness :
  exists c',
    load_stores
      (new_DataLoader
         [with_store_name_and_latitude "Nena Mart" "14.7" sample_row;
          with_store_name_and_latitude "Other Name" "north" row_second]
         1000)
      sample_conn
    = (c', Ok tt) /\
    In (with_store_name_and_latitude "Other Name" "north" row_second)
      (csv_file
         (new_DataLoader
            [with_store_name_and_latitude "Nena Mart" "14.7" sample_row;
             with_store_name_and_latitude "Other Name" "north" row_second]
            1000)) /\
    (exists l,
        map store_kept (stores_t (committed c'))
        = map store_kept (stores_t (pending sample_conn)) ++ l) /\
    (exists first,
        find (fun r =>
                String.eqb (store_id r)
                  (store_id
                     (with_store_name_and_latitude "Other Name" "north"
                        row_second)))
          (csv_file
             (new_DataLoader
                [with_store_name_and_latitude "Nena Mart" "14.7" sample_row;
                 with_store_name_and_latitude "Other Name" "north"
                   row_second]
                1000))
        = Some first /\
        (exists s, In s (stores_t (committed c')) /\
                   s_store_id s
                   = store_id
                       (with_store_name_and_latitude "Other Name" "north"
                          row_second)) /\
        (forall s, In s (stores_t (committed c')) ->
                   s_store_id s
                   = store_id
                       (with_store_name_and_latitude "Other Name" "north"
                          row_second) ->
                   s_store_name s = store_name first)) /\
    (NoDup (map s_store_id (stores_t (pending sample_conn))) ->
     NoDup (map s_store_id (stores_t (committed c')))).
Proof.
  eexists. split; [ vm_compute; reflexivity | ].
  split; [ right; left; reflexivity | ].
  apply (@load_stores_upserts_the_name
           (new_DataLoader
              [with_store_name_and_latitude "Nena Mart" "14.7" sample_row;
               with_store_name_and_latitude "Other Name" "north" row_second]
              1000)
           sample_conn).
  - vm_compute. reflexivity.
  - right. left. reflexivity.
Defined.

(** A store already in the table, met again: the stored coordinates stay,
    the name becomes that of the first row of the file, and the second
    row's latitude, which is no number, is never read. *)
Example store_reloaded :
  map (fun s => (s_store_id s, s_store_name s, s_latitude s))
    (stores_t
       (committed
          (fst (load_stores
                  (new_DataLoader
                     [with_store_name_and_latitude "Nena Mart" "14.7"
                        sample_row;
                      with_store_name_and_latitude "Other Name" "north"
                        row_second]
                     1000)
                  sample_conn))))
  = [("ST123456", "Nena Mart", Finite (3669 # 250))].
Proof. vm_compute. reflexivity. Qed.

(* ===================================================================== *)
(** * Customers                                                           *)
(* ===================================================================== *)

(** The dictionary of customers after the rows; building it never raises. *)
Lemma customers_data_loop (rows : list Row) :
  forall d, exists d',
    for_each customers_data_row rows d = Ok d' /\
    dict_keys d'
    = add_all (filter truthy (map customer_id rows)) (dict_keys d) /\
    (forall seen, from_rows seen d -> from_rows (seen ++ rows) d').
Proof.
  induction rows as [| r rows IH]; intros d.
  - exists d. split; [ reflexivity | ]. split; [ reflexivity | ].
    intros seen H. rewrite app_nil_r. exact H.
  - cbn [for_each map filter]. unfold customers_data_row at 1.
    destruct (truthy (customer_id r)) eqn:Et; cbn [andb].
    + destruct (dict_mem (customer_id r) d) eqn:Em; cbn [negb].
      * destruct (IH d) as (d' & Hrun & Hkeys & Hfrom).
        exists d'. split; [ exact Hrun | ]. split.
        -- rewrite Hkeys. unfold add_all at 2. cbn [fold_left].
           rewrite dict_mem_in_list in Em. unfold set_add. rewrite Em.
           reflexivity.
        -- intros seen H.
           replace (seen ++ r :: rows) with ((seen ++ [r]) ++ rows)
             by (rewrite <- app_assoc; reflexivity).
           apply Hfrom. intros k g a Hin.
           destruct (H k g a Hin) as (Hk & row & Hrow & Hrest).
           split; [ exact Hk | ]. exists row.
           split; [ apply in_or_app; left; exact Hrow | exact Hrest ].
      * destruct (IH (dict_set (customer_id r) (gender r, age_bracket r) d))
          as (d' & Hrun & Hkeys & Hfrom).
        exists d'. split; [ exact Hrun | ]. split.
        -- rewrite Hkeys, dict_keys_set. reflexivity.
        -- intros seen H.
           replace (seen ++ r :: rows) with ((seen ++ [r]) ++ rows)
             by (rewrite <- app_assoc; reflexivity).
           apply Hfrom. intros k g a Hin.
           apply dict_set_In in Hin. destruct Hin as [Heq | Hin].
           ++ injection Heq as -> -> ->.
              split; [ apply truthy_true_iff; exact Et | ].
              exists r. split; [ | auto ].
              apply in_or_app. right. left. reflexivity.
           ++ destruct (H k g a Hin) as (Hk & row & Hrow & Hrest).
              split; [ exact Hk | ]. exists row.
              split; [ apply in_or_app; left; exact Hrow | exact Hrest ].
    + destruct (IH d) as (d' & Hrun & Hkeys & Hfrom).
      exists d'. split; [ exact Hrun | ]. split; [ exact Hkeys | ].
      intros seen H.
      replace (seen ++ r :: rows) with ((seen ++ [r]) ++ rows)
        by (rewrite <- app_assoc; reflexivity).
      apply Hfrom. intros k g a Hin.
      destruct (H k g a Hin) as (Hk & row & Hrow & Hrest).
      split; [ exact Hk | ]. exists row.
      split; [ apply in_or_app; left; exact Hrow | exact Hrest ].
Qed.

Lemma customers_t_insert_customer (cust : string * (string * string))
  (db : Database) :
  customers_t (insert_customer cust db)
  = insert_do_nothing same_external_id (customer_of (next_id db) cust)
      (customers_t db).
Proof. destruct db. reflexivity. Qed.

(** The customer statements only append, and what they append are the
    rows proposed for tuples of the batch. *)
Lemma insert_customers_app (data : list (string * (string * string))) :
  forall db, exists l,
    customers_t (fold_left (fun db cust => insert_customer cust db) data db)
    = customers_t db ++ l /\
    (forall x, In x l ->
               exists id cust, In cust data /\ x = customer_of id cust).
Proof.
  induction data as [| cust data IH]; intros db; cbn [fold_left].
  - exists []. split; [ symmetry; apply app_nil_r | intros x [] ].
  - destruct (IH (insert_customer cust db)) as (l & -> & Hl).
    rewrite customers_t_insert_customer. unfold insert_do_nothing.
    destruct (existsb (same_external_id (customer_of (next_id db) cust))
                (customers_t db)).
    + exists l. split; [ reflexivity | ].
      intros x Hx. destruct (Hl x Hx) as (id & cu & Hcu & ->).
      exists id, cu. split; [ right; exact Hcu | reflexivity ].
    + rewrite <- app_assoc. eexists. split; [ reflexivity | ].
      intros x [<- | Hx].
      * exists (next_id db), cust. split; [ left | ]; reflexivity.
      * destruct (Hl x Hx) as (id & cu & Hcu & ->).
        exists id, cu. split; [ right; exact Hcu | reflexivity ].
Qed.

(** After the statements every customer of the batch has a row. *)
Lemma insert_customers_present (data : list (string * (string * string))) :
  forall db cust,
    In cust data ->
    exists x,
      In x (customers_t
              (fold_left (fun db cust => insert_customer cust db) data db)) /\
      c_external_id x = Some (fst cust).
Proof.
  induction data as [| cust0 data IH]; intros db cust Hin;
    [ destruct Hin | ].
  cbn [fold_left]. destruct Hin as [-> | Hin]; [ | apply IH, Hin ].
  destruct (insert_customers_app data (insert_customer cust db))
    as (l & -> & _).
  rewrite customers_t_insert_customer. unfold insert_do_nothing.
  destruct (existsb (same_external_id (customer_of (next_id db) cust))
              (customers_t db)) eqn:E.
  - apply existsb_exists in E. destruct E as (old & Hold & Hs).
    exists old. split; [ apply in_or_app; left; exact Hold | ].
    unfold same_external_id in Hs. cbn [customer_of c_external_id] in Hs.
    destruct (c_external_id old) as [y |]; [ | discriminate Hs ].
    apply String.eqb_eq in Hs. congruence.
  - exists (customer_of (next_id db) cust). split; [ | reflexivity ].
    apply in_or_app. left. apply in_or_app. right. left. reflexivity.
Qed.

Lemma fold_dict_set_keeps {V} (l : list (string * V)) :
  forall (d : dict V) (k : string),
    (exists v, dict_get k d = Some v) ->
    exists v, dict_get k
                (fold_left (fun d kv => dict_set (fst kv) (snd kv) d) l d)
              = Some v.
Proof.
  induction l as [| [k0 v0] l IH]; intros d k [v Hv]; cbn [fold_left fst snd].
  - eauto.
  - apply IH. destruct (String.eqb_spec k k0) as [-> | Hne].
    + rewrite dict_get_set_same. eauto.
    + rewrite dict_get_set_other by exact Hne. eauto.
Qed.

(** [dict(pairs)]: a key of the pairs is a key of the dictionary, and the
    value found for a key is one the pairs give it. *)
Lemma dict_of_pairs_get {V} (l : list (string * V)) :
  forall (d : dict V) (k : string),
    (In k (map fst l) ->
     exists v, dict_get k
                 (fold_left (fun d kv => dict_set (fst kv) (snd kv) d) l d)
               = Some v) /\
    (forall v,
        dict_get k
          (fold_left (fun d kv => dict_set (fst kv) (snd kv) d) l d)
        = Some v ->
        In (k, v) l \/ dict_get k d = Some v).
Proof.
  induction l as [| [k0 v0] l IH]; intros d k; cbn [fold_left map fst snd].
  - split; [ intros [] | auto ].
  - destruct (IH (dict_set k0 v0 d) k) as [Hex Hval]. split.
    + intros [<- | Hin]; [ | apply Hex, Hin ].
      apply fold_dict_set_keeps. rewrite dict_get_set_same. eauto.
    + intros v Hv. destruct (Hval v Hv) as [Hin | Hd].
      * left. right. exact Hin.
      * destruct (String.eqb_spec k k0) as [-> | Hne].
        -- rewrite dict_get_set_same in Hd. injection Hd as ->.
           left. left. reflexivity.
        -- rewrite dict_get_set_other in Hd by exact Hne. right. exact Hd.
Qed.

Lemma customer_pairs_In (t : list customer_row) (k : string) (id : Z) :
  In (k, id)
    (flat_map (fun c => match c_external_id c with
                        | Some ext => [(ext, c_customer_id c)]
                        | None => []
                        end) t) <->
  exists x, In x t /\ c_external_id x = Some k /\ c_customer_id x = id.
Proof.
  rewrite in_flat_map. split.
  - intros (x & Hx & Hin). exists x. split; [ exact Hx | ].
    destruct (c_external_id x) as [ext |]; [ | destruct Hin ].
    destruct Hin as [Heq | []]. injection Heq as -> ->. auto.
  - intros (x & Hx & He & Hi). exists x. split; [ exact Hx | ].
    rewrite He. left. congruence.
Qed.

(** The customer map holds a key exactly when some row of the table has
    it as external identifier, and maps it to the identifier of such a
    row. *)
Lemma select_customer_map_get (db : Database) (k : string) :
  ((exists x, In x (customers_t db) /\ c_external_id x = Some k) ->
   exists id, dict_get k (select_customer_map db) = Some id) /\
  (forall id,
      dict_get k (select_customer_map db) = Some id ->
      exists x, In x (customers_t db) /\
                c_external_id x = Some k /\ c_customer_id x = id).
Proof.
  unfold select_customer_map, dict_of_pairs.
  match goal with |- context [fold_left _ ?l []] =>
    destruct (dict_of_pairs_get l [] k) as [Hex Hval] end.
  split.
  - intros (x & Hx & He). apply Hex. apply in_map_iff.
    exists (k, c_customer_id x). split; [ reflexivity | ].
    apply customer_pairs_In. eauto.
  - intros id Hid. destruct (Hval id Hid) as [Hin | Hd];
      [ | discriminate Hd ].
    apply customer_pairs_In. exact Hin.
Qed.

(** X8: [load_customers] makes every customer of the file resolvable:
    for each row that names a customer, the customer map that
    [load_transactions] reads afterwards holds the row's key and maps it
    to the identifier of a committed customer row with that external
    identifier, so the transaction built from the row has a customer. *)
Theorem customers_of_the_file_resolve (self : DataLoader) (c c' : Conn)
  (row : Row) :
  load_customers self c = (c', Ok tt) ->
  In row (csv_file self) ->
  customer_id row <> "" ->
  exists id x,
    dict_get (customer_id row) (select_customer_map (pending c')) = Some id /\
    In x (customers_t (committed c')) /\
    c_external_id x = Some (customer_id row) /\
    c_customer_id x = id /\
    (forall t, trans_data (select_customer_map (pending c')) row = Ok t ->
               t_customer_id t = Some id).
Proof.
  unfold load_customers, bind, lift. intros H Hrow Hne.
  destruct (customers_data_loop (csv_file self) []) as (d & Hd & Hkeys & _).
  rewrite Hd in H.
  unfold emit, statement, commit in H. cbn [committed pending log] in H.
  injection H as <-. cbn [committed pending].
  assert (Hk : In (customer_id row) (dict_keys d)).
  { rewrite Hkeys. apply add_all_In. right.
    apply in_filter_truthy_rows. eauto. }
  apply dict_get_Some_key in Hk. destruct Hk as (v & Hv).
  apply dict_get_In in Hv.
  destruct (insert_customers_present d (pending c) _ Hv) as (x0 & Hx0 & He0).
  cbn [fst] in He0.
  destruct (select_customer_map_get
              (fold_left (fun db cust => insert_customer cust db) d
                 (pending c)) (customer_id row)) as [Hex Hval].
  destruct Hex as (id & Hid); [ eauto | ].
  destruct (Hval id Hid) as (x & Hx & He & Hi).
  exists id, x. repeat split; try assumption.
  intros t Ht. apply trans_data_fields in Ht.
  destruct Ht as (ts & value & units & hr & _ & _ & _ & _ & ->).
  cbn [t_customer_id]. exact Hid.
Qed.

Lemma customers_of_the_file_resolve_witness :
  exists c',
    load_customers (new_DataLoader [sample_row] 1000)
      (connect empty_database) = (c', Ok tt) /\
    In sample_row (csv_file (new_DataLoader [sample_row] 1000)) /\
    customer_id sample_row <> "" /\
    exists id x,
      dict_get (customer_id sample_row) (select_customer_map (pending c'))
      = Some id /\
      In x (customers_t (committed c')) /\
      c_external_id x = Some (customer_id sample_row) /\
      c_customer_id x = id /\
      (forall t,
          trans_data (select_customer_map (pending c')) sample_row = Ok t ->
          t_customer_id t = Some id).
Proof.
  eexists. split; [ vm_compute; reflexivity | ].
  split; [ left; reflexivity | ].
  split; [ vm_compute; discriminate | ].
  apply (@customers_of_the_file_resolve (new_DataLoader [sample_row] 1000)
           (connect empty_database)).
  - vm_compute. reflexivity.
  - left. reflexivity.
  - vm_compute. discriminate.
Defined.


(* ===================================================================== *)
(** * Campaigns                                                           *)
(* ===================================================================== *)

Lemma same_campaign_id_spec (a b : campaign_row) :
  same_campaign_id a b = String.eqb (cp_campaign_id a) (cp_campaign_id b).
Proof. reflexivity. Qed.

(** The tuples sent for campaigns: one for each registered key that the
    loader's own table of names knows. *)
Lemma campaigns_data_In (camps : list string) (r : campaign_row) :
  In r (campaigns_data camps) <->
  exists k name,
    In k camps /\ dict_get k campaign_names = Some name /\
    r = mk_campaign k name "below_the_line".
Proof.
  induction camps as [| camp camps IH]; cbn [campaigns_data].
  - split; [ intros [] | intros (k & name & [] & _) ].
  - destruct (dict_get camp campaign_names) as [name0 |] eqn:E.
    + cbn [In]. rewrite IH. split.
      * intros [<- | (k & name & Hk & Hn & ->)].
        -- exists camp, name0. split; [ left; reflexivity | auto ].
        -- exists k, name. split; [ right; exact Hk | auto ].
      * intros (k & name & [<- | Hk] & Hn & ->).
        -- left. congruence.
        -- right. exists k, name. auto.
    + rewrite IH. split.
      * intros (k & name & Hk & Hn & ->). exists k, name.
        split; [ right; exact Hk | auto ].
      * intros (k & name & [<- | Hk] & Hn & ->); [ congruence | ].
        exists k, name. auto.
Qed.

(** X10: [load_campaigns] never raises and only adds rows: each row the
    campaign table gains is for a registered key that is one of the four
    of [campaign_names], with the name found there and the default type;
    every such key ends with a row; and when the registry holds no such
    key the loader sends nothing at all, not even a commit. *)
Theorem load_campaigns_adds_known_campaigns (self : DataLoader) (c : Conn) :
  exists c' l,
    load_campaigns self c = (c', Ok tt) /\
    campaigns_t (pending c') = campaigns_t (pending c) ++ l /\
    (forall x, In x l ->
       In (cp_campaign_id x) (campaigns self) /\
       dict_get (cp_campaign_id x) campaign_names
       = Some (cp_campaign_name x) /\
       cp_campaign_type x = "below_the_line") /\
    (forall k name,
        In k (campaigns self) -> dict_get k campaign_names = Some name ->
        exists x, In x (campaigns_t (pending c')) /\ cp_campaign_id x = k) /\
    ((forall k, In k (campaigns self) -> dict_get k campaign_names = None) ->
     c' = c).
Proof.
  unfold load_campaigns.
  destruct (campaigns_data (campaigns self)) as [| r0 data0] eqn:Ed.
  - exists c, []. split; [ reflexivity | ].
    split; [ symmetry; apply app_nil_r | ].
    split; [ intros x [] | ]. split; [ | reflexivity ].
    intros k name Hk Hn. exfalso.
    assert (H : In (mk_campaign k name "below_the_line")
                  (campaigns_data (campaigns self))).
    { apply campaigns_data_In. exists k, name. auto. }
    rewrite Ed in H. destruct H.
  - assert (Hdata : forall r, In r (r0 :: data0) <->
                      exists k name,
                        In k (campaigns self) /\
                        dict_get k campaign_names = Some name /\
                        r = mk_campaign k name "below_the_line").
    { rewrite <- Ed. intros r. apply campaigns_data_In. }
    unfold bind, emit, statement, commit. cbn [committed pending log].
    destruct (@batch_do_nothing_app _ cp_campaign_id same_campaign_id
                same_campaign_id_spec (r0 :: data0)
                (campaigns_t (pending c))) as (l & Hl & Hincl).
    eexists. exists l. split; [ reflexivity | ]. cbn [pending].
    destruct (pending c) as [br pr st cu ca tr it au vi nx].
    cbn [campaigns_t set_campaigns_t] in *.
    split; [ exact Hl | ]. split; [ | split ].
    + intros x Hx. apply Hincl in Hx. apply Hdata in Hx.
      destruct Hx as (k & name & Hk & Hn & ->). cbn. auto.
    + intros k name Hk Hn.
      assert (Hx : In k
                     (map cp_campaign_id
                        (execute_batch (insert_do_nothing same_campaign_id)
                           (r0 :: data0) ca))).
      { rewrite (@batch_do_nothing_keys _ cp_campaign_id same_campaign_id
                   same_campaign_id_spec).
        apply add_all_In. right. apply in_map_iff.
        exists (mk_campaign k name "below_the_line").
        split; [ reflexivity | ].
        apply Hdata. exists k, name. auto. }
      apply in_map_iff in Hx. destruct Hx as (x & Hid & Hin). eauto.
    + intros Hnone. exfalso.
      destruct (proj1 (Hdata r0) (or_introl eq_refl))
        as (k & name & Hk & Hn & _).
      rewrite (Hnone k Hk) in Hn. discriminate Hn.
Qed.

(** A file that names only a campaign outside the table: nothing is sent
    for campaigns. *)
Example unknown_campaign_sends_nothing :
  load_campaigns
    (mk_DataLoader [] 1000 [] [] [] [] ["CAMP999"]) sample_conn
  = (sample_conn, Ok tt).
Proof. reflexivity. Qed.

(* ===================================================================== *)
(** * What a flush writes                                                 *)
(* ===================================================================== *)

Lemma same_transaction_id_spec (a b : Trans) :
  same_transaction_id a b
  = String.eqb (t_transaction_id a) (t_transaction_id b).
Proof. reflexivity. Qed.

Lemma transactions_t_write_all (b : Batches) (db : Database) :
  transactions_t (write_all b db)
  = execute_batch (insert_do_nothing same_transaction_id) (trans_batch b)
      (transactions_t db).
Proof. reflexivity. Qed.

Lemma insert_transaction_batch_run (tb : list Trans) (ib : list Item)
  (ab : list Audio) (vb : list Video) (c : Conn) :
  _insert_transaction_batch tb ib ab vb c
  = (mk_Conn (write_all (batches_of tb ib ab vb) (pending c))
       (write_all (batches_of tb ib ab vb) (pending c))
       (log c ++ flush_events (batches_of tb ib ab vb)),
     Ok tt).
Proof.
  destruct c as [cm [br pr st cu ca tr it au vi nx] lg].
  unfold _insert_transaction_batch, flush_events, write_all, bind,
    emit, statement, commit, ret, batches_of.
  destruct ab, vb; cbn; repeat rewrite <- app_assoc; reflexivity.
Qed.

(** X11: what [_insert_transaction_batch] does to the two keyed fact
    tables.  It never raises; it never changes or removes a transaction
    row, and adds only tuples of the batch whose identifier the table did
    not hold, so identifiers that were unique stay unique; every
    identifier of the batch ends in the table; the same batch sent again
    leaves the transactions as they are.  The item table, written without
    a conflict clause, grows by the whole item buffer each time. *)
Theorem insert_transaction_batch_tables (tb : list Trans) (ib : list Item)
  (ab : list Audio) (vb : list Video) (c : Conn) :
  exists c' l,
    _insert_transaction_batch tb ib ab vb c = (c', Ok tt) /\
    committed c' = pending c' /\
    transactions_t (pending c') = transactions_t (pending c) ++ l /\
    incl l tb /\
    (forall t, In t tb ->
       In (t_transaction_id t)
         (map t_transaction_id (transactions_t (pending c')))) /\
    (NoDup (map t_transaction_id (transactions_t (pending c))) ->
     NoDup (map t_transaction_id (transactions_t (pending c')))) /\
    transaction_items_t (pending c') = transaction_items_t (pending c) ++ ib /\
    transactions_t
      (pending (fst (_insert_transaction_batch tb ib ab vb c')))
    = transactions_t (pending c') /\
    transaction_items_t
      (pending (fst (_insert_transaction_batch tb ib ab vb c')))
    = transaction_items_t (pending c) ++ ib ++ ib.
Proof.
  rewrite insert_transaction_batch_run.
  destruct (@batch_do_nothing_app _ t_transaction_id same_transaction_id
              same_transaction_id_spec tb (transactions_t (pending c)))
    as (l & Hl & Hincl).
  eexists. exists l. split; [ reflexivity | ]. cbn [committed pending].
  split; [ reflexivity | ].
  rewrite insert_transaction_batch_run. cbn [fst pending].
  rewrite !transactions_t_write_all, !flush_appends_items.
  cbn [batches_of trans_batch items_batch].
  assert (Hkeys : forall t, In t tb ->
            In (t_transaction_id t)
              (map t_transaction_id
                 (execute_batch (insert_do_nothing same_transaction_id) tb
                    (transactions_t (pending c))))).
  { intros t Ht.
    rewrite (@batch_do_nothing_keys _ t_transaction_id same_transaction_id
               same_transaction_id_spec).
    apply add_all_In. right. apply in_map. exact Ht. }
  split; [ exact Hl | ]. split; [ exact Hincl | ].
  split; [ exact Hkeys | ]. split; [ | split; [ reflexivity | split ] ].
  - intros Hnd.
    rewrite (@batch_do_nothing_keys _ t_transaction_id same_transaction_id
               same_transaction_id_spec).
    apply add_all_NoDup. exact Hnd.
  - apply (@batch_do_nothing_known _ t_transaction_id same_transaction_id
             same_transaction_id_spec). exact Hkeys.
  - rewrite <- app_assoc. reflexivity.
Qed.

(* ===================================================================== *)
(** * Batching                                                            *)
(* ===================================================================== *)

Lemma batches_app_assoc (a b d : Batches) :
  batches_app (batches_app a b) d = batches_app a (batches_app b d).
Proof.
  unfold batches_app. cbn. rewrite <- !app_assoc. reflexivity.
Qed.

(** The tuples of a row do not depend on what is buffered. *)
Lemma append_row_app (customer_map : dict Z) (b : Batches) (row : Row) :
  append_row customer_map b row
  = match append_row customer_map empty_batches row with
    | Ok e => Ok (batches_app b e)
    | Raise x => Raise x
    end.
Proof.
  unfold append_row, batches_app.
  destruct (trans_data customer_map row); [ | reflexivity ].
  destruct (item_data row); [ | reflexivity ].
  destruct (audio_data row) as [[au |] |], (video_data row) as [vi |];
    cbn; rewrite ?app_nil_r; reflexivity.
Qed.

Lemma for_each_append_row_app (customer_map : dict Z) (rows : list Row) :
  forall b,
    for_each (append_row customer_map) rows b
    = match row_tuples customer_map rows with
      | Ok d => Ok (batches_app b d)
      | Raise x => Raise x
      end.
Proof.
  unfold row_tuples.
  induction rows as [| r rows IH]; intros b; cbn [for_each].
  - unfold batches_app. cbn. rewrite !app_nil_r. destruct b. reflexivity.
  - rewrite (append_row_app customer_map b r).
    destruct (append_row customer_map empty_batches r) as [e |];
      [ | reflexivity ].
    rewrite (IH (batches_app b e)), (IH e).
    destruct (for_each (append_row customer_map) rows empty_batches)
      as [d |]; [ | reflexivity ].
    rewrite batches_app_assoc. reflexivity.
Qed.

Lemma execute_batch_app {R} (stmt : R -> list R -> list R)
  (l1 l2 : list R) (t : list R) :
  execute_batch stmt (l1 ++ l2) t
  = execute_batch stmt l2 (execute_batch stmt l1 t).
Proof. unfold execute_batch. apply fold_left_app. Qed.

(** Two databases with the same tables and counter are the same. *)
Lemma database_ext (x y : Database) :
  brands_t x = brands_t y -> products_t x = products_t y ->
  stores_t x = stores_t y -> customers_t x = customers_t y ->
  campaigns_t x = campaigns_t y -> transactions_t x = transactions_t y ->
  transaction_items_t x = transaction_items_t y ->
  audio_transcripts_t x = audio_transcripts_t y ->
  video_signals_t x = video_signals_t y -> next_id x = next_id y ->
  x = y.
Proof.
  destruct x, y. cbn. intros. subst. reflexivity.
Qed.

(** A flush leaves the reference tables and the counter alone. *)
Lemma write_all_references (b : Batches) (db : Database) :
  brands_t (write_all b db) = brands_t db /\
  products_t (write_all b db) = products_t db /\
  stores_t (write_all b db) = stores_t db /\
  customers_t (write_all b db) = customers_t db /\
  campaigns_t (write_all b db) = campaigns_t db /\
  next_id (write_all b db) = next_id db.
Proof. repeat split. Qed.

Lemma audio_video_t_write_all (b : Batches) (db : Database) :
  audio_transcripts_t (write_all b db)
  = audio_transcripts_t db ++ audio_batch b /\
  video_signals_t (write_all b db) = video_signals_t db ++ video_batch b.
Proof.
  split.
  - change (audio_transcripts_t (write_all b db))
      with (execute_batch (@insert_plain Audio) (audio_batch b)
              (audio_transcripts_t db)).
    apply execute_batch_plain.
  - change (video_signals_t (write_all b db))
      with (execute_batch (@insert_plain Video) (video_batch b)
              (video_signals_t db)).
    apply execute_batch_plain.
Qed.

(** Writing one batch after another is writing the two as one. *)
Lemma write_all_app (b d : Batches) (db : Database) :
  write_all (batches_app b d) db = write_all d (write_all b db).
Proof.
  destruct (write_all_references (batches_app b d) db)
    as (A1 & A2 & A3 & A4 & A5 & A6).
  destruct (write_all_references d (write_all b db))
    as (B1 & B2 & B3 & B4 & B5 & B6).
  destruct (write_all_references b db) as (C1 & C2 & C3 & C4 & C5 & C6).
  apply database_ext; try congruence.
  - rewrite !transactions_t_write_all. apply execute_batch_app.
  - rewrite !flush_appends_items. cbn [batches_app items_batch].
    apply app_assoc.
  - destruct (audio_video_t_write_all (batches_app b d) db) as [-> _].
    destruct (audio_video_t_write_all d (write_all b db)) as [-> _].
    destruct (audio_video_t_write_all b db) as [-> _].
    cbn [batches_app audio_batch]. apply app_assoc.
  - destruct (audio_video_t_write_all (batches_app b d) db) as [_ ->].
    destruct (audio_video_t_write_all d (write_all b db)) as [_ ->].
    destruct (audio_video_t_write_all b db) as [_ ->].
    cbn [batches_app video_batch]. apply app_assoc.
Qed.

Lemma write_all_nothing (b : Batches) (db : Database) :
  trans_batch b = [] -> items_batch b = [] ->
  audio_batch b = [] -> video_batch b = [] ->
  write_all b db = db.
Proof.
  intros Ht Hi Ha Hv. destruct db. unfold write_all.
  rewrite Ht, Hi, Ha, Hv. reflexivity.
Qed.

Lemma write_all_buffers (b d : Batches) (db : Database) :
  trans_batch b = trans_batch d -> items_batch b = items_batch d ->
  audio_batch b = audio_batch d -> video_batch b = video_batch d ->
  write_all b db = write_all d db.
Proof.
  intros Ht Hi Ha Hv. unfold write_all. rewrite Ht, Hi, Ha, Hv. reflexivity.
Qed.

Lemma batches_inv_nil (b : Batches) :
  batches_inv b -> trans_batch b = [] ->
  items_batch b = [] /\ audio_batch b = [] /\ video_batch b = [].
Proof.
  unfold batches_inv. intros (Hi & Ha & Hv) Ht. rewrite Ht in *.
  simpl in *.
  destruct (items_batch b), (audio_batch b), (video_batch b);
    simpl in *; try lia; auto.
Qed.

(** The loop, whatever the batch size: what is written and what is still
    buffered amount together to the tuples of all the rows. *)
Lemma load_transactions_loop_writes (bs : Z) (customer_map : dict Z)
  (rows : list Row) :
  forall b c c' b',
    load_transactions_loop bs customer_map rows b c = (c', Ok b') ->
    exists d,
      row_tuples customer_map rows = Ok d /\
      write_all b' (pending c') = write_all (batches_app b d) (pending c).
Proof.
  induction rows as [| r rows IH]; intros b c c' b' H.
  - injection H as <- <-. exists empty_batches. split; [ reflexivity | ].
    apply write_all_buffers; cbn; rewrite ?app_nil_r; reflexivity.
  - cbn [load_transactions_loop] in H. unfold bind at 1 in H.
    destruct (load_transactions_row bs customer_map b r c)
      as [c1 [b1 | e]] eqn:E; [ | discriminate H ].
    destruct (IH _ _ _ _ H) as (d & Hd & Hw).
    unfold load_transactions_row, bind, lift in E.
    rewrite append_row_app in E.
    destruct (append_row customer_map empty_batches r) as [e1 |] eqn:Er;
      [ | discriminate E ].
    exists (batches_app e1 d). split.
    + unfold row_tuples. cbn [for_each]. rewrite Er.
      rewrite for_each_append_row_app, Hd. reflexivity.
    + rewrite Hw.
      destruct (Z.of_nat (List.length (trans_batch (batches_app b e1)))
                >=? bs).
      * rewrite flush_run in E. injection E as <- <-. cbn [pending].
        rewrite <- batches_app_assoc, (write_all_app (batches_app b e1) d).
        apply write_all_buffers; reflexivity.
      * injection E as <- <-. rewrite batches_app_assoc. reflexivity.
Qed.

(** The loop returns as soon as every row can be turned into tuples. *)
Lemma load_transactions_loop_returns (bs : Z) (customer_map : dict Z)
  (rows : list Row) :
  (forall r, In r rows ->
             is_ok (append_row customer_map empty_batches r) = true) ->
  forall b c, exists c' b',
    load_transactions_loop bs customer_map rows b c = (c', Ok b').
Proof.
  induction rows as [| r rows IH]; intros Hok b c.
  - exists c, b. reflexivity.
  - cbn [load_transactions_loop]. unfold bind at 1.
    unfold load_transactions_row, bind, lift.
    pose proof (Hok r (or_introl eq_refl)) as Hr.
    rewrite (append_row_ok_any customer_map customer_map empty_batches b r)
      in Hr.
    destruct (append_row customer_map b r) as [b1 |]; [ | discriminate Hr ].
    destruct (Z.of_nat (List.length (trans_batch b1)) >=? bs).
    + rewrite flush_run. apply IH. intros r' Hr'. apply Hok. right. exact Hr'.
    + apply IH. intros r' Hr'. apply Hok. right. exact Hr'.
Qed.

Lemma row_tuples_rows_ok (customer_map : dict Z) (rows : list Row)
  (d : Batches) :
  row_tuples customer_map rows = Ok d ->
  forall r, In r rows ->
            is_ok (append_row customer_map empty_batches r) = true.
Proof.
  unfold row_tuples. revert d.
  induction rows as [| r0 rows IH]; intros d H r Hin; [ destruct Hin | ].
  cbn [for_each] in H.
  destruct (append_row customer_map empty_batches r0) as [e |] eqn:E;
    [ | discriminate H ].
  destruct Hin as [<- | Hin]; [ rewrite E; reflexivity | ].
  rewrite for_each_append_row_app in H.
  destruct (row_tuples customer_map rows) as [d' |] eqn:Ed;
    [ | discriminate H ].
  eapply IH; eauto.
Qed.

(** ** Counting *)

Lemma audio_data_some (row : Row) (o : option Audio) :
  audio_data row = Ok o ->
  (if truthy (audio_transcript row) then exists a, o = Some a else o = None).
Proof.
  unfold audio_data. destruct (truthy (audio_transcript row)).
  - intros H. peel H. injection H as <-. eauto.
  - intros H. injection H as <-. reflexivity.
Qed.

Lemma append_row_totals (customer_map : dict Z) (b b1 : Batches)
  (row : Row) :
  append_row customer_map b row = Ok b1 ->
  totals b1 = add4 (totals b) (row_weight row).
Proof.
  unfold append_row. intros H. peel H. injection H as <-.
  match goal with E : audio_data row = Ok _ |- _ =>
    apply audio_data_some in E; rename E into Ha end.
  unfold totals, add4, row_weight, video_data.
  cbn [trans_batch items_batch audio_batch video_batch transaction_count
         item_count audio_count video_count].
  rewrite !length_app. cbn [List.length].
  destruct (truthy (audio_transcript row)), (truthy (video_objects row));
    [ destruct Ha as (au & ->) | destruct Ha as (au & ->)
    | subst | subst ];
    cbn [append_opt]; rewrite ?length_app; cbn [List.length];
    repeat match goal with |- (_, _) = (_, _) => f_equal end; lia.
Qed.

Lemma flush_totals (b b' : Batches) (c c' : Conn) :
  flush b c = (c', Ok b') -> totals b' = totals b.
Proof.
  rewrite flush_run. intros H. injection H as _ <-.
  unfold totals. cbn. rewrite !Z.add_0_r. reflexivity.
Qed.

Lemma load_transactions_loop_totals (bs : Z) (customer_map : dict Z)
  (rows : list Row) :
  forall b c c' b',
    load_transactions_loop bs customer_map rows b c = (c', Ok b') ->
    totals b' = totals_after rows (totals b).
Proof.
  unfold totals_after.
  induction rows as [| r rows IH]; intros b c c' b' H.
  - injection H as _ <-. reflexivity.
  - cbn [load_transactions_loop] in H. unfold bind at 1 in H.
    destruct (load_transactions_row bs customer_map b r c)
      as [c1 [b1 | e]] eqn:E; [ | discriminate H ].
    cbn [fold_left]. rewrite (IH _ _ _ _ H). f_equal.
    unfold load_transactions_row, bind, lift in E.
    destruct (append_row customer_map b r) as [bx |] eqn:Er;
      [ | discriminate E ].
    apply append_row_totals in Er. rewrite <- Er.
    destruct (Z.of_nat (List.length (trans_batch bx)) >=? bs).
    + eapply flush_totals; eauto.
    + injection E as _ <-. reflexivity.
Qed.

Lemma row_tuples_totals (customer_map : dict Z) (rows : list Row) :
  forall b d,
    for_each (append_row customer_map) rows b = Ok d ->
    totals d = totals_after rows (totals b).
Proof.
  unfold totals_after.
  induction rows as [| r rows IH]; intros b d H.
  - injection H as <-. reflexivity.
  - cbn [for_each] in H.
    destruct (append_row customer_map b r) as [bx |] eqn:Er;
      [ | discriminate H ].
    cbn [fold_left]. rewrite (IH _ _ H). f_equal.
    eapply append_row_totals. exact Er.
Qed.

Lemma totals_after_counts (rows : list Row) :
  forall t i a v,
    totals_after rows (t, i, a, v)
    = add4 (t, i, a, v) (counts_of rows).
Proof.
  unfold totals_after, counts_of.
  induction rows as [| r rows IH]; intros t i a v; cbn [fold_left].
  - cbn. rewrite !Z.add_0_r. reflexivity.
  - unfold add4 at 2, row_weight. rewrite IH. cbn [filter List.length add4].
    destruct (truthy (audio_transcript r)), (truthy (video_objects r));
      cbn [List.length];
      repeat match goal with |- (_, _) = (_, _) => f_equal end; lia.
Qed.

(** What [load_transactions] amounts to, whatever the batch size. *)
Lemma load_transactions_writes (self : DataLoader) (c c' : Conn)
  (counts : Z * Z * Z * Z) :
  load_transactions self c = (c', Ok counts) ->
  exists d,
    row_tuples (select_customer_map (pending c)) (csv_file self) = Ok d /\
    pending c' = write_all d (pending c) /\
    counts = counts_of (csv_file self).
Proof.
  unfold load_transactions, bind, emit, query.
  cbn [committed pending log]. intros H.
  match type of H with context [load_transactions_loop ?bs ?m ?rows ?b ?c0] =>
    destruct (load_transactions_loop bs m rows b c0) as [c1 [b1 | e]] eqn:E
  end; [ | discriminate H ].
  assert (Hinv : batches_inv b1).
  { eapply load_transactions_loop_inv;
      [ exact E | exact batches_inv_empty ]. }
  assert (Htot : totals b1
                 = totals_after (csv_file self) (totals empty_batches)).
  { eapply load_transactions_loop_totals. exact E. }
  assert (Hex : exists d,
             row_tuples (select_customer_map (pending c)) (csv_file self)
             = Ok d /\
             write_all b1 (pending c1)
             = write_all (batches_app empty_batches d) (pending c)).
  { eapply load_transactions_loop_writes in E. exact E. }
  destruct Hex as (d & Hd & Hw).
  rewrite (write_all_buffers (batches_app empty_batches d) d) in Hw
    by reflexivity.
  change (totals empty_batches) with (0, 0, 0, 0) in Htot.
  rewrite totals_after_counts in Htot. cbn [add4] in Htot.
  exists d. split; [ exact Hd | ].
  destruct (is_nil (trans_batch b1)) eqn:En.
  - unfold ret in H. injection H as <- <-.
    assert (Ht : trans_batch b1 = [])
      by (destruct (trans_batch b1); [ reflexivity | discriminate En ]).
    destruct (batches_inv_nil Hinv Ht) as (Hi & Ha & Hv).
    split.
    + rewrite <- Hw. symmetry. apply write_all_nothing; assumption.
    + unfold totals in Htot. rewrite Ht, Hi, Ha, Hv in Htot.
      cbn [List.length Z.of_nat] in Htot. rewrite !Z.add_0_r in Htot.
      exact Htot.
  - rewrite flush_run in H. unfold ret in H. injection H as <- <-.
    cbn [pending transaction_count item_count audio_count video_count].
    split; [ exact Hw | exact Htot ].
Qed.

Lemma load_transactions_returns (self : DataLoader) (c : Conn) :
  (forall r, In r (csv_file self) ->
     is_ok (append_row (select_customer_map (pending c)) empty_batches r)
     = true) ->
  exists c' counts, load_transactions self c = (c', Ok counts).
Proof.
  intros Hok. unfold load_transactions, bind, emit, query.
  cbn [committed pending log].
  match goal with |- context [load_transactions_loop ?bs ?m ?rows ?b ?c0] =>
    destruct (@load_transactions_loop_returns bs m rows Hok b c0)
      as (c1 & b1 & ->) end.
  destruct (is_nil (trans_batch b1)).
  - unfold ret. eauto.
  - rewrite flush_run. unfold ret. eauto.
Qed.

(** X12: the batch size does not show in the data.  When
    [load_transactions] returns, the fact tables are what one write of
    the tuples of all the rows, in file order, makes of them; so a loader
    with any other batch size returns too, reports the same counts and
    leaves the same tables. *)
Theorem batch_size_does_not_change_the_data (self : DataLoader)
  (c c' : Conn) (counts : Z * Z * Z * Z) (batch : Z) :
  load_transactions self c = (c', Ok counts) ->
  (exists d,
      row_tuples (select_customer_map (pending c)) (csv_file self) = Ok d /\
      pending c' = write_all d (pending c)) /\
  (exists c'',
      load_transactions (with_batch_size batch self) c = (c'', Ok counts) /\
      pending c'' = pending c').
Proof.
  intros H. destruct (load_transactions_writes _ _ H) as (d & Hd & Hp & Hc).
  split; [ eauto | ].
  destruct (@load_transactions_returns (with_batch_size batch self) c)
    as (c'' & counts'' & H'').
  { cbn [csv_file with_batch_size]. eapply row_tuples_rows_ok. exact Hd. }
  destruct (load_transactions_writes _ _ H'') as (d' & Hd' & Hp' & Hc').
  cbn [csv_file with_batch_size] in Hd', Hc'.
  rewrite Hd in Hd'. injection Hd' as <-.
  exists c''. split; [ | congruence ].
  rewrite H''. congruence.
Qed.

Lemma batch_size_does_not_change_the_data_witness :
  exists c' counts,
    load_transactions (new_DataLoader [sample_row; row_second] 1)
      sample_conn = (c', Ok counts) /\
    (exists d,
        row_tuples (select_customer_map (pending sample_conn))
          (csv_file (new_DataLoader [sample_row; row_second] 1)) = Ok d /\
        pending c' = write_all d (pending sample_conn)) /\
    (exists c'',
        load_transactions
          (with_batch_size 1000 (new_DataLoader [sample_row; row_second] 1))
          sample_conn = (c'', Ok counts) /\
        pending c'' = pending c').
Proof.
  eexists. eexists. split; [ vm_compute; reflexivity | ].
  apply (@batch_size_does_not_change_the_data
           (new_DataLoader [sample_row; row_second] 1) sample_conn).
  vm_compute. reflexivity.
Defined.

(** X13: the counts [load_transactions] reports are those of the file:
    one transaction and one item per row, one audio transcript per row
    with a transcript, one video signal per row with detected objects;
    and the item, audio and video tables grow by exactly as many rows. *)
Theorem load_transactions_reports_the_file (self : DataLoader)
  (c c' : Conn) (counts : Z * Z * Z * Z) :
  load_transactions self c = (c', Ok counts) ->
  counts
  = (Z.of_nat (List.length (csv_file self)),
     Z.of_nat (List.length (csv_file self)),
     Z.of_nat (List.length
                 (filter (fun r => truthy (audio_transcript r))
                    (csv_file self))),
     Z.of_nat (List.length
                 (filter (fun r => truthy (video_objects r))
                    (csv_file self)))) /\
  List.length (transaction_items_t (pending c'))
  = (List.length (transaction_items_t (pending c))
     + List.length (csv_file self))%nat /\
  List.length (audio_transcripts_t (pending c'))
  = (List.length (audio_transcripts_t (pending c))
     + List.length (filter (fun r => truthy (audio_transcript r))
                      (csv_file self)))%nat /\
  List.length (video_signals_t (pending c'))
  = (List.length (video_signals_t (pending c))
     + List.length (filter (fun r => truthy (video_objects r))
                      (csv_file self)))%nat.
Proof.
  intros H. destruct (load_transactions_writes _ _ H) as (d & Hd & Hp & Hc).
  split; [ exact Hc | ].
  pose proof (row_tuples_totals _ _ _ Hd) as Ht.
  change (totals empty_batches) with (0, 0, 0, 0) in Ht.
  rewrite totals_after_counts in Ht.
  unfold row_tuples in Hd.
  assert (Hcnt : transaction_count d = 0 /\ item_count d = 0 /\
                 audio_count d = 0 /\ video_count d = 0).
  { rewrite for_each_append_row_app in Hd.
    destruct (row_tuples (select_customer_map (pending c)) (csv_file self));
      [ | discriminate Hd ].
    injection Hd as <-. cbn. auto. }
  destruct Hcnt as (C1 & C2 & C3 & C4).
  unfold totals, counts_of, add4 in Ht. rewrite C1, C2, C3, C4 in Ht.
  cbn [Z.add] in Ht. injection Ht as _ Hi Ha Hv.
  apply Nat2Z.inj in Hi, Ha, Hv.
  rewrite Hp, flush_appends_items.
  destruct (audio_video_t_write_all d (pending c)) as [-> ->].
  rewrite !length_app, Hi, Ha, Hv. auto.
Qed.

Lemma load_transactions_reports_the_file_witness :
  exists c' counts,
    load_transactions (new_DataLoader [sample_row; row_second] 1000)
      sample_conn = (c', Ok counts) /\
    counts
    = (Z.of_nat (List.length
                   (csv_file (new_DataLoader [sample_row; row_second] 1000))),
       Z.of_nat (List.length
                   (csv_file (new_DataLoader [sample_row; row_second] 1000))),
       Z.of_nat (List.length
                   (filter (fun r => truthy (audio_transcript r))
                      (csv_file
                         (new_DataLoader [sample_row; row_second] 1000)))),
       Z.of_nat (List.length
                   (filter (fun r => truthy (video_objects r))
                      (csv_file
                         (new_DataLoader [sample_row; row_second] 1000))))) /\
    List.length (transaction_items_t (pending c'))
    = (List.length (transaction_items_t (pending sample_conn))
       + List.length
           (csv_file (new_DataLoader [sample_row; row_second] 1000)))%nat /\
    List.length (audio_transcripts_t (pending c'))
    = (List.length (audio_transcripts_t (pending sample_conn))
       + List.length
           (filter (fun r => truthy (audio_transcript r))
              (csv_file (new_DataLoader [sample_row; row_second] 1000))))%nat /\
    List.length (video_signals_t (pending c'))
    = (List.length (video_signals_t (pending sample_conn))
       + List.length
           (filter (fun r => truthy (video_objects r))
              (csv_file (new_DataLoader [sample_row; row_second] 1000))))%nat.
Proof.
  eexists. eexists. split; [ vm_compute; reflexivity | ].
  apply (@load_transactions_reports_the_file
           (new_DataLoader [sample_row; row_second] 1000) sample_conn).
  vm_compute. reflexivity.
Defined.

(** The count of transactions is that of the rows read, not of the rows
    inserted: on the sample database, which holds the sample transaction,
    the loader reports one transaction and inserts none. *)
Example reported_count_is_not_inserted_count :
  (snd (load_transactions (new_DataLoader [sample_row] 1000) sample_conn),
   List.length (transactions_t (pending sample_conn)),
   List.length
     (transactions_t
        (pending
           (fst (load_transactions (new_DataLoader [sample_row] 1000)
                   sample_conn)))))
  = (Ok (1, 1, 1, 1), 1%nat, 1%nat).
Proof. vm_compute. reflexivity. Qed.

(** ** Rows before a row that does not parse *)




(* ===================================================================== *)
(** * Detected objects                                                    *)
(* ===================================================================== *)

Lemma str_app_nil_r (s : string) : (s ++ "")%string = s.
Proof. induction s as [| c s IH]; simpl; [ | rewrite IH ]; reflexivity. Qed.

Lemma str_app_assoc (a b c : string) :
  ((a ++ b) ++ c)%string = (a ++ b ++ c)%string.
Proof. induction a as [| x a IH]; simpl; [ | rewrite IH ]; reflexivity. Qed.

Lemma has_char_app (c : ascii) (a b : string) :
  has_char c (a ++ b) = has_char c a || has_char c b.
Proof.
  induction a as [| x a IH]; simpl; [ reflexivity | ].
  rewrite IH, orb_assoc. reflexivity.
Qed.

Lemma split_aux_not_nil (sep : ascii) (s : string) :
  forall cur, split_aux sep cur s <> [].
Proof.
  induction s as [| c s IH]; intros cur; cbn [split_aux].
  - discriminate.
  - destruct (Ascii.eqb c sep); [ discriminate | apply IH ].
Qed.

Lemma join_cons (sep x : string) (l : list string) :
  l <> [] -> join sep (x :: l) = (x ++ sep ++ join sep l)%string.
Proof. destruct l; [ congruence | reflexivity ]. Qed.

(** Joining what [split] gives restores the string. *)
Lemma join_split_aux (sep : ascii) (s : string) :
  forall cur,
    join (String sep "") (split_aux sep cur s) = (cur ++ s)%string.
Proof.
  induction s as [| c s IH]; intros cur; cbn [split_aux].
  - cbn [join]. symmetry. apply str_app_nil_r.
  - destruct (Ascii.eqb_spec c sep) as [-> | Hne].
    + rewrite join_cons by apply split_aux_not_nil. rewrite IH. reflexivity.
    + rewrite IH, str_app_assoc. reflexivity.
Qed.

(** No piece of a split holds the separator. *)
Lemma split_aux_clean (sep : ascii) (s : string) :
  forall cur o,
    has_char sep cur = false ->
    In o (split_aux sep cur s) -> has_char sep o = false.
Proof.
  induction s as [| c s IH]; intros cur o Hcur; cbn [split_aux].
  - intros [<- | []]. exact Hcur.
  - destruct (Ascii.eqb c sep) eqn:E.
    + intros [<- | Hin]; [ exact Hcur | ].
      apply (IH "" o); [ reflexivity | exact Hin ].
    + apply IH. rewrite has_char_app, Hcur. simpl. rewrite E. reflexivity.
Qed.

Lemma split_aux_app_clean (sep : ascii) (x : string) :
  has_char sep x = false ->
  forall cur s,
    split_aux sep cur (x ++ s) = split_aux sep (cur ++ x) s.
Proof.
  induction x as [| c x IH]; intros Hx cur s.
  - rewrite str_app_nil_r. reflexivity.
  - simpl in Hx. apply orb_false_iff in Hx. destruct Hx as [Hc Hx].
    cbn [append split_aux]. rewrite Hc, (IH Hx), str_app_assoc.
    reflexivity.
Qed.

(** Splitting a join of pieces without the separator restores the
    pieces. *)
Lemma split_aux_join (sep : ascii) (l : list string) :
  forall cur x,
    (forall o, In o (x :: l) -> has_char sep o = false) ->
    split_aux sep cur (join (String sep "") (x :: l)) = (cur ++ x)%string :: l.
Proof.
  induction l as [| y l IH]; intros cur x Hclean.
  - cbn [join]. rewrite <- (str_app_nil_r x) at 1.
    rewrite split_aux_app_clean by (apply Hclean; left; reflexivity).
    reflexivity.
  - rewrite join_cons by discriminate.
    rewrite split_aux_app_clean by (apply Hclean; left; reflexivity).
    cbn [append split_aux]. rewrite Ascii.eqb_refl.
    rewrite IH by (intros o Ho; apply Hclean; right; exact Ho).
    reflexivity.
Qed.

(** X15: a row that loads adds nothing to the video buffer when its
    [video_objects] column is empty, and exactly one tuple when it is not;
    the objects of the tuple are the pieces of the column between bars:
    there is at least one, none holds a bar, and joined by bars they give
    the column back. *)
Theorem video_fact_gating_and_objects (customer_map : dict Z)
  (b b' : Batches) (row : Row) :
  append_row customer_map b row = Ok b' ->
  (video_objects row = "" -> video_batch b' = video_batch b) /\
  (video_objects row <> "" ->
   exists v,
     video_batch b' = video_batch b ++ [v] /\
     v_transaction_id v = transaction_id row /\
     v_products_visible v = [product_name row] /\
     v_objects_detected v <> [] /\
     (forall o, In o (v_objects_detected v) -> has_char "|" o = false) /\
     join "|" (v_objects_detected v) = video_objects row).
Proof.
  unfold append_row. intros H. peel H. injection H as <-.
  cbn [video_batch]. unfold video_data.
  destruct (truthy (video_objects row)) eqn:Et.
  - apply truthy_true_iff in Et. split; [ congruence | ]. intros _.
    eexists. split; [ reflexivity | ].
    cbn [v_transaction_id v_products_visible v_objects_detected].
    split; [ reflexivity | ]. split; [ reflexivity | ].
    unfold split. split; [ apply split_aux_not_nil | ]. split.
    + intros o Ho. eapply split_aux_clean; [ | exact Ho ]. reflexivity.
    + apply (join_split_aux "|" (video_objects row) "").
  - apply truthy_false_iff in Et. split; [ reflexivity | congruence ].
Qed.

Lemma video_fact_gating_and_objects_witness :
  exists b',
    append_row [] empty_batches sample_row = Ok b' /\
    (video_objects sample_row = "" ->
     video_batch b' = video_batch empty_batches) /\
    (video_objects sample_row <> "" ->
     exists v,
       video_batch b' = video_batch empty_batches ++ [v] /\
       v_transaction_id v = transaction_id sample_row /\
       v_products_visible v = [product_name sample_row] /\
       v_objects_detected v <> [] /\
       (forall o, In o (v_objects_detected v) -> has_char "|" o = false) /\
       join "|" (v_objects_detected v) = video_objects sample_row).
Proof.
  eexists. split.
  - vm_compute. reflexivity.
  - apply (@video_fact_gating_and_objects [] empty_batches _ sample_row).
    vm_compute. reflexivity.
Defined.

Lemma VIDEO_OBJECTS_clean (o : string) :
  In o VIDEO_OBJECTS -> has_char "|" o = false.
Proof.
  unfold VIDEO_OBJECTS. simpl.
  intros H. repeat (destruct H as [<- | H]; [ reflexivity | ]). destruct H.
Qed.

(** X16: the detected objects survive the trip through the file.  For any
    sample [objects] of [VIDEO_OBJECTS] that is not empty, the loader
    reads from the column the generator writes for it a video tuple whose
    objects are [objects], in the same order. *)
Theorem video_objects_round_trip (objects : list string) (row : Row) :
  objects <> [] ->
  (forall o, In o objects -> In o VIDEO_OBJECTS) ->
  exists v,
    video_data (with_video_objects (generate_video_objects objects) row)
    = Some v /\
    v_objects_detected v = objects.
Proof.
  intros Hne Hin. destruct objects as [| x l]; [ congruence | ].
  assert (Hclean : forall o, In o (x :: l) -> has_char "|" o = false)
    by (intros o Ho; apply VIDEO_OBJECTS_clean, Hin, Ho).
  unfold video_data, generate_video_objects.
  cbn [video_objects with_video_objects].
  assert (Hsplit : split "|" (join "|" (x :: l)) = x :: l)
    by (apply (@split_aux_join "|" l "" x Hclean)).
  destruct (truthy (join "|" (x :: l))) eqn:Et.
  - eexists. split; [ reflexivity | ]. exact Hsplit.
  - exfalso. apply truthy_false_iff in Et. rewrite Et in Hsplit.
    cbn in Hsplit. injection Hsplit as Hx Hl. subst.
    specialize (Hin "" (or_introl eq_refl)). unfold VIDEO_OBJECTS in Hin.
    simpl in Hin. intuition discriminate.
Qed.

Lemma video_objects_round_trip_witness :
  ["poster"; "shelf"; "box"] <> [] /\
  (forall o, In o ["poster"; "shelf"; "box"] -> In o VIDEO_OBJECTS) /\
  exists v,
    video_data
      (with_video_objects (generate_video_objects ["poster"; "shelf"; "box"])
         sample_row)
    = Some v /\
    v_objects_detected v = ["poster"; "shelf"; "box"].
Proof.
  assert (H : forall o, In o ["poster"; "shelf"; "box"] ->
                        In o VIDEO_OBJECTS).
  { intros o [<- | [<- | [<- | []]]]; unfold VIDEO_OBJECTS; simpl; tauto. }
  split; [ discriminate | ]. split; [ exact H | ].
  apply (@video_objects_round_trip ["poster"; "shelf"; "box"] sample_row).
  - discriminate.
  - exact H.
Defined.

(* ===================================================================== *)
(** * Exceptions and outcomes of a run                                    *)
(* ===================================================================== *)





















(** ** The brands of the products *)









(** ** Files that parse *)







